(** * kalshi_arb: a shallow embedding of the trading core

    The Python sources under [src/kalshi_arb] are embedded module by
    module.  Python [float] values are carried as exact rationals [Q]
    (the specification speaks of real prices), Python [int] values as
    [Z], [str] as [string], [dict] as [gmap] (or as an insertion-ordered
    association list where iteration order is observable), [set] as
    [gset], and [datetime] values as rational seconds.  Calls to
    [datetime.now()] read a clock that is passed in explicitly. *)

From Stdlib Require Import QArith Qround Qabs Lqa Lia ZArith.
From stdpp Require Import gmap strings list fin_maps pretty.

(** ** Python numeric primitives on rationals *)

Module Py.

Definition leb (x y : Q) : bool := Qle_bool x y.
Definition ltb (x y : Q) : bool := negb (Qle_bool y x).

(** [max(a, b)] keeps the first argument unless the second is strictly
    greater; [min(a, b)] keeps the first unless the second is strictly
    smaller. *)
Definition max (a b : Q) : Q := if ltb a b then b else a.
Definition min (a b : Q) : Q := if ltb b a then b else a.

(** [int(x)] truncates toward zero; [math.ceil(x)] rounds up. *)
Definition int (x : Q) : Z := Z.quot (Qnum x) (Zpos (Qden x)).
Definition ceil (x : Q) : Z := Qceiling x.

(** [sum(xs)] starts from 0 and adds from the left. *)
Definition sum (xs : list Q) : Q := foldl Qplus 0%Q xs.

(** [min(xs)] on a list of integers ([None] where Python raises on an
    empty sequence). *)
Definition min_list (xs : list Z) : option Z :=
  match xs with
  | [] => None
  | x :: rest => Some (foldl (fun acc y => if (y <? acc)%Z then y else acc) x rest)
  end.

(** Exceptions raised by the embedded code, and computations that may
    raise. *)
Inductive exn :=
| ValueError (msg : string)
| ZeroDivisionError.

Inductive result (A : Type) :=
| Ok (a : A)
| Raise (e : exn).
Arguments Ok {A} a.
Arguments Raise {A} e.

Definition bind {A B} (r : result A) (k : A -> result B) : result B :=
  match r with
  | Ok a => k a
  | Raise e => Raise e
  end.

(** Float division [x / y] raises on a zero divisor. *)
Definition div (x y : Q) : result Q :=
  if Qeq_bool y 0 then Raise ZeroDivisionError else Ok (x / y)%Q.

End Py.

(** ** utils/fees.py *)

Module Fees.

Definition calculate_fee (price : Q) (num_contracts : Z) : Q :=
  if negb (Py.ltb 0 price && Py.ltb price 1) then 0%Q
  else
    let fee_per_contract := (0.07 * price * (1 - price))%Q in
    let fee_cents := Py.ceil (fee_per_contract * 100) in
    ((inject_Z fee_cents / 100) * inject_Z num_contracts)%Q.

Definition calculate_total_fees (prices : list Q) (num_contracts : Z) : Q :=
  Py.sum (map (fun p => calculate_fee p num_contracts) prices).

Definition fee_as_percentage (price : Q) : Q :=
  if negb (Py.ltb 0 price && Py.ltb price 1) then 0%Q
  else (calculate_fee price 1 / price)%Q.

End Fees.

(** ** models/signal.py *)

Module Signal.

Inductive SignalDirection := BUY_YES | BUY_NO.
Inductive SignalType := REBALANCING | CONSTRAINT_VIOLATION | COMBINATORIAL.

(** [created_at] and [expires_at], which none of the embedded functions
    reads, are left out. *)
Record DirectionalSignal := {
  ticker : string;
  direction : SignalDirection;
  signal_type : SignalType;
  current_price : Q;
  bound_price : Q;
  raw_edge : Q;
  estimated_fee : Q;
  estimated_spread : Q;
  net_edge : Q;
  confidence : Q;
  source_constraint_id : string
}.

(** The pydantic field constraints of [DirectionalSignal]. *)
Definition validated (s : DirectionalSignal) : Prop :=
  (0 <= current_price s <= 1 /\ 0 <= bound_price s <= 1 /\
   0 <= estimated_fee s /\ 0 <= estimated_spread s /\
   0 <= confidence s <= 1)%Q.

Record RebalancingOpportunity := {
  market_id : string;
  side : string;
  conditions : list string;
  prices : list Q;
  price_sum : Q;
  deviation : Q;
  profit_pre_fee : Q;
  total_fees : Q;
  profit_post_fee : Q;
  min_liquidity : Z;
  created_at : Q
}.

Definition is_profitable (o : RebalancingOpportunity) : bool :=
  Py.ltb 0.01 (profit_post_fee o).

End Signal.

(** ** signals/rebalancing_detector.py *)

Module RebalancingDetector.
Import Signal.

Record t := { min_profit_threshold : Q }.

(** [__init__] with its default argument. *)
Definition init : t := {| min_profit_threshold := 0.01 |}.

(** [quantities] is [None] for the default argument; an empty list is
    falsy as well.  [now] is the reading of [datetime.now()]. *)
Definition scan_market (self : t) (now : Q) (market_id : string)
    (conditions : list string) (prices : list Q)
    (quantities : option (list Z)) : option RebalancingOpportunity :=
  if (length conditions <? 2)%nat || negb (length conditions =? length prices)%nat
  then None
  else
    let price_sum := Py.sum prices in
    let deviation := Qabs (price_sum - 1) in
    if Py.ltb deviation 0.001 then None
    else
      let total_fees := Fees.calculate_total_fees prices 1 in
      let '(profit_pre_fee, profit_post_fee, side) :=
        if Py.ltb price_sum 1
        then ((1 - price_sum)%Q, (1 - price_sum - total_fees)%Q, "long")
        else ((price_sum - 1)%Q, (price_sum - 1 - total_fees)%Q, "short") in
      let min_liquidity :=
        match quantities with
        | Some qs => default 0%Z (Py.min_list qs)
        | None => 0%Z
        end in
      let opportunity :=
        {| market_id := market_id; side := side; conditions := conditions;
           prices := prices; price_sum := price_sum; deviation := deviation;
           profit_pre_fee := profit_pre_fee; total_fees := total_fees;
           profit_post_fee := profit_post_fee; min_liquidity := min_liquidity;
           created_at := now |} in
      if is_profitable opportunity
         && Py.leb (min_profit_threshold self) profit_post_fee
      then Some opportunity
      else None.

End RebalancingDetector.

(** ** models/constraint.py *)

Module Constraint.

Inductive ConstraintType := SUBSET | PARTITION | TEMPORAL.

(** [ConstraintType.value] *)
Definition value (ct : ConstraintType) : string :=
  match ct with
  | SUBSET => "subset"
  | PARTITION => "partition"
  | TEMPORAL => "temporal"
  end.

Record Constraint := {
  id : string;
  constraint_type : ConstraintType;
  lhs_tickers : list string;
  rhs_tickers : list string;
  description : string
}.

(** [list(set(self.lhs_tickers + self.rhs_tickers))] *)
Definition all_tickers (c : Constraint) : list string :=
  elements (list_to_set (lhs_tickers c ++ rhs_tickers c) : gset string).

Record ProbabilityBound := {
  ticker : string;
  lower : Q;
  upper : Q;
  source_constraint_id : string;
  confidence : Q
}.

(** [ProbabilityBound.merge] *)
Definition merge (self other : ProbabilityBound) : Py.result ProbabilityBound :=
  if negb (String.eqb (ticker self) (ticker other))
  then Py.Raise (Py.ValueError "Cannot merge bounds for different tickers")
  else Py.Ok {| ticker := ticker self;
             lower := Py.max (lower self) (lower other);
             upper := Py.min (upper self) (upper other);
             source_constraint_id :=
               source_constraint_id self +:+ "+" +:+ source_constraint_id other;
             confidence := Py.min (confidence self) (confidence other) |}.

(** The folding loop of [ConstraintEngine.calculate_bounds]:
    [merged = all_bounds[0]; for bound in all_bounds[1:]: merged = merged.merge(bound)]. *)
Fixpoint merge_from (merged : ProbabilityBound) (rest : list ProbabilityBound)
  : Py.result ProbabilityBound :=
  match rest with
  | [] => Py.Ok merged
  | bound :: rest' => Py.bind (merge merged bound) (fun m => merge_from m rest')
  end.

(** The fold over a whole list; [None] for an empty list, for which the
    loop is not entered. *)
Definition merge_all (all_bounds : list ProbabilityBound)
  : option (Py.result ProbabilityBound) :=
  match all_bounds with
  | [] => None
  | b :: rest => Some (merge_from b rest)
  end.

(** [ProbabilityBound.contains] and [ProbabilityBound.violation] *)
Definition contains (self : ProbabilityBound) (price : Q) : bool :=
  Py.leb (lower self) price && Py.leb price (upper self).

Definition violation (self : ProbabilityBound) (price : Q) : Q :=
  if Py.ltb price (lower self) then (lower self - price)%Q
  else if Py.ltb (upper self) price then (price - upper self)%Q
  else 0%Q.

End Constraint.

(** ** engine/bound_calculator.py *)

Module BoundCalculator.
Import Constraint.

(** [{t: prices[t] for t in tickers if t in prices}] *)
Definition available_prices (tickers : list string) (prices : gmap string Q)
  : gmap string Q :=
  foldl (fun acc t => match prices !! t with
                      | Some p => <[t := p]> acc
                      | None => acc
                      end) ∅ tickers.

(** [sum(d.values())]; the order in which the values are met does not
    change a sum of rationals. *)
Definition sum_values (d : gmap string Q) : Q :=
  Py.sum ((map_to_list d).*2).

Definition calculate_partition_bounds (constraint : Constraint)
    (prices : gmap string Q) : list ProbabilityBound :=
  let tickers := lhs_tickers constraint in
  let available := available_prices tickers prices in
  if (size available <? 2)%nat then []
  else
    let total := sum_values available in
    omap (fun ticker =>
            match available !! ticker with
            | None => None
            | Some p =>
                let other_sum := (total - p)%Q in
                let implied_upper := Py.max 0 (Py.min 1 (1 - other_sum)) in
                Some {| ticker := ticker; lower := 0; upper := implied_upper;
                        source_constraint_id := id constraint;
                        confidence := 1 |}
            end) tickers.

(** [ProbabilityBound(ticker=..., lower=..., upper=..., source_constraint_id=...)]:
    the model checks [lower] and [upper] against [0, 1]; [None] stands
    for the [ValidationError] of a value outside. *)
Definition in_unit (x : Q) : bool := Py.leb 0 x && Py.leb x 1.

Definition new_bound (ticker : string) (lower upper : Q) (source : string)
  : option ProbabilityBound :=
  if in_unit lower && in_unit upper
  then Some {| ticker := ticker; lower := lower; upper := upper;
               source_constraint_id := source; confidence := 1 |}
  else None.

Definition calculate_subset_bounds (constraint : Constraint)
    (prices : gmap string Q) : option (list ProbabilityBound) :=
  match lhs_tickers constraint, rhs_tickers constraint with
  | [subset_ticker], [superset_ticker] =>
      let subset_price := prices !! subset_ticker in
      let superset_price := prices !! superset_ticker in
      match
        match subset_price with
        | Some p =>
            option_map (fun b => [b]) (new_bound superset_ticker p 1 (id constraint))
        | None => Some []
        end
      with
      | None => None
      | Some bounds =>
          match superset_price with
          | Some p =>
              option_map (fun b => bounds ++ [b])
                (new_bound subset_ticker 0 p (id constraint))
          | None => Some bounds
          end
      end
  | _, _ => Some []
  end.

Definition calculate_temporal_bounds (constraint : Constraint)
    (prices : gmap string Q) : option (list ProbabilityBound) :=
  calculate_subset_bounds constraint prices.

Definition calculate_bounds (constraint : Constraint) (prices : gmap string Q)
  : option (list ProbabilityBound) :=
  match constraint_type constraint with
  | SUBSET => calculate_subset_bounds constraint prices
  | PARTITION => Some (calculate_partition_bounds constraint prices)
  | TEMPORAL => calculate_temporal_bounds constraint prices
  end.

End BoundCalculator.

(** ** engine/constraint_engine.py *)

Module ConstraintEngine.
Import Constraint.

Record t := {
  _constraints : gmap string Constraint;
  _ticker_index : gmap string (gset string)
}.

(** [__init__] without a storage path. *)
Definition init : t := {| _constraints := ∅; _ticker_index := ∅ |}.

(** One round of the indexing loop:
    [if ticker not in index: index[ticker] = set()] and then
    [index[ticker].add(constraint_id)]. *)
Definition index_add (constraint_id : string)
    (index : gmap string (gset string)) (ticker : string)
  : gmap string (gset string) :=
  <[ticker := default ∅ (index !! ticker) ∪ {[constraint_id]}]> index.

(** [if ticker in index: index[ticker].discard(constraint_id)] *)
Definition index_discard (constraint_id : string)
    (index : gmap string (gset string)) (ticker : string)
  : gmap string (gset string) :=
  match index !! ticker with
  | Some ids => <[ticker := ids ∖ {[constraint_id]}]> index
  | None => index
  end.

(** [now_ms] is [int(time.time() * 1000)], used only when no id is given.
    [_save_constraints], which writes the registry to the storage path
    and leaves the engine as it is, is not modelled. *)
Definition register_constraint (self : t) (now_ms : Z)
    (constraint_type : ConstraintType) (lhs_tickers rhs_tickers : list string)
    (description : string) (constraint_id : option string) : Constraint * t :=
  let constraint_id :=
    match constraint_id with
    | Some cid => cid
    | None => value constraint_type +:+ "_" +:+ pretty now_ms
    end in
  let constraint :=
    {| id := constraint_id; constraint_type := constraint_type;
       lhs_tickers := lhs_tickers; rhs_tickers := rhs_tickers;
       description := description |} in
  (constraint,
   {| _constraints := <[constraint_id := constraint]> (_constraints self);
      _ticker_index :=
        foldl (index_add constraint_id) (_ticker_index self)
              (all_tickers constraint) |}).

Definition get_constraint (self : t) (constraint_id : string) : option Constraint :=
  _constraints self !! constraint_id.

Definition get_constraints_for_ticker (self : t) (ticker : string)
  : list Constraint :=
  let constraint_ids := default ∅ (_ticker_index self !! ticker) in
  omap (fun cid => _constraints self !! cid) (elements constraint_ids).

Definition remove_constraint (self : t) (constraint_id : string) : bool * t :=
  match _constraints self !! constraint_id with
  | None => (false, self)
  | Some constraint =>
      (true,
       {| _constraints := delete constraint_id (_constraints self);
          _ticker_index :=
            foldl (index_discard constraint_id) (_ticker_index self)
                  (all_tickers constraint) |})
  end.

(** The three registration helpers; each leaves the id to be generated,
    and [description or ...] keeps a non-empty description. *)
Definition register_subset (self : t) (now_ms : Z)
    (subset_ticker superset_ticker description : string) : Constraint * t :=
  register_constraint self now_ms SUBSET [subset_ticker] [superset_ticker]
    (if String.eqb description "" then subset_ticker +:+ " ⊂ " +:+ superset_ticker
     else description)
    None.

Definition register_partition (self : t) (now_ms : Z)
    (tickers : list string) (description : string) : Constraint * t :=
  register_constraint self now_ms PARTITION tickers []
    (if String.eqb description "" then "Partition: " +:+ String.concat ", " tickers
     else description)
    None.

Definition register_temporal (self : t) (now_ms : Z)
    (earlier_ticker later_ticker description : string) : Constraint * t :=
  register_constraint self now_ms TEMPORAL [earlier_ticker] [later_ticker]
    (if String.eqb description ""
     then earlier_ticker +:+ " (earlier) ⊂ " +:+ later_ticker +:+ " (later)"
     else description)
    None.

(** The operations a session performs on the registry. *)
Inductive op :=
| Register (now_ms : Z) (ct : ConstraintType) (lhs rhs : list string)
           (description : string) (constraint_id : option string)
| Remove (constraint_id : string).

Definition step (self : t) (o : op) : t :=
  match o with
  | Register now_ms ct lhs rhs d cid =>
      snd (register_constraint self now_ms ct lhs rhs d cid)
  | Remove cid => snd (remove_constraint self cid)
  end.

(** Engine states reachable from a fresh engine. *)
Definition run (ops : list op) : t := foldl step init ops.

End ConstraintEngine.

(** ** risk/position_sizer.py *)

Module PositionSizer.
Import Signal.

Record SizingConfig := {
  kelly_fraction : Q;
  max_position_per_market : Q;
  max_cluster_allocation : Q;
  min_position_size : Q;
  correlation_adjustment_per_position : Q
}.

Definition default_config : SizingConfig :=
  {| kelly_fraction := 0.25; max_position_per_market := 0.05;
     max_cluster_allocation := 0.10; min_position_size := 10;
     correlation_adjustment_per_position := 0.20 |}.

(** The pydantic field constraints of [SizingConfig]. *)
Definition validated (c : SizingConfig) : Prop :=
  (0 <= kelly_fraction c <= 1 /\ 0 <= max_position_per_market c <= 1 /\
   0 <= max_cluster_allocation c <= 1 /\ 0 <= min_position_size c /\
   0 <= correlation_adjustment_per_position c <= 1)%Q.

Section Sizer.
Variable config : SizingConfig.

Definition calculate_kelly (win_probability odds : Q) : Q :=
  if Py.leb win_probability 0 || Py.leb 1 win_probability then 0%Q
  else if Py.leb odds 0 then 0%Q
  else
    let q := (1 - win_probability)%Q in
    let kelly := ((win_probability * odds - q) / odds)%Q in
    Py.max 0 (Py.min 1 kelly).

Definition calculate_kelly_from_edge (edge price : Q) : Q :=
  if Py.leb edge 0 || Py.leb price 0 || Py.leb 1 price then 0%Q
  else
    let win_prob := Py.min 0.99 (price + edge) in
    let odds := ((1 - price) / price)%Q in
    calculate_kelly win_prob odds.

Definition apply_fractional_kelly (kelly : Q) : Q :=
  (kelly * kelly_fraction config)%Q.

Definition adjust_for_correlation (size : Q) (correlated_positions : Z) : Q :=
  if (correlated_positions <=? 0)%Z then size
  else
    let adjustment :=
      (1 - correlation_adjustment_per_position config
           * inject_Z correlated_positions)%Q in
    (size * Py.max 0.1 adjustment)%Q.

Definition adjust_for_costs (size spread fee : Q) : Q :=
  let cost_factor := (1 - 2 * spread - fee)%Q in
  (size * Py.max 0.5 cost_factor)%Q.

Definition calculate_position_size (signal : DirectionalSignal)
    (account_balance : Q) (correlated_positions : Z) : Q :=
  let kelly := calculate_kelly_from_edge (net_edge signal) (current_price signal) in
  let fractional := apply_fractional_kelly kelly in
  let adjusted := adjust_for_correlation fractional correlated_positions in
  let adjusted :=
    adjust_for_costs adjusted (estimated_spread signal) (estimated_fee signal) in
  let max_size := (account_balance * max_position_per_market config)%Q in
  let position_size := Py.min (adjusted * account_balance) max_size in
  if Py.ltb position_size (min_position_size config) then 0%Q
  else position_size.

Definition calculate_contracts (position_size price : Q) : Z :=
  if Py.leb price 0 || Py.leb position_size 0 then 0%Z
  else Py.int (position_size / price).

Definition size_signal (signal : DirectionalSignal) (account_balance : Q)
    (correlated_positions : Z) : Q * Z :=
  let dollar_size :=
    calculate_position_size signal account_balance correlated_positions in
  let price :=
    match direction signal with
    | BUY_NO => (1 - current_price signal)%Q
    | BUY_YES => current_price signal
    end in
  let num_contracts := calculate_contracts dollar_size price in
  (dollar_size, num_contracts).

Definition validate_cluster_limits
    (new_size cluster_exposure account_balance : Q) : Q :=
  let max_cluster := (account_balance * max_cluster_allocation config)%Q in
  let available := (max_cluster - cluster_exposure)%Q in
  if Py.leb available 0 then 0%Q
  else Py.min new_size available.

End Sizer.
End PositionSizer.

(** ** risk/risk_manager.py *)

Module RiskManager.

Inductive DrawdownAction := NONE | WARNING | REDUCE | STOP.

Record RiskConfig := {
  max_drawdown_warning : Q;
  max_drawdown_reduce : Q;
  max_drawdown_stop : Q;
  max_cluster_exposure : Q;
  max_single_position : Q;
  min_days_to_expiration : Q;
  correlation_spike_threshold : Q;
  stress_correlation : Q
}.

Definition default_config : RiskConfig :=
  {| max_drawdown_warning := 0.10; max_drawdown_reduce := 0.20;
     max_drawdown_stop := 0.30; max_cluster_exposure := 0.50;
     max_single_position := 0.10; min_days_to_expiration := 0.2;
     correlation_spike_threshold := 0.50; stress_correlation := 1.0 |}.

(** The fields of [RiskMetrics] that [update_account_value] sets; the
    others keep their defaults. *)
Record RiskMetrics := {
  account_value : Q;
  peak_value : Q;
  current_drawdown : Q;
  max_drawdown : Q;
  drawdown_action : DrawdownAction
}.

Record t := {
  config : RiskConfig;
  _peak_value : Q;
  _max_drawdown : Q;
  _value_history : list (Q * Q)
}.

Definition init (config : RiskConfig) : t :=
  {| config := config; _peak_value := 0; _max_drawdown := 0;
     _value_history := [] |}.

Definition _determine_drawdown_action (self : t) (drawdown : Q) : DrawdownAction :=
  if Py.leb (max_drawdown_stop (config self)) drawdown then STOP
  else if Py.leb (max_drawdown_reduce (config self)) drawdown then REDUCE
  else if Py.leb (max_drawdown_warning (config self)) drawdown then WARNING
  else NONE.

(** [now] is the reading of [datetime.now()] stored in the history. *)
Definition update_account_value (self : t) (now value : Q) : RiskMetrics * t :=
  let history := _value_history self ++ [(now, value)] in
  let peak := if Py.ltb (_peak_value self) value then value else _peak_value self in
  let current_drawdown :=
    if Py.ltb 0 peak then ((peak - value) / peak)%Q else 0%Q in
  let max_dd :=
    if Py.ltb (_max_drawdown self) current_drawdown then current_drawdown
    else _max_drawdown self in
  let self' :=
    {| config := config self; _peak_value := peak; _max_drawdown := max_dd;
       _value_history := history |} in
  let action := _determine_drawdown_action self' current_drawdown in
  ({| account_value := value; peak_value := peak;
      current_drawdown := current_drawdown; max_drawdown := max_dd;
      drawdown_action := action |}, self').

(** A session: the successive calls of [update_account_value] on one
    manager, each with its clock reading and equity value; the result
    lists the action returned by every call. *)
Fixpoint session (self : t) (updates : list (Q * Q)) : list DrawdownAction :=
  match updates with
  | [] => []
  | (now, value) :: rest =>
      let '(metrics, self') := update_account_value self now value in
      drawdown_action metrics :: session self' rest
  end.

(** Restrictiveness order of the actions: NONE < WARNING < REDUCE < STOP. *)
Definition level (a : DrawdownAction) : nat :=
  match a with NONE => 0 | WARNING => 1 | REDUCE => 2 | STOP => 3 end.

End RiskManager.

(** ** execution/execution_engine.py *)

Module ExecutionEngine.
Import Signal.

Definition calculate_limit_price (signal : DirectionalSignal) (aggressive : bool) : Z :=
  let price :=
    match direction signal with
    | BUY_YES =>
        if aggressive then (current_price signal + estimated_spread signal)%Q
        else current_price signal
    | BUY_NO =>
        if aggressive then (current_price signal - estimated_spread signal)%Q
        else current_price signal
    end in
  let price_cents := Py.int (price * 100) in
  Z.max 1 (Z.min 99 price_cents).

(** [execute_signal], the two statements that choose the order price:
    [aggressive = signal.net_edge > 2 * signal.estimated_spread] and
    [price_cents = self.calculate_limit_price(signal, aggressive)]. *)
Definition aggressive (signal : DirectionalSignal) : bool :=
  Py.ltb (2 * estimated_spread signal) (net_edge signal).

Definition execute_signal_price_cents (signal : DirectionalSignal) : Z :=
  calculate_limit_price signal (aggressive signal).

End ExecutionEngine.

(** ** models/position.py *)

Module PositionModel.

Inductive OrderSide := YES | NO.

Record Position := {
  ticker : string;
  side : OrderSide;
  quantity : Z;
  average_price : Q
}.

(** The property [cost_basis]. *)
Definition cost_basis (self : Position) : Q :=
  (inject_Z (quantity self) * average_price self)%Q.

End PositionModel.

(** ** risk/risk_manager.py, the checks that read the open positions *)

Module RiskPortfolio.
Import RiskManager.

(** The character "-". *)
Definition dash : Ascii.ascii := Ascii.ascii_of_nat 45.

(** [s.split("-")[0]] for a string that contains "-": what precedes the
    first dash. *)
Fixpoint before_dash (s : string) : option string :=
  match s with
  | EmptyString => None
  | String c rest =>
      if Ascii.eqb c dash then Some EmptyString
      else option_map (String c) (before_dash rest)
  end.

(** [ticker.split("-")[0] if "-" in ticker else "other"] *)
Definition series_of (ticker : string) : string :=
  default "other" (before_dash ticker).

(** The truth value of a list: false when empty. *)
Definition truthy {A} (xs : list A) : bool :=
  match xs with [] => false | _ => true end.

(** The [defaultdict(float)] of exposures, read with 0 for a missing key. *)
Definition _calculate_cluster_exposures
    (positions : list PositionModel.Position) : gmap string Q :=
  foldl (fun exposures position =>
           let series := series_of (PositionModel.ticker position) in
           <[series := (default 0%Q (exposures !! series)
                        + PositionModel.cost_basis position)%Q]> exposures)
        ∅ positions.

Definition _estimate_var_cvar (self : t)
    (positions : list PositionModel.Position) (account_value : Q) : Q * Q :=
  if negb (truthy positions) || Py.leb account_value 0
  then (0%Q, 0%Q)
  else
    let total_exposure := Py.sum (map PositionModel.cost_basis positions) in
    let worst_case_loss := total_exposure in
    let stress_prob :=
      Py.min 1 (Qpower (stress_correlation (config self))
                       (Z.of_nat (length positions))) in
    let var_95 := (worst_case_loss * stress_prob)%Q in
    let cvar_95 := (worst_case_loss * Py.min 1 (stress_prob * 1.5))%Q in
    ((var_95 / account_value)%Q, (cvar_95 / account_value)%Q).

(** The snapshot of [update_account_value] with the fields that
    [calculate_portfolio_risk] fills in. *)
Record PortfolioMetrics := {
  snapshot : RiskMetrics;
  position_count : nat;
  total_exposure : Q;
  cluster_exposures : gmap string Q;
  var_95 : Q;
  cvar_95 : Q
}.

Definition calculate_portfolio_risk (self : t) (now : Q)
    (positions : list PositionModel.Position) (account_value : Q)
  : PortfolioMetrics * t :=
  let '(metrics, self) := update_account_value self now account_value in
  let '(var, cvar) :=
    if truthy positions
    then _estimate_var_cvar self positions account_value
    else (0%Q, 0%Q) in
  ({| snapshot := metrics; position_count := length positions;
      total_exposure := Py.sum (map PositionModel.cost_basis positions);
      cluster_exposures := _calculate_cluster_exposures positions;
      var_95 := var; cvar_95 := cvar |}, self).

(** The reason strings of [approve_signal], with the limit interpolated
    into the two f-strings. *)
Inductive Verdict :=
| TradingStopped
| TooSmallAfterReduction
| ExceedsPositionLimit (limit : Q)
| ExceedsClusterLimit (limit : Q)
| Approved.

Definition approve_signal (self : t) (now : Q)
    (signal : Signal.DirectionalSignal) (proposed_size : Q)
    (current_positions : list PositionModel.Position) (account_value : Q)
  : Py.result (bool * Verdict) * t :=
  let '(metrics, self) :=
    calculate_portfolio_risk self now current_positions account_value in
  let result :=
    match drawdown_action (snapshot metrics) with
    | STOP => Py.Ok (false, TradingStopped)
    | action =>
        let reduced := (proposed_size * 0.5)%Q in
        if match action with REDUCE => Py.ltb reduced 10 | _ => false end
        then Py.Ok (false, TooSmallAfterReduction)
        else
          let proposed_size :=
            match action with REDUCE => reduced | _ => proposed_size end in
          Py.bind (Py.div proposed_size account_value) (fun share =>
            if Py.ltb (max_single_position (config self)) share
            then Py.Ok (false, ExceedsPositionLimit (max_single_position (config self)))
            else
              let series := series_of (Signal.ticker signal) in
              let current_cluster :=
                default 0%Q (cluster_exposures metrics !! series) in
              let new_cluster := (current_cluster + proposed_size)%Q in
              Py.bind (Py.div new_cluster account_value) (fun cluster_share =>
                if Py.ltb (max_cluster_exposure (config self)) cluster_share
                then Py.Ok (false,
                            ExceedsClusterLimit (max_cluster_exposure (config self)))
                else Py.Ok (true, Approved)))
    end in
  (result, self).

End RiskPortfolio.

(** ** profit_taker.py *)

Module ProfitTaker.

Record ProfitTakerConfig := {
  enabled : bool;
  take_profit_pct : Q;
  stop_loss_pct : Q;
  trailing_stop_pct : Q;
  use_trailing_stop : bool;
  tiered_targets : list (Q * Q);
  min_hold_seconds : Z;
  check_interval_seconds : Q
}.

Definition default_config : ProfitTakerConfig :=
  {| enabled := true; take_profit_pct := 0.15; stop_loss_pct := 0.10;
     trailing_stop_pct := 0.05; use_trailing_stop := true;
     tiered_targets := [(0.10, 0.25); (0.20, 0.50); (0.30, 0.75)]%Q;
     min_hold_seconds := 60; check_interval_seconds := 5.0 |}.

Module PositionTracker.

Record t := {
  ticker : string;
  side : PositionModel.OrderSide;
  entry_price : Q;
  entry_time : Q;
  quantity : Z;
  peak_price : Q;
  peak_profit_pct : Q;
  tiers_closed : list nat;
  trailing_stop_active : bool;
  trailing_stop_price : Q
}.

Definition calculate_profit_pct (self : t) (current_price : Q) : Py.result Q :=
  match side self with
  | PositionModel.YES => Py.div (current_price - entry_price self) (entry_price self)
  | PositionModel.NO => Py.div (entry_price self - current_price) (entry_price self)
  end.

Definition update_peak (self : t) (current_price : Q) : Py.result t :=
  Py.bind (calculate_profit_pct self current_price) (fun profit_pct =>
    Py.Ok (if Py.ltb (peak_profit_pct self) profit_pct
           then {| ticker := ticker self; side := side self;
                   entry_price := entry_price self;
                   entry_time := entry_time self; quantity := quantity self;
                   peak_price := current_price;
                   peak_profit_pct := profit_pct;
                   tiers_closed := tiers_closed self;
                   trailing_stop_active := trailing_stop_active self;
                   trailing_stop_price := trailing_stop_price self |}
           else self)).

Definition set_trailing_stop_active (self : t) : t :=
  {| ticker := ticker self; side := side self; entry_price := entry_price self;
     entry_time := entry_time self; quantity := quantity self;
     peak_price := peak_price self; peak_profit_pct := peak_profit_pct self;
     tiers_closed := tiers_closed self; trailing_stop_active := true;
     trailing_stop_price := trailing_stop_price self |}.

Definition append_tier (self : t) (i : nat) : t :=
  {| ticker := ticker self; side := side self; entry_price := entry_price self;
     entry_time := entry_time self; quantity := quantity self;
     peak_price := peak_price self; peak_profit_pct := peak_profit_pct self;
     tiers_closed := tiers_closed self ++ [i];
     trailing_stop_active := trailing_stop_active self;
     trailing_stop_price := trailing_stop_price self |}.

End PositionTracker.

(** The values interpolated into the [reason] f-string of an action. *)
Inductive Reason :=
| StopLossTriggered (profit_pct : Q)
| TrailingStopFromPeak (drawdown_from_peak : Q)
| TakeProfitAt (profit_pct : Q)
| TierTargetHit (tier : nat) (target_pct : Q).

Module ProfitTakeAction.

Record t := {
  ticker : string;
  action : string;
  quantity : Z;
  reason : Reason;
  current_profit_pct : Q
}.

End ProfitTakeAction.

Record t := {
  config : ProfitTakerConfig;
  _tracked_positions : gmap string PositionTracker.t
}.

Definition init (config : ProfitTakerConfig) : t :=
  {| config := config; _tracked_positions := ∅ |}.

(** [entry_time] is the argument when given, else the clock reading. *)
Definition track_position (self : t) (now : Q)
    (position : PositionModel.Position) (entry_time : option Q) : t :=
  match _tracked_positions self !! PositionModel.ticker position with
  | Some _ => self
  | None =>
      let tracker :=
        {| PositionTracker.ticker := PositionModel.ticker position;
           PositionTracker.side := PositionModel.side position;
           PositionTracker.entry_price := PositionModel.average_price position;
           PositionTracker.entry_time := default now entry_time;
           PositionTracker.quantity := PositionModel.quantity position;
           PositionTracker.peak_price := PositionModel.average_price position;
           PositionTracker.peak_profit_pct := 0;
           PositionTracker.tiers_closed := [];
           PositionTracker.trailing_stop_active := false;
           PositionTracker.trailing_stop_price := 0 |} in
      {| config := config self;
         _tracked_positions :=
           <[PositionModel.ticker position := tracker]> (_tracked_positions self) |}
  end.

(** The tracker object is shared with the dictionary: a mutation of the
    tracker fetched under [key] is a write to that entry. *)
Definition store (self : t) (key : string) (tracker : PositionTracker.t) : t :=
  {| config := config self;
     _tracked_positions := <[key := tracker]> (_tracked_positions self) |}.

(** The loop over [enumerate(self.config.tiered_targets)], from index [i]. *)
Fixpoint tier_loop (i : nat) (targets : list (Q * Q))
    (tracker : PositionTracker.t) (position : PositionModel.Position)
    (profit_pct : Q) : option ProfitTakeAction.t * PositionTracker.t :=
  match targets with
  | [] => (None, tracker)
  | (target_pct, close_fraction) :: rest =>
      if bool_decide (i ∈ PositionTracker.tiers_closed tracker)
      then tier_loop (S i) rest tracker position profit_pct
      else if Py.leb target_pct profit_pct then
        let close_qty :=
          Py.int (inject_Z (PositionModel.quantity position) * close_fraction) in
        if (0 <? close_qty)%Z then
          (Some {| ProfitTakeAction.ticker := PositionModel.ticker position;
                   ProfitTakeAction.action := "close_partial";
                   ProfitTakeAction.quantity := close_qty;
                   ProfitTakeAction.reason := TierTargetHit (S i) target_pct;
                   ProfitTakeAction.current_profit_pct := profit_pct |},
           PositionTracker.append_tier tracker i)
        else tier_loop (S i) rest tracker position profit_pct
      else tier_loop (S i) rest tracker position profit_pct
  end.

Definition full_close (position : PositionModel.Position) (action : string)
    (reason : Reason) (profit_pct : Q) : ProfitTakeAction.t :=
  {| ProfitTakeAction.ticker := PositionModel.ticker position;
     ProfitTakeAction.action := action;
     ProfitTakeAction.quantity := PositionModel.quantity position;
     ProfitTakeAction.reason := reason;
     ProfitTakeAction.current_profit_pct := profit_pct |}.

(** [now] is the reading of [datetime.now()].  The result pairs what the
    call returns (or raises) with the profit-taker after the call. *)
Definition _evaluate_position (self : t) (now : Q)
    (position : PositionModel.Position) (current_price : Q)
  : Py.result (option ProfitTakeAction.t) * t :=
  match _tracked_positions self !! PositionModel.ticker position with
  | None => (Py.Ok None, self)
  | Some tracker =>
      let hold_time := (now - PositionTracker.entry_time tracker)%Q in
      if Py.ltb hold_time (inject_Z (min_hold_seconds (config self)))
      then (Py.Ok None, self)
      else
        match PositionTracker.update_peak tracker current_price with
        | Py.Raise e => (Py.Raise e, self)
        | Py.Ok tracker =>
            match PositionTracker.calculate_profit_pct tracker current_price with
            | Py.Raise e => (Py.Raise e, store self (PositionModel.ticker position) tracker)
            | Py.Ok profit_pct =>
                if Py.leb profit_pct (- stop_loss_pct (config self))
                then (Py.Ok (Some (full_close position "stop_loss"
                                     (StopLossTriggered profit_pct) profit_pct)),
                      store self (PositionModel.ticker position) tracker)
                else
                  let drawdown_from_peak :=
                    (PositionTracker.peak_profit_pct tracker - profit_pct)%Q in
                  if PositionTracker.trailing_stop_active tracker
                     && Py.leb (trailing_stop_pct (config self)) drawdown_from_peak
                  then (Py.Ok (Some (full_close position "close_full"
                                       (TrailingStopFromPeak drawdown_from_peak)
                                       profit_pct)),
                        store self (PositionModel.ticker position) tracker)
                  else if Py.leb (take_profit_pct (config self)) profit_pct then
                    if use_trailing_stop (config self)
                       && negb (PositionTracker.trailing_stop_active tracker)
                    then (Py.Ok None,
                          store self (PositionModel.ticker position) (PositionTracker.set_trailing_stop_active tracker))
                    else (Py.Ok (Some (full_close position "close_full"
                                         (TakeProfitAt profit_pct) profit_pct)),
                          store self (PositionModel.ticker position) tracker)
                  else
                    let '(act, tracker) :=
                      tier_loop 0 (tiered_targets (config self)) tracker position
                                profit_pct in
                    (Py.Ok act, store self (PositionModel.ticker position) tracker)
            end
        end
  end.

Definition untrack_position (self : t) (ticker : string) : t :=
  match _tracked_positions self !! ticker with
  | Some _ =>
      {| config := config self;
         _tracked_positions := delete ticker (_tracked_positions self) |}
  | None => self
  end.

(** The loop of [check_positions] over [positions].  [clock k] is the
    reading of the [k]-th call of [datetime.now()]: one call when a
    position is newly tracked, one when a position is evaluated.  An
    exception of [_evaluate_position] leaves the loop. *)
Fixpoint check_loop (self : t) (clock : nat -> Q) (k : nat)
    (positions : list PositionModel.Position) (current_prices : gmap string Q)
    (actions : list ProfitTakeAction.t)
  : Py.result (list ProfitTakeAction.t) * t :=
  match positions with
  | [] => (Py.Ok actions, self)
  | position :: rest =>
      let '(self, k) :=
        match _tracked_positions self !! PositionModel.ticker position with
        | Some _ => (self, k)
        | None => (track_position self (clock k) position None, S k)
        end in
      match current_prices !! PositionModel.ticker position with
      | None => check_loop self clock k rest current_prices actions
      | Some current_price =>
          match _evaluate_position self (clock k) position current_price with
          | (Py.Raise e, self) => (Py.Raise e, self)
          | (Py.Ok action, self) =>
              check_loop self clock (S k) rest current_prices
                (match action with
                 | Some a => actions ++ [a]
                 | None => actions
                 end)
          end
      end
  end.

(** The tickers are removed in the order of the dictionary; removals of
    different keys commute. *)
Definition check_positions (self : t) (clock : nat -> Q)
    (positions : list PositionModel.Position) (current_prices : gmap string Q)
  : Py.result (list ProfitTakeAction.t) * t :=
  if negb (enabled (config self)) then (Py.Ok [], self)
  else
    match check_loop self clock 0 positions current_prices [] with
    | (Py.Raise e, self) => (Py.Raise e, self)
    | (Py.Ok actions, self) =>
        let held : gset string :=
          list_to_set (map PositionModel.ticker positions) in
        let tickers_to_remove :=
          List.filter (fun ticker => negb (bool_decide (ticker ∈ held)))
            (map fst (map_to_list (_tracked_positions self))) in
        (Py.Ok actions, foldl untrack_position self tickers_to_remove)
    end.

End ProfitTaker.

(** ** backtest/event_simulator.py *)

Module EventSimulator.

Inductive Side := YES | NO.

Module Position.
Record t := {
  ticker : string;
  side : Side;
  quantity : Z;
  entry_price : Q;
  entry_time : Q;
  current_value : Q
}.
End Position.

Module Trade.
Record t := {
  timestamp : Q;
  ticker : string;
  action : string;
  side : Side;
  quantity : Z;
  price : Q;
  cost : Q;
  fees : Q;
  pnl : Q
}.
End Trade.

Module MarketState.
Record t := {
  timestamp : Q;
  ticker : string;
  bid : Q;
  ask : Q;
  last_price : Q;
  volume : Z;
  open_interest : Z
}.
Definition mid_price (self : t) : Q := ((bid self + ask self) / 2)%Q.
Definition spread (self : t) : Q := (ask self - bid self)%Q.
End MarketState.

Module Signal.
Record t := {
  action : string;
  side : option Side;
  quantity : Z;
  reason : string
}.
End Signal.

Module BacktestMetrics.
Record t := {
  total_return : Q;
  annualized_return : Q;
  sharpe_ratio : Q;
  sortino_ratio : Q;
  max_drawdown : Q;
  max_drawdown_duration_days : Q;
  total_trades : nat;
  winning_trades : nat;
  losing_trades : nat;
  win_rate : Q;
  profit_factor : Q;
  avg_win : Q;
  avg_loss : Q;
  avg_trade_pnl : Q;
  edge_per_contract : Q;
  kelly_optimal : Q;
  kelly_fraction_used : Q;
  final_equity : Q;
  peak_equity : Q
}.

(** [BacktestMetrics(final_equity=...)]: every other field at its default. *)
Definition only_final_equity (e : Q) : t :=
  {| total_return := 0; annualized_return := 0; sharpe_ratio := 0;
     sortino_ratio := 0; max_drawdown := 0; max_drawdown_duration_days := 0;
     total_trades := 0; winning_trades := 0; losing_trades := 0; win_rate := 0;
     profit_factor := 0; avg_win := 0; avg_loss := 0; avg_trade_pnl := 0;
     edge_per_contract := 0; kelly_optimal := 0; kelly_fraction_used := 0;
     final_equity := e; peak_equity := 0 |}.
End BacktestMetrics.

(** [self.positions] is a [dict] whose iteration order (insertion order)
    decides the order of the settlement records: an association list
    with unique keys, new keys appended at the end. *)
Module Dict.
Section Dict.
Context {A : Type}.

Fixpoint get (d : list (string * A)) (k : string) : option A :=
  match d with
  | [] => None
  | (k', v) :: rest => if String.eqb k' k then Some v else get rest k
  end.

(** [d[k] = v]: in place for a present key, at the end for a new one. *)
Fixpoint set (d : list (string * A)) (k : string) (v : A) : list (string * A) :=
  match d with
  | [] => [(k, v)]
  | (k', v') :: rest =>
      if String.eqb k' k then (k', v) :: rest else (k', v') :: set rest k v
  end.

(** [del d[k]] *)
Fixpoint del (d : list (string * A)) (k : string) : list (string * A) :=
  match d with
  | [] => []
  | (k', v') :: rest => if String.eqb k' k then rest else (k', v') :: del rest k
  end.

End Dict.
End Dict.

Record t := {
  initial_capital : Q;
  capital : Q;
  fee_rate : Q;
  slippage_bps : Q;
  positions : list (string * Position.t);
  trades : list Trade.t;
  equity_curve : list (Q * Q);
  _peak_equity : Q;
  _max_drawdown : Q
}.

Definition init (initial_capital fee_rate slippage_bps : Q) : t :=
  {| initial_capital := initial_capital; capital := initial_capital;
     fee_rate := fee_rate; slippage_bps := (slippage_bps / 10000)%Q;
     positions := []; trades := []; equity_curve := [];
     _peak_equity := initial_capital; _max_drawdown := 0 |}.

Definition calculate_fee (self : t) (price : Q) (quantity : Z) : Q :=
  if Py.leb price 0 || Py.leb 1 price then 0%Q
  else
    let fee_per_contract := (fee_rate self * price * (1 - price))%Q in
    let fee_per_contract :=
      Py.max 0.01 (inject_Z (Py.ceil (fee_per_contract * 100)) / 100) in
    (fee_per_contract * inject_Z quantity)%Q.

Definition with_ledger (self : t) (capital : Q)
    (positions : list (string * Position.t)) (trades : list Trade.t) : t :=
  {| initial_capital := initial_capital self; capital := capital;
     fee_rate := fee_rate self; slippage_bps := slippage_bps self;
     positions := positions; trades := trades;
     equity_curve := equity_curve self;
     _peak_equity := _peak_equity self; _max_drawdown := _max_drawdown self |}.

(** [side] is the value of [signal.side], known to be set by the caller. *)
Definition _execute_buy (self : t) (state : MarketState.t) (signal : Signal.t)
    (side : Side) : t :=
  if (Signal.quantity signal <=? 0)%Z then self
  else
    let price :=
      match side with
      | YES => (MarketState.ask state * (1 + slippage_bps self))%Q
      | NO => ((1 - MarketState.bid state) * (1 + slippage_bps self))%Q
      end in
    let price := Py.min 0.99 (Py.max 0.01 price) in
    let fees := calculate_fee self price (Signal.quantity signal) in
    let cost := (price * inject_Z (Signal.quantity signal) + fees)%Q in
    let resized :=
      if Py.ltb (capital self) cost then
        let max_qty := Py.int ((capital self - fees) / price) in
        if (max_qty <=? 0)%Z then None
        else Some (max_qty, (price * inject_Z max_qty + fees)%Q)
      else Some (Signal.quantity signal, cost) in
    match resized with
    | None => self
    | Some (quantity, cost) =>
        let ticker := MarketState.ticker state in
        let positions' :=
          match Dict.get (positions self) ticker with
          | Some pos =>
              let total_qty := (Position.quantity pos + quantity)%Z in
              Dict.set (positions self) ticker
                {| Position.ticker := Position.ticker pos;
                   Position.side := Position.side pos;
                   Position.quantity := total_qty;
                   Position.entry_price :=
                     ((Position.entry_price pos * inject_Z (Position.quantity pos)
                       + price * inject_Z quantity) / inject_Z total_qty)%Q;
                   Position.entry_time := Position.entry_time pos;
                   Position.current_value := Position.current_value pos |}
          | None =>
              Dict.set (positions self) ticker
                {| Position.ticker := ticker; Position.side := side;
                   Position.quantity := quantity; Position.entry_price := price;
                   Position.entry_time := MarketState.timestamp state;
                   Position.current_value := 0 |}
          end in
        with_ledger self (capital self - cost) positions'
          (trades self ++
           [{| Trade.timestamp := MarketState.timestamp state;
               Trade.ticker := ticker; Trade.action := "BUY";
               Trade.side := side; Trade.quantity := quantity;
               Trade.price := price; Trade.cost := cost; Trade.fees := fees;
               Trade.pnl := 0 |}])
    end.

Definition _execute_sell (self : t) (state : MarketState.t) (signal : Signal.t) : t :=
  let ticker := MarketState.ticker state in
  match Dict.get (positions self) ticker with
  | None => self
  | Some pos =>
      let qty_to_sell :=
        Z.min (if (Signal.quantity signal =? 0)%Z then Position.quantity pos
               else Signal.quantity signal)
              (Position.quantity pos) in
      let price :=
        match Position.side pos with
        | YES => (MarketState.bid state * (1 - slippage_bps self))%Q
        | NO => ((1 - MarketState.ask state) * (1 - slippage_bps self))%Q
        end in
      let price := Py.min 0.99 (Py.max 0.01 price) in
      let fees := calculate_fee self price qty_to_sell in
      let proceeds := (price * inject_Z qty_to_sell - fees)%Q in
      let pnl :=
        match Position.side pos with
        | YES => ((price - Position.entry_price pos) * inject_Z qty_to_sell - fees)%Q
        | NO => ((Position.entry_price pos - price) * inject_Z qty_to_sell - fees)%Q
        end in
      let positions' :=
        if (Position.quantity pos <=? qty_to_sell)%Z
        then Dict.del (positions self) ticker
        else Dict.set (positions self) ticker
               {| Position.ticker := Position.ticker pos;
                  Position.side := Position.side pos;
                  Position.quantity := (Position.quantity pos - qty_to_sell)%Z;
                  Position.entry_price := Position.entry_price pos;
                  Position.entry_time := Position.entry_time pos;
                  Position.current_value := Position.current_value pos |} in
      with_ledger self (capital self + proceeds) positions'
        (trades self ++
         [{| Trade.timestamp := MarketState.timestamp state;
             Trade.ticker := ticker; Trade.action := "SELL";
             Trade.side := Position.side pos; Trade.quantity := qty_to_sell;
             Trade.price := price; Trade.cost := (- proceeds)%Q;
             Trade.fees := fees; Trade.pnl := pnl |}])
  end.

Definition _mark_to_market (self : t) (state : MarketState.t) : t :=
  let ticker := MarketState.ticker state in
  match Dict.get (positions self) ticker with
  | None => self
  | Some pos =>
      let value :=
        match Position.side pos with
        | YES => (inject_Z (Position.quantity pos) * MarketState.mid_price state)%Q
        | NO => (inject_Z (Position.quantity pos) * (1 - MarketState.mid_price state))%Q
        end in
      with_ledger self (capital self)
        (Dict.set (positions self) ticker
           {| Position.ticker := Position.ticker pos;
              Position.side := Position.side pos;
              Position.quantity := Position.quantity pos;
              Position.entry_price := Position.entry_price pos;
              Position.entry_time := Position.entry_time pos;
              Position.current_value := value |})
        (trades self)
  end.

Definition _record_equity (self : t) (timestamp : Q) : t :=
  let position_value :=
    Py.sum (map (fun kv => Position.current_value (snd kv)) (positions self)) in
  let total_equity := (capital self + position_value)%Q in
  let peak :=
    if Py.ltb (_peak_equity self) total_equity then total_equity
    else _peak_equity self in
  let max_dd :=
    if Py.ltb 0 peak
    then Py.max (_max_drawdown self) ((peak - total_equity) / peak)
    else _max_drawdown self in
  {| initial_capital := initial_capital self; capital := capital self;
     fee_rate := fee_rate self; slippage_bps := slippage_bps self;
     positions := positions self; trades := trades self;
     equity_curve := equity_curve self ++ [(timestamp, total_equity)];
     _peak_equity := peak; _max_drawdown := max_dd |}.

(** The loop of [_settle_positions] over [list(self.positions.items())];
    [clock k] is the reading of the [k]-th call of [datetime.now()]. *)
Fixpoint settle_loop (clock : nat -> Q) (k : nat) (resolutions : gmap string bool)
    (items : list (string * Position.t)) (capital : Q) (trades : list Trade.t)
  : Q * list Trade.t :=
  match items with
  | [] => (capital, trades)
  | (ticker, pos) :: rest =>
      let resolved_yes := default false (resolutions !! ticker) in
      let qty := inject_Z (Position.quantity pos) in
      let '(payout, pnl) :=
        match Position.side pos, resolved_yes with
        | YES, true => ((qty * 1)%Q, (qty * 1 - Position.entry_price pos * qty)%Q)
        | YES, false => (0%Q, (- Position.entry_price pos * qty)%Q)
        | NO, true => (0%Q, (- Position.entry_price pos * qty)%Q)
        | NO, false => ((qty * 1)%Q, (qty * 1 - Position.entry_price pos * qty)%Q)
        end in
      settle_loop clock (S k) resolutions rest (capital + payout)%Q
        (trades ++
         [{| Trade.timestamp := clock k; Trade.ticker := ticker;
             Trade.action := "SETTLE"; Trade.side := Position.side pos;
             Trade.quantity := Position.quantity pos;
             Trade.price := if resolved_yes then 1 else 0;
             Trade.cost := 0; Trade.fees := 0; Trade.pnl := pnl |}])
  end.

Definition _settle_positions (self : t) (clock : nat -> Q)
    (resolutions : gmap string bool) : t :=
  let '(capital, trades) :=
    settle_loop clock 0 resolutions (positions self) (capital self) (trades self) in
  with_ledger self capital [] trades.

(** The [context] dictionary handed to the strategy: its two entries. *)
Record Context := {
  ctx_positions : list (string * Position.t);
  ctx_capital : Q
}.

(** One round of the loop of [run]. *)
Definition step (signal_func : MarketState.t -> Context -> Signal.t)
    (self : t) (state : MarketState.t) : t :=
  let signal :=
    signal_func state
      {| ctx_positions := positions self; ctx_capital := capital self |} in
  let self :=
    match String.eqb (Signal.action signal) "buy", Signal.side signal with
    | true, Some side => _execute_buy self state signal side
    | _, _ =>
        if String.eqb (Signal.action signal) "sell"
        then _execute_sell self state signal
        else self
    end in
  let self := _mark_to_market self state in
  _record_equity self (MarketState.timestamp state).

Definition replay (signal_func : MarketState.t -> Context -> Signal.t)
    (self : t) (market_data : list MarketState.t) : t :=
  foldl (step signal_func) self market_data.

(** [np.mean] of a list. *)
Definition np_mean (xs : list Q) : Q := (Py.sum xs / inject_Z (Z.of_nat (length xs)))%Q.

Definition nonempty {A} (xs : list A) : bool :=
  match xs with [] => false | _ => true end.

Section Numerics.
(** The pandas and numpy routines on floats that have no rational
    counterpart: [Series.pct_change().dropna()], [Series.mean()],
    [Series.std()], [np.sqrt] and the float power [**]. *)
Variable pct_change_dropna : list Q -> list Q.
Variable series_mean series_std : list Q -> Q.
Variable np_sqrt : Q -> Q.
Variable float_pow : Q -> Q -> Q.

Definition _calculate_metrics (self : t) : Py.result BacktestMetrics.t :=
  match equity_curve self with
  | [] => Py.Ok (BacktestMetrics.only_final_equity (capital self))
  | first :: _ =>
      let returns := pct_change_dropna (map snd (equity_curve self)) in
      Py.bind (Py.div (capital self - initial_capital self) (initial_capital self))
        (fun total_return =>
      let annualized :=
        if (1 <? length (equity_curve self))%nat then
          let days := ((fst (List.last (equity_curve self) first) - fst first) / 86400)%Q in
          if Py.ltb 0 days then (float_pow (1 + total_return) (365 / days) - 1)%Q
          else 0%Q
        else 0%Q in
      let sharpe :=
        if (1 <? length returns)%nat && Py.ltb 0 (series_std returns)
        then (series_mean returns / series_std returns * np_sqrt 252)%Q
        else 0%Q in
      let negative_returns := List.filter (fun r => Py.ltb r 0) returns in
      let sortino :=
        if (0 <? length negative_returns)%nat && Py.ltb 0 (series_std negative_returns)
        then (series_mean returns / series_std negative_returns * np_sqrt 252)%Q
        else 0%Q in
      let pnls :=
        List.filter (fun p => negb (Qeq_bool p 0)) (map Trade.pnl (trades self)) in
      let wins := List.filter (fun p => Py.ltb 0 p) pnls in
      let losses := List.filter (fun p => Py.ltb p 0) pnls in
      let win_rate :=
        if nonempty pnls
        then (inject_Z (Z.of_nat (length wins)) / inject_Z (Z.of_nat (length pnls)))%Q
        else 0%Q in
      let avg_win := if nonempty wins then np_mean wins else 0%Q in
      let avg_loss := if nonempty losses then Qabs (np_mean losses) else 0%Q in
      let profit_factor :=
        if nonempty losses then (Py.sum wins / Qabs (Py.sum losses))%Q else 0%Q in
      let total_contracts := foldl Z.add 0%Z (map Trade.quantity (trades self)) in
      let edge_per_contract :=
        if (0 <? total_contracts)%Z then (Py.sum pnls / inject_Z total_contracts)%Q
        else 0%Q in
      let kelly :=
        if Py.ltb 0 win_rate && Py.ltb win_rate 1 && Py.ltb 0 avg_win && Py.ltb 0 avg_loss
        then let b := (avg_win / avg_loss)%Q in (win_rate - (1 - win_rate) / b)%Q
        else 0%Q in
      Py.Ok {| BacktestMetrics.total_return := total_return;
               BacktestMetrics.annualized_return := annualized;
               BacktestMetrics.sharpe_ratio := sharpe;
               BacktestMetrics.sortino_ratio := sortino;
               BacktestMetrics.max_drawdown := _max_drawdown self;
               BacktestMetrics.max_drawdown_duration_days := 0;
               BacktestMetrics.total_trades := length (trades self);
               BacktestMetrics.winning_trades := length wins;
               BacktestMetrics.losing_trades := length losses;
               BacktestMetrics.win_rate := win_rate;
               BacktestMetrics.profit_factor := profit_factor;
               BacktestMetrics.avg_win := avg_win;
               BacktestMetrics.avg_loss := avg_loss;
               BacktestMetrics.avg_trade_pnl := if nonempty pnls then np_mean pnls else 0;
               BacktestMetrics.edge_per_contract := edge_per_contract;
               BacktestMetrics.kelly_optimal := kelly;
               BacktestMetrics.kelly_fraction_used := 0;
               BacktestMetrics.final_equity := capital self;
               BacktestMetrics.peak_equity := _peak_equity self |})
  end.

(** [run] on the backtester [self]: what it returns (or raises) and the
    backtester afterwards, whose [trades] are the trade records. *)
Definition run (self : t) (clock : nat -> Q) (market_data : list MarketState.t)
    (signal_func : MarketState.t -> Context -> Signal.t)
    (resolutions : gmap string bool) : Py.result BacktestMetrics.t * t :=
  let self := replay signal_func self market_data in
  let self := _settle_positions self clock resolutions in
  (_calculate_metrics self, self).

End Numerics.

(** A trade record without the wall-clock stamp of a settlement record. *)
Definition erase_settle_timestamp (tr : Trade.t) : Trade.t :=
  if String.eqb (Trade.action tr) "SETTLE"
  then {| Trade.timestamp := 0; Trade.ticker := Trade.ticker tr;
          Trade.action := Trade.action tr; Trade.side := Trade.side tr;
          Trade.quantity := Trade.quantity tr; Trade.price := Trade.price tr;
          Trade.cost := Trade.cost tr; Trade.fees := Trade.fees tr;
          Trade.pnl := Trade.pnl tr |}
  else tr.

End EventSimulator.

(** * Vocabulary of the properties *)

(** The clamp of [calculate_limit_price] on integer cents. *)
Definition clamp_cents (z : Z) : Z := Z.max 1 (Z.min 99 z).

(** [x] is a greatest (smallest) element of the list [l]. *)
Definition is_max_of (x : Q) (l : list Q) : Prop :=
  x ∈ l /\ Forall (fun y => y <= x)%Q l.
Definition is_min_of (x : Q) (l : list Q) : Prop :=
  x ∈ l /\ Forall (fun y => x <= y)%Q l.

(** The ids indexed under a ticker. *)
Definition indexed_ids (index : gmap string (gset string)) (t : string)
  : gset string := default ∅ (index !! t).

(** Every registered constraint is indexed under each of its tickers. *)
Definition index_covers (e : ConstraintEngine.t) : Prop :=
  forall cid c t,
    ConstraintEngine._constraints e !! cid = Some c ->
    t ∈ Constraint.all_tickers c ->
    cid ∈ indexed_ids (ConstraintEngine._ticker_index e) t.

(** The discount that [adjust_for_correlation] multiplies a size by. *)
Definition correlation_factor (config : PositionSizer.SizingConfig) (k : Z) : Q :=
  if (k <=? 0)%Z then 1%Q
  else Py.max 0.1
         (1 - PositionSizer.correlation_adjustment_per_position config * inject_Z k).

(** The discount that [adjust_for_costs] multiplies a size by. *)
Definition cost_factor (spread fee : Q) : Q := Py.max 0.5 (1 - 2 * spread - fee).

(** The tail of [calculate_position_size]: cap by the per-market limit,
    then drop sizes under the minimum. *)
Definition capped_size (config : PositionSizer.SizingConfig)
    (adjusted balance : Q) : Q :=
  let max_size := (balance * PositionSizer.max_position_per_market config)%Q in
  let position_size := Py.min (adjusted * balance) max_size in
  if Py.ltb position_size (PositionSizer.min_position_size config) then 0%Q
  else position_size.

(** A signal with one cost or edge field replaced, all others fixed. *)
Definition with_net_edge (s : Signal.DirectionalSignal) (e : Q) :=
  {| Signal.ticker := Signal.ticker s; Signal.direction := Signal.direction s;
     Signal.signal_type := Signal.signal_type s;
     Signal.current_price := Signal.current_price s;
     Signal.bound_price := Signal.bound_price s;
     Signal.raw_edge := Signal.raw_edge s;
     Signal.estimated_fee := Signal.estimated_fee s;
     Signal.estimated_spread := Signal.estimated_spread s;
     Signal.net_edge := e; Signal.confidence := Signal.confidence s;
     Signal.source_constraint_id := Signal.source_constraint_id s |}.

Definition with_estimated_spread (s : Signal.DirectionalSignal) (spread : Q) :=
  {| Signal.ticker := Signal.ticker s; Signal.direction := Signal.direction s;
     Signal.signal_type := Signal.signal_type s;
     Signal.current_price := Signal.current_price s;
     Signal.bound_price := Signal.bound_price s;
     Signal.raw_edge := Signal.raw_edge s;
     Signal.estimated_fee := Signal.estimated_fee s;
     Signal.estimated_spread := spread;
     Signal.net_edge := Signal.net_edge s;
     Signal.confidence := Signal.confidence s;
     Signal.source_constraint_id := Signal.source_constraint_id s |}.

Definition with_estimated_fee (s : Signal.DirectionalSignal) (fee : Q) :=
  {| Signal.ticker := Signal.ticker s; Signal.direction := Signal.direction s;
     Signal.signal_type := Signal.signal_type s;
     Signal.current_price := Signal.current_price s;
     Signal.bound_price := Signal.bound_price s;
     Signal.raw_edge := Signal.raw_edge s;
     Signal.estimated_fee := fee;
     Signal.estimated_spread := Signal.estimated_spread s;
     Signal.net_edge := Signal.net_edge s;
     Signal.confidence := Signal.confidence s;
     Signal.source_constraint_id := Signal.source_constraint_id s |}.

(** The backtester with the stamps of its settlement records erased. *)
Definition erase_settle_clock (self : EventSimulator.t) : EventSimulator.t :=
  EventSimulator.with_ledger self (EventSimulator.capital self)
    (EventSimulator.positions self)
    (EventSimulator.erase_settle_timestamp <$> EventSimulator.trades self).

(** Every registered constraint is stored under its own id. *)
Definition ids_match (e : ConstraintEngine.t) : Prop :=
  forall cid c,
    ConstraintEngine._constraints e !! cid = Some c -> Constraint.id c = cid.

(** What a tracker may become while its position is held: the entry
    data stay, an armed trailing stop stays armed, the peak profit does
    not drop, and closed tiers are only added at the end. *)
Definition tracker_advances (a b : ProfitTaker.PositionTracker.t) : Prop :=
  ProfitTaker.PositionTracker.ticker a = ProfitTaker.PositionTracker.ticker b /\
  ProfitTaker.PositionTracker.side a = ProfitTaker.PositionTracker.side b /\
  ProfitTaker.PositionTracker.entry_price a
    = ProfitTaker.PositionTracker.entry_price b /\
  ProfitTaker.PositionTracker.entry_time a
    = ProfitTaker.PositionTracker.entry_time b /\
  ProfitTaker.PositionTracker.quantity a = ProfitTaker.PositionTracker.quantity b /\
  (ProfitTaker.PositionTracker.trailing_stop_active a = true ->
   ProfitTaker.PositionTracker.trailing_stop_active b = true) /\
  (ProfitTaker.PositionTracker.peak_profit_pct a
   <= ProfitTaker.PositionTracker.peak_profit_pct b)%Q /\
  ProfitTaker.PositionTracker.tiers_closed a
    `prefix_of` ProfitTaker.PositionTracker.tiers_closed b.

(** What settlement pays for a position: one per contract when the
    position's side is the resolved side, a ticker without a resolution
    counting as resolved no. *)
Definition settlement_payout (resolutions : gmap string bool)
    (item : string * EventSimulator.Position.t) : Q :=
  match EventSimulator.Position.side (snd item), default false (resolutions !! (fst item)) with
  | EventSimulator.YES, true | EventSimulator.NO, false =>
      inject_Z (EventSimulator.Position.quantity (snd item))
  | _, _ => 0
  end.

(** The settlement record of a position. *)
Definition settles (resolutions : gmap string bool)
    (item : string * EventSimulator.Position.t) (tr : EventSimulator.Trade.t) : Prop :=
  let pos := snd item in
  EventSimulator.Trade.action tr = "SETTLE" /\
  EventSimulator.Trade.ticker tr = fst item /\
  EventSimulator.Trade.side tr = EventSimulator.Position.side pos /\
  EventSimulator.Trade.quantity tr = EventSimulator.Position.quantity pos /\
  Qeq (EventSimulator.Trade.fees tr) 0 /\
  Qeq (EventSimulator.Trade.cost tr) 0 /\
  Qeq (EventSimulator.Trade.pnl tr)
    (settlement_payout resolutions item
     - EventSimulator.Position.entry_price pos
       * inject_Z (EventSimulator.Position.quantity pos)).

(** The cost basis of the positions of one series. *)
Definition series_exposure (positions : list PositionModel.Position)
    (series : string) : Q :=
  Py.sum (map PositionModel.cost_basis
            (List.filter
               (fun p => String.eqb (RiskPortfolio.series_of (PositionModel.ticker p))
                                    series)
               positions)).

(** * Example inputs *)

(** The equity updates of the scenario, stamped 0 to 4. *)
Definition scenario_updates : list (Q * Q) :=
  [(0, 10000); (1, 9500); (2, 8000); (3, 6500); (4, 9000)]%Q.

(** A yes position of 10 contracts entered at 0.50 at time 0, tracked by
    a profit-taker with the default configuration. *)
Definition held_position : PositionModel.Position :=
  {| PositionModel.ticker := "T"; PositionModel.side := PositionModel.YES;
     PositionModel.quantity := 10; PositionModel.average_price := 0.50 |}.

Definition held_taker : ProfitTaker.t :=
  ProfitTaker.track_position (ProfitTaker.init ProfitTaker.default_config) 0
    held_position None.

(** A buy-no signal at 0.505 with spread 0.01 and net edge 0.05. *)
Definition half_cent_signal : Signal.DirectionalSignal :=
  {| Signal.ticker := "T"; Signal.direction := Signal.BUY_NO;
     Signal.signal_type := Signal.CONSTRAINT_VIOLATION;
     Signal.current_price := 0.505; Signal.bound_price := 0.40;
     Signal.raw_edge := 0.105; Signal.estimated_fee := 0.02;
     Signal.estimated_spread := 0.01; Signal.net_edge := 0.05;
     Signal.confidence := 1; Signal.source_constraint_id := "c" |}.

(** A buy-yes signal at 0.40 with fee 0.02 and spread 0.01. *)
Definition sized_signal : Signal.DirectionalSignal :=
  {| Signal.ticker := "T"; Signal.direction := Signal.BUY_YES;
     Signal.signal_type := Signal.CONSTRAINT_VIOLATION;
     Signal.current_price := 0.40; Signal.bound_price := 0.50;
     Signal.raw_edge := 0.10; Signal.estimated_fee := 0.02;
     Signal.estimated_spread := 0.01; Signal.net_edge := 0.05;
     Signal.confidence := 1; Signal.source_constraint_id := "c" |}.

(** A session that registers the subset constraint A ⊂ B under "c1". *)
Definition stale_ops : list ConstraintEngine.op :=
  [ConstraintEngine.Register 0 Constraint.SUBSET ["A"] ["B"] "A in B" (Some "c1")].

(** One snapshot of the market T, and a strategy that always buys ten
    yes contracts. *)
Definition one_tick : list EventSimulator.MarketState.t :=
  [{| EventSimulator.MarketState.timestamp := 100;
      EventSimulator.MarketState.ticker := "T";
      EventSimulator.MarketState.bid := 0.40;
      EventSimulator.MarketState.ask := 0.42;
      EventSimulator.MarketState.last_price := 0.41;
      EventSimulator.MarketState.volume := 0;
      EventSimulator.MarketState.open_interest := 0 |}].

Definition always_buy (state : EventSimulator.MarketState.t)
    (context : EventSimulator.Context) : EventSimulator.Signal.t :=
  {| EventSimulator.Signal.action := "buy";
     EventSimulator.Signal.side := Some EventSimulator.YES;
     EventSimulator.Signal.quantity := 10;
     EventSimulator.Signal.reason := "" |}.

(** The run of [always_buy] over [one_tick] from 10 000 of capital, fee
    rate 0.07 and 5 bps of slippage, the wall clock reading [now] at
    settlement; the float-only statistics are left at zero. *)
Definition one_tick_run (now : Q) :=
  EventSimulator.run (fun _ => []) (fun _ => 0%Q) (fun _ => 0%Q)
    (fun _ => 0%Q) (fun _ _ => 0%Q)
    (EventSimulator.init 10000 0.07 5) (fun _ => now) one_tick always_buy ∅.

(** Two bounds for the ticker T: [0.2, 0.9] and [0.4, 0.7]. *)
Definition wide_bound : Constraint.ProbabilityBound :=
  {| Constraint.ticker := "T"; Constraint.lower := 0.2;
     Constraint.upper := 0.9; Constraint.source_constraint_id := "c1";
     Constraint.confidence := 1 |}.

Definition narrow_bound : Constraint.ProbabilityBound :=
  {| Constraint.ticker := "T"; Constraint.lower := 0.4;
     Constraint.upper := 0.7; Constraint.source_constraint_id := "c2";
     Constraint.confidence := 1 |}.

(** The snapshot of [one_tick]; a signal to buy ten no contracts; a
    signal to sell whatever is held; a backtester that holds ten yes
    contracts of T. *)
Definition tick : EventSimulator.MarketState.t :=
  {| EventSimulator.MarketState.timestamp := 100;
     EventSimulator.MarketState.ticker := "T";
     EventSimulator.MarketState.bid := 0.40;
     EventSimulator.MarketState.ask := 0.42;
     EventSimulator.MarketState.last_price := 0.41;
     EventSimulator.MarketState.volume := 0;
     EventSimulator.MarketState.open_interest := 0 |}.

Definition buy_no : EventSimulator.Signal.t :=
  {| EventSimulator.Signal.action := "buy";
     EventSimulator.Signal.side := Some EventSimulator.NO;
     EventSimulator.Signal.quantity := 10;
     EventSimulator.Signal.reason := "" |}.

Definition sell_all : EventSimulator.Signal.t :=
  {| EventSimulator.Signal.action := "sell";
     EventSimulator.Signal.side := None;
     EventSimulator.Signal.quantity := 0;
     EventSimulator.Signal.reason := "" |}.

Definition holding_yes : EventSimulator.t :=
  EventSimulator._execute_buy (EventSimulator.init 10000 0.07 5) tick
    (always_buy tick {| EventSimulator.ctx_positions := [];
                        EventSimulator.ctx_capital := 10000 |})
    EventSimulator.YES.

(** Two positions of the series KXBTC and one of another series; a
    signal on a third KXBTC market. *)
Definition btc_positions : list PositionModel.Position :=
  [{| PositionModel.ticker := "KXBTC-A"; PositionModel.side := PositionModel.YES;
      PositionModel.quantity := 1000; PositionModel.average_price := 0.40 |};
   {| PositionModel.ticker := "KXETH-A"; PositionModel.side := PositionModel.NO;
      PositionModel.quantity := 500; PositionModel.average_price := 0.50 |};
   {| PositionModel.ticker := "KXBTC-B"; PositionModel.side := PositionModel.NO;
      PositionModel.quantity := 1000; PositionModel.average_price := 0.30 |}].

Definition btc_signal : Signal.DirectionalSignal :=
  {| Signal.ticker := "KXBTC-C"; Signal.direction := Signal.BUY_YES;
     Signal.signal_type := Signal.CONSTRAINT_VIOLATION;
     Signal.current_price := 0.40; Signal.bound_price := 0.50;
     Signal.raw_edge := 0.10; Signal.estimated_fee := 0.02;
     Signal.estimated_spread := 0.01; Signal.net_edge := 0.07;
     Signal.confidence := 1; Signal.source_constraint_id := "c" |}.

(** The subset constraint A ⊂ B, and prices that invert it. *)
Definition a_in_b : Constraint.Constraint :=
  {| Constraint.id := "c1"; Constraint.constraint_type := Constraint.SUBSET;
     Constraint.lhs_tickers := ["A"]; Constraint.rhs_tickers := ["B"];
     Constraint.description := "A in B" |}.

Definition inverted_prices : gmap string Q :=
  <["A" := 0.6%Q]> (<["B" := 0.5%Q]> ∅).

(** * Properties *)

(** ** Comparisons, rounding and sums *)

Lemma leb_spec (x y : Q) : Bool.reflect (x <= y)%Q (Py.leb x y).
Proof.
  unfold Py.leb. destruct (Qle_bool x y) eqn:E; constructor.
  - by apply Qle_bool_iff.
  - intros H. apply Qle_bool_iff in H. congruence.
Qed.

Lemma ltb_spec (x y : Q) : Bool.reflect (x < y)%Q (Py.ltb x y).
Proof.
  unfold Py.ltb. destruct (Qle_bool y x) eqn:E; simpl; constructor.
  - apply Qle_bool_iff in E. by apply Qle_not_lt.
  - apply Qnot_le_lt. intros H. apply Qle_bool_iff in H. congruence.
Qed.

(** Case analysis on every rational comparison in the goal. *)
Ltac no_branch t :=
  lazymatch t with
  | context [Py.ltb _ _] => fail
  | context [Py.leb _ _] => fail
  | _ => idtac
  end.

Ltac qcmp :=
  repeat match goal with
  | |- context [Py.ltb ?a ?b] =>
      no_branch a; no_branch b; destruct (ltb_spec a b)
  | |- context [Py.leb ?a ?b] =>
      no_branch a; no_branch b; destruct (leb_spec a b)
  end.

Lemma max_spec (a b : Q) :
  (a <= Py.max a b /\ b <= Py.max a b /\ (Py.max a b = a \/ Py.max a b = b))%Q.
Proof. unfold Py.max. qcmp; repeat split; auto; lra. Qed.

Lemma min_spec (a b : Q) :
  (Py.min a b <= a /\ Py.min a b <= b /\ (Py.min a b = a \/ Py.min a b = b))%Q.
Proof. unfold Py.min. qcmp; repeat split; auto; lra. Qed.

Lemma ceil_pos (x : Q) : (0 < x)%Q -> (1 <= Py.ceil x)%Z.
Proof.
  intros Hx. unfold Py.ceil.
  pose proof (Qle_ceiling x) as Hc.
  assert (0 < inject_Z (Qceiling x))%Q as H0 by lra.
  change 0%Q with (inject_Z 0) in H0. rewrite <- Zlt_Qlt in H0. lia.
Qed.

Lemma int_nonneg_floor (x : Q) : (0 <= x)%Q -> Py.int x = Qfloor x.
Proof.
  destruct x as [n d]. unfold Py.int, Qfloor, Qle. simpl. intros H.
  apply Z.quot_div_nonneg; lia.
Qed.

Lemma int_nonpos_ceiling (x : Q) : (x <= 0)%Q -> Py.int x = Qceiling x.
Proof.
  destruct x as [n d]. unfold Py.int, Qceiling, Qfloor, Qle. simpl. intros H.
  rewrite <- (Z.opp_involutive n) at 1. rewrite Z.quot_opp_l by lia.
  f_equal. apply Z.quot_div_nonneg; lia.
Qed.

Lemma foldl_Qplus_acc (xs : list Q) (a : Q) :
  (foldl Qplus a xs == a + foldl Qplus 0 xs)%Q.
Proof.
  revert a. induction xs as [|x xs IH]; intros a; simpl.
  - lra.
  - rewrite (IH (a + x)%Q), (IH (0 + x)%Q). lra.
Qed.

Lemma sum_cons (x : Q) (xs : list Q) : (Py.sum (x :: xs) == x + Py.sum xs)%Q.
Proof. unfold Py.sum. simpl. rewrite foldl_Qplus_acc. lra. Qed.

Lemma sum_perm (xs ys : list Q) : xs ≡ₚ ys -> (Py.sum xs == Py.sum ys)%Q.
Proof.
  induction 1 as [|x l l' _ IH|x y l|l l' l'' _ IH1 _ IH2].
  - reflexivity.
  - rewrite !sum_cons, IH. reflexivity.
  - rewrite !sum_cons. lra.
  - by rewrite IH1.
Qed.

(** ** C2: the fee schedule *)

Lemma fee_inside (p : Q) :
  (0 < p)%Q -> (p < 1)%Q ->
  (Fees.calculate_fee p 1 ==
   inject_Z (Py.ceil (0.07 * p * (1 - p) * 100)) / 100)%Q.
Proof.
  intros H0 H1. unfold Fees.calculate_fee.
  destruct (ltb_spec 0 p); [|lra]. destruct (ltb_spec p 1); [|lra].
  simpl. field.
Qed.

Lemma fee_outside (p : Q) (n : Z) :
  ~ (0 < p /\ p < 1)%Q -> Fees.calculate_fee p n = 0%Q.
Proof.
  intros H. unfold Fees.calculate_fee.
  destruct (ltb_spec 0 p), (ltb_spec p 1); simpl; try reflexivity. tauto.
Qed.

(** C2. For every rational price [p], [calculate_fee p 1] is 0 when [p]
    lies outside the open interval (0,1), and is
    [max(0.01, ceil(0.07*p*(1-p)*100)/100)] when [p] lies inside it; the
    pinned values are fee(0) = fee(1) = 0, fee(0.50) = 0.02 and
    fee(0.10) = fee(0.90) = 0.01. *)
Theorem calculate_fee_schedule :
  forall p : Q,
    (~ (0 < p /\ p < 1) -> Fees.calculate_fee p 1 == 0)%Q /\
    ((0 < p /\ p < 1) ->
     Fees.calculate_fee p 1 ==
     Py.max 0.01 (inject_Z (Qceiling (0.07 * p * (1 - p) * 100)) / 100))%Q /\
    (Fees.calculate_fee 0 1 == 0)%Q /\
    (Fees.calculate_fee 1 1 == 0)%Q /\
    (Fees.calculate_fee 0.50 1 == 0.02)%Q /\
    (Fees.calculate_fee 0.10 1 == 0.01)%Q /\
    (Fees.calculate_fee 0.90 1 == 0.01)%Q.
Proof.
  intros p. split; [|split].
  - intros H. by rewrite fee_outside.
  - intros [H0 H1]. rewrite fee_inside by assumption.
    assert (0 < 0.07 * p * (1 - p) * 100)%Q as Hpos by nra.
    apply ceil_pos in Hpos. unfold Py.ceil in Hpos.
    set (c := Qceiling (0.07 * p * (1 - p) * 100)) in *.
    assert (1 <= inject_Z c)%Q as Hc.
    { change 1%Q with (inject_Z 1). by rewrite <- Zle_Qle. }
    assert (inject_Z c / 100 == inject_Z c * (1 # 100))%Q as Hd by field.
    unfold Py.max, Py.ceil. fold c. qcmp; lra.
  - repeat split; reflexivity.
Qed.

(** ** C3: the rebalancing detector *)

Lemma fee_nonneg (p : Q) : (0 <= Fees.calculate_fee p 1)%Q.
Proof.
  destruct (Qlt_le_dec 0 p) as [H0|H0]; [destruct (Qlt_le_dec p 1) as [H1|H1]|].
  - rewrite fee_inside by assumption.
    assert (0 < 0.07 * p * (1 - p) * 100)%Q as Hpos by nra.
    apply ceil_pos in Hpos.
    set (c := Py.ceil (0.07 * p * (1 - p) * 100)) in *.
    assert (1 <= inject_Z c)%Q as Hc.
    { change 1%Q with (inject_Z 1). by rewrite <- Zle_Qle. }
    assert (inject_Z c / 100 == inject_Z c * (1 # 100))%Q as Hd by field.
    lra.
  - rewrite fee_outside; [lra|]. intros [_ ?]. lra.
  - rewrite fee_outside; [lra|]. intros [? _]. lra.
Qed.

Lemma total_fees_nonneg (prices : list Q) :
  (0 <= Fees.calculate_total_fees prices 1)%Q.
Proof.
  unfold Fees.calculate_total_fees.
  induction prices as [|p ps IH]; simpl.
  - unfold Py.sum. simpl. lra.
  - rewrite sum_cons. pose proof (fee_nonneg p). lra.
Qed.

Lemma deviation_long (s : Q) : (s < 1)%Q -> (Qabs (s - 1) == 1 - s)%Q.
Proof. intros H. rewrite Qabs_neg by lra. lra. Qed.

Lemma deviation_short (s : Q) : ~ (s < 1)%Q -> (Qabs (s - 1) == s - 1)%Q.
Proof. intros H. rewrite Qabs_pos by lra. lra. Qed.

(** What [scan_market] does once the two length checks have passed. *)
Lemma scan_market_unfold self now market_id conditions prices quantities :
  (2 <= length conditions)%nat ->
  length conditions = length prices ->
  let s := Py.sum prices in
  let fees := Fees.calculate_total_fees prices 1 in
  RebalancingDetector.scan_market self now market_id conditions prices quantities =
  if Py.ltb (Qabs (s - 1)) 0.001 then None
  else
    let pre := if Py.ltb s 1 then (1 - s)%Q else (s - 1)%Q in
    let post := if Py.ltb s 1 then (1 - s - fees)%Q else (s - 1 - fees)%Q in
    if Py.ltb 0.01 post && Py.leb (RebalancingDetector.min_profit_threshold self) post
    then Some {| Signal.market_id := market_id;
                 Signal.side := if Py.ltb s 1 then "long" else "short";
                 Signal.conditions := conditions; Signal.prices := prices;
                 Signal.price_sum := s; Signal.deviation := Qabs (s - 1);
                 Signal.profit_pre_fee := pre; Signal.total_fees := fees;
                 Signal.profit_post_fee := post;
                 Signal.min_liquidity :=
                   match quantities with
                   | Some qs => default 0%Z (Py.min_list qs)
                   | None => 0%Z
                   end;
                 Signal.created_at := now |}
    else None.
Proof.
  intros Hlen Heq s fees. unfold RebalancingDetector.scan_market.
  destruct (Nat.ltb_spec (length conditions) 2) as [?|_]; [lia|].
  rewrite <- Heq, Nat.eqb_refl. cbn [orb negb]. fold s fees.
  destruct (Py.ltb (Qabs (s - 1)) 0.001); [reflexivity|].
  destruct (Py.ltb s 1); reflexivity.
Qed.

(** C3, as the code has it.  With at least two conditions and one price
    per condition, [scan_market] returns an opportunity if and only if
    the deviation [|S - 1|] exceeds 0.001, the post-fee profit
    [|S - 1| - fees] is at least [min_profit_threshold], and that profit
    also exceeds the fixed floor 0.01 of [is_profitable].  A returned
    opportunity is long exactly when [S < 1], with gross profit [1 - S],
    and short otherwise, with gross profit [S - 1]. *)
Theorem scan_market_emits_iff self now market_id conditions prices quantities :
  (2 <= length conditions)%nat ->
  length conditions = length prices ->
  let s := Py.sum prices in
  let net := (Qabs (s - 1) - Fees.calculate_total_fees prices 1)%Q in
  let r := RebalancingDetector.scan_market self now market_id conditions prices
             quantities in
  (is_Some r <->
   (0.001 < Qabs (s - 1) /\ RebalancingDetector.min_profit_threshold self <= net
    /\ 0.01 < net)%Q) /\
  (forall o, r = Some o ->
     (Signal.side o = "long" <-> (s < 1)%Q) /\
     ((s < 1)%Q -> Signal.profit_pre_fee o = (1 - s)%Q) /\
     (~ (s < 1)%Q ->
      Signal.side o = "short" /\ Signal.profit_pre_fee o = (s - 1)%Q)).
Proof.
  intros Hlen Heq s net r. subst r.
  rewrite (scan_market_unfold self now market_id conditions prices quantities Hlen Heq).
  fold s. cbv zeta.
  pose proof (total_fees_nonneg prices) as Hfees.
  set (fees := Fees.calculate_total_fees prices 1) in *.
  assert ((if Py.ltb s 1 then (1 - s - fees)%Q else (s - 1 - fees)%Q) == net)%Q as Hnet.
  { subst net. destruct (ltb_spec s 1).
    - rewrite deviation_long by assumption. lra.
    - rewrite deviation_short by assumption. lra. }
  set (post := if Py.ltb s 1 then (1 - s - fees)%Q else (s - 1 - fees)%Q) in *.
  assert (Qabs (s - 1) == net + fees)%Q as Hdev by (subst net; lra).
  set (d := Qabs (s - 1)) in *. clearbody post net d.
  split.
  - destruct (ltb_spec d 0.001) as [Hd|Hd].
    { split; [intros [? ?]; discriminate|]. intros (? & ? & ?). lra. }
    destruct (ltb_spec 0.01 post) as [Hp|Hp];
      destruct (leb_spec (RebalancingDetector.min_profit_threshold self) post)
        as [Ht|Ht]; simpl.
    + split; [|by eauto]. intros _. repeat split; lra.
    + split; [intros [? ?]; discriminate|]. intros (? & ? & ?). lra.
    + split; [intros [? ?]; discriminate|]. intros (? & ? & ?). lra.
    + split; [intros [? ?]; discriminate|]. intros (? & ? & ?). lra.
  - intros o Ho.
    destruct (Py.ltb d 0.001); [discriminate|].
    destruct (Py.ltb 0.01 post && _); [|discriminate].
    injection Ho as <-. simpl.
    destruct (ltb_spec s 1) as [Hs|Hs]; repeat split; try done.
Qed.

(** C3 at the three-way basket priced 0.30 each: a long opportunity. *)
Lemma scan_market_emits_iff_witness :
  let prices := [0.30; 0.30; 0.30]%Q in
  let r := RebalancingDetector.scan_market RebalancingDetector.init 0 "M"
             ["A"; "B"; "C"] prices None in
  (is_Some r <->
   (0.001 < Qabs (Py.sum prices - 1)
    /\ RebalancingDetector.min_profit_threshold RebalancingDetector.init
       <= Qabs (Py.sum prices - 1) - Fees.calculate_total_fees prices 1
    /\ 0.01 < Qabs (Py.sum prices - 1) - Fees.calculate_total_fees prices 1)%Q) /\
  (forall o, r = Some o ->
     (Signal.side o = "long" <-> (Py.sum prices < 1)%Q) /\
     ((Py.sum prices < 1)%Q -> Signal.profit_pre_fee o = (1 - Py.sum prices)%Q) /\
     (~ (Py.sum prices < 1)%Q ->
      Signal.side o = "short" /\
      Signal.profit_pre_fee o = (Py.sum prices - 1)%Q)).
Proof.
  exact (scan_market_emits_iff RebalancingDetector.init 0 "M" ["A"; "B"; "C"]
           [0.30; 0.30; 0.30]%Q None (le_S 2 2 (le_n 2)) eq_refl).
Defined.

(** C3 as stated fails: with [min_profit_threshold = 0] and prices
    0.96 and 0.015 the deviation is 0.025 and the post-fee profit 0.005,
    above the threshold, yet no opportunity is returned. *)
Lemma scan_market_floor_counterexample :
  let self := {| RebalancingDetector.min_profit_threshold := 0 |} in
  let prices := [0.96; 0.015]%Q in
  (0.001 < Qabs (Py.sum prices - 1))%Q /\
  (RebalancingDetector.min_profit_threshold self
   <= Qabs (Py.sum prices - 1) - Fees.calculate_total_fees prices 1)%Q /\
  RebalancingDetector.scan_market self 0 "M" ["A"; "B"] prices None = None.
Proof. repeat split; vm_compute; congruence. Qed.

(** ** C4: partition bounds *)

Lemma available_prices_from (tickers : list string) (prices acc : gmap string Q)
    (t : string) :
  foldl (fun acc t => match prices !! t with
                      | Some p => <[t := p]> acc
                      | None => acc
                      end) acc tickers !! t =
  match (if decide (t ∈ tickers) then prices !! t else None) with
  | Some p => Some p
  | None => acc !! t
  end.
Proof.
  revert acc. induction tickers as [|x xs IH]; intros acc.
  - destruct (decide (t ∈ [])) as [Hin|_]; [by apply not_elem_of_nil in Hin|done].
  - cbn [foldl]. rewrite IH.
    destruct (decide (t ∈ xs)) as [Hin|Hin];
      destruct (decide (t ∈ x :: xs)) as [Hc|Hc];
      rewrite elem_of_cons in Hc.
    + destruct (prices !! t) eqn:Ht; [done|].
      destruct (prices !! x) eqn:Hx; [|done].
      rewrite lookup_insert_ne; [done|congruence].
    + tauto.
    + destruct Hc as [->|?]; [|tauto].
      destruct (prices !! x) eqn:Ht; [by rewrite lookup_insert_eq|done].
    + assert (x <> t) by (intros ->; tauto).
      destruct (prices !! x); [by rewrite lookup_insert_ne|done].
Qed.

(** The comprehension keeps exactly the prices of the partition's tickers. *)
Lemma available_prices_lookup (tickers : list string) (prices : gmap string Q)
    (t : string) :
  BoundCalculator.available_prices tickers prices !! t =
  if decide (t ∈ tickers) then prices !! t else None.
Proof.
  unfold BoundCalculator.available_prices. rewrite available_prices_from.
  rewrite lookup_empty. by destruct (if decide (t ∈ tickers) then _ else _).
Qed.

Lemma sum_values_delete (d : gmap string Q) (t : string) (p : Q) :
  d !! t = Some p ->
  (BoundCalculator.sum_values d ==
   p + BoundCalculator.sum_values (delete t d))%Q.
Proof.
  intros Ht. unfold BoundCalculator.sum_values.
  rewrite <- sum_cons. apply sum_perm.
  change (p :: (map_to_list (delete t d)).*2)
    with (((t, p) :: map_to_list (delete t d)).*2).
  apply fmap_Permutation. symmetry. by apply map_to_list_delete.
Qed.

Lemma clamp_unit_proper (x y : Q) :
  (x == y)%Q -> (Py.max 0 (Py.min 1 x) == Py.max 0 (Py.min 1 y))%Q.
Proof. intros H. unfold Py.max, Py.min. qcmp; lra. Qed.

Lemma clamp_unit_range (x : Q) :
  (0 <= Py.max 0 (Py.min 1 x) <= 1)%Q.
Proof. unfold Py.max, Py.min. qcmp; lra. Qed.

(** C4, as the code has it.  Every bound that
    [calculate_partition_bounds] emits is for a priced ticker of the
    partition, has lower = 0, and has as upper the value
    [1 - (sum of the other priced tickers' prices)] clamped to [0, 1]
    (so the bound passes the field constraints of [ProbabilityBound]).
    Hence [upper + others <= 1] whenever the others sum to at most 1;
    when they sum to more than 1 the upper bound is 0 and the inequality
    fails. *)
Theorem partition_bound_upper (constraint : Constraint.Constraint)
    (prices : gmap string Q) (b : Constraint.ProbabilityBound) :
  b ∈ BoundCalculator.calculate_partition_bounds constraint prices ->
  let tickers := Constraint.lhs_tickers constraint in
  let available := BoundCalculator.available_prices tickers prices in
  let others := BoundCalculator.sum_values (delete (Constraint.ticker b) available) in
  Constraint.ticker b ∈ tickers /\
  is_Some (prices !! Constraint.ticker b) /\
  (2 <= size available)%nat /\
  Constraint.lower b = 0%Q /\
  (0 <= Constraint.upper b <= 1)%Q /\
  (Constraint.upper b == Py.max 0 (Py.min 1 (1 - others)))%Q /\
  (others <= 1 -> Constraint.upper b + others <= 1)%Q /\
  (1 < others -> Constraint.upper b == 0 /\ ~ Constraint.upper b + others <= 1)%Q.
Proof.
  intros Hb tickers available others.
  unfold BoundCalculator.calculate_partition_bounds in Hb.
  fold tickers available in Hb.
  destruct (Nat.ltb_spec (size available) 2) as [Hsz|Hsz].
  { by apply not_elem_of_nil in Hb. }
  apply list_elem_of_omap in Hb as (t & Hin & Hb).
  destruct (available !! t) as [p|] eqn:Hp; [|discriminate].
  injection Hb as <-. simpl in others |- *.
  pose proof Hp as Hp'. unfold available in Hp'.
  rewrite available_prices_lookup in Hp'.
  destruct (decide (t ∈ tickers)); [|discriminate].
  assert (BoundCalculator.sum_values available - p == others)%Q as Hothers.
  { rewrite (sum_values_delete available t p Hp). subst others. lra. }
  assert (Py.max 0 (Py.min 1 (1 - (BoundCalculator.sum_values available - p)))
          == Py.max 0 (Py.min 1 (1 - others)))%Q as Hup.
  { apply clamp_unit_proper. lra. }
  split; [done|]. split; [by eauto|]. split; [done|]. split; [done|].
  split; [apply clamp_unit_range|]. split; [done|].
  rewrite Hup. clearbody others. unfold Py.max, Py.min.
  split; intros Ho; qcmp; repeat split; lra.
Qed.

(** C4 at a three-way partition priced 0.2, 0.3 and 0.4: the bound on A. *)
Lemma partition_bound_upper_witness :
  let constraint :=
    {| Constraint.id := "p"; Constraint.constraint_type := Constraint.PARTITION;
       Constraint.lhs_tickers := ["A"; "B"; "C"]; Constraint.rhs_tickers := [];
       Constraint.description := "" |} in
  let prices : gmap string Q :=
    <["A" := 0.2%Q]> (<["B" := 0.3%Q]> (<["C" := 0.4%Q]> ∅)) in
  let b := {| Constraint.ticker := "A"; Constraint.lower := 0;
              Constraint.upper := 0.3000; Constraint.source_constraint_id := "p";
              Constraint.confidence := 1 |} in
  let others :=
    BoundCalculator.sum_values
      (delete "A" (BoundCalculator.available_prices ["A"; "B"; "C"] prices)) in
  (Constraint.upper b + others <= 1)%Q.
Proof.
  intros constraint prices b others.
  refine (proj1 (proj2 (proj2 (proj2 (proj2 (proj2 (proj2
            (partition_bound_upper constraint prices b _))))))) _).
  - vm_compute. apply list_elem_of_here.
  - vm_compute. intros H. discriminate H.
Defined.

(** C4 as stated fails: with three tickers priced 0.6 each, the bound on
    A has upper = 0 while the other two prices sum to 1.2. *)
Lemma partition_bound_counterexample :
  let constraint :=
    {| Constraint.id := "p"; Constraint.constraint_type := Constraint.PARTITION;
       Constraint.lhs_tickers := ["A"; "B"; "C"]; Constraint.rhs_tickers := [];
       Constraint.description := "" |} in
  let prices : gmap string Q :=
    <["A" := 0.6%Q]> (<["B" := 0.6%Q]> (<["C" := 0.6%Q]> ∅)) in
  exists b,
    b ∈ BoundCalculator.calculate_partition_bounds constraint prices /\
    Constraint.ticker b = "A" /\ Constraint.lower b = 0%Q /\
    ~ (Constraint.upper b
       + BoundCalculator.sum_values
           (delete "A" (BoundCalculator.available_prices ["A"; "B"; "C"] prices))
       <= 1)%Q.
Proof.
  intros constraint prices.
  exists {| Constraint.ticker := "A"; Constraint.lower := 0;
            Constraint.upper := 0; Constraint.source_constraint_id := "p";
            Constraint.confidence := 1 |}.
  split; [vm_compute; apply list_elem_of_here|].
  split; [done|]. split; [done|]. vm_compute. by intros H.
Qed.

(** ** C6: merging bounds *)

Lemma string_app_assoc (a b c : string) : (a +:+ b) +:+ c = a +:+ (b +:+ c).
Proof.
  induction a as [|ch a IH]; [reflexivity|].
  change (String ch ((a +:+ b) +:+ c) = String ch (a +:+ (b +:+ c))).
  by rewrite IH.
Qed.

Lemma max_assoc (a b c : Q) : Py.max (Py.max a b) c = Py.max a (Py.max b c).
Proof. unfold Py.max. qcmp; try reflexivity; lra. Qed.

Lemma min_assoc (a b c : Q) : Py.min (Py.min a b) c = Py.min a (Py.min b c).
Proof. unfold Py.min. qcmp; try reflexivity; lra. Qed.

Lemma merge_same_ticker (a b : Constraint.ProbabilityBound) :
  Constraint.ticker a = Constraint.ticker b ->
  Constraint.merge a b =
  Py.Ok {| Constraint.ticker := Constraint.ticker a;
           Constraint.lower := Py.max (Constraint.lower a) (Constraint.lower b);
           Constraint.upper := Py.min (Constraint.upper a) (Constraint.upper b);
           Constraint.source_constraint_id :=
             Constraint.source_constraint_id a +:+ "+"
             +:+ Constraint.source_constraint_id b;
           Constraint.confidence :=
             Py.min (Constraint.confidence a) (Constraint.confidence b) |}.
Proof. intros H. unfold Constraint.merge. by rewrite H, String.eqb_refl. Qed.

(** [merge] is associative on the nose, errors included. *)
Lemma merge_assoc (a b c : Constraint.ProbabilityBound) :
  Py.bind (Constraint.merge a b) (fun ab => Constraint.merge ab c) =
  Py.bind (Constraint.merge b c) (fun bc => Constraint.merge a bc).
Proof.
  unfold Constraint.merge.
  destruct (String.eqb_spec (Constraint.ticker a) (Constraint.ticker b)) as [Hab|Hab];
    destruct (String.eqb_spec (Constraint.ticker b) (Constraint.ticker c)) as [Hbc|Hbc];
    cbn [negb Py.bind Constraint.ticker].
  - rewrite Hab, Hbc, String.eqb_refl. cbn [negb].
    cbn [Constraint.lower Constraint.upper Constraint.confidence
         Constraint.source_constraint_id].
    by rewrite max_assoc, !min_assoc, !string_app_assoc.
  - destruct (String.eqb_spec (Constraint.ticker a) (Constraint.ticker c)); [congruence|].
    reflexivity.
  - destruct (String.eqb_spec (Constraint.ticker a) (Constraint.ticker b)); [congruence|].
    reflexivity.
  - reflexivity.
Qed.

Lemma merge_from_app a l1 l2 :
  Constraint.merge_from a (l1 ++ l2) =
  Py.bind (Constraint.merge_from a l1) (fun m => Constraint.merge_from m l2).
Proof.
  revert a. induction l1 as [|b l1 IH]; intros a; [reflexivity|].
  cbn [app Constraint.merge_from].
  destruct (Constraint.merge a b); [apply IH|reflexivity].
Qed.

Lemma merge_from_assoc a b l :
  Py.bind (Constraint.merge_from b l) (fun m => Constraint.merge a m) =
  Py.bind (Constraint.merge a b) (fun ab => Constraint.merge_from ab l).
Proof.
  revert b. induction l as [|c l IH]; intros b.
  - cbn [Constraint.merge_from Py.bind]. by destruct (Constraint.merge a b).
  - cbn [Constraint.merge_from].
    pose proof (merge_assoc a b c) as Hassoc.
    destruct (Constraint.merge b c) as [bc|e] eqn:Hbc;
      destruct (Constraint.merge a b) as [ab|e'] eqn:Hab;
      cbn [Py.bind] in *.
    + rewrite IH. by rewrite <- Hassoc.
    + rewrite IH. by rewrite <- Hassoc.
    + by rewrite Hassoc.
    + done.
Qed.

Lemma is_max_of_step (x a b : Q) (l : list Q) :
  is_max_of x (Py.max a b :: l) -> is_max_of x (a :: b :: l).
Proof.
  intros [Hin Hall]. inversion Hall as [|? ? Hx Hl]; subst.
  destruct (max_spec a b) as (Ha & Hb & Hor). split.
  - apply elem_of_cons in Hin as [->|Hin].
    + destruct Hor as [-> | ->]; [left|right; left].
    + by do 2 right.
  - repeat constructor; [lra|lra|done].
Qed.

Lemma is_min_of_step (x a b : Q) (l : list Q) :
  is_min_of x (Py.min a b :: l) -> is_min_of x (a :: b :: l).
Proof.
  intros [Hin Hall]. inversion Hall as [|? ? Hx Hl]; subst.
  destruct (min_spec a b) as (Ha & Hb & Hor). split.
  - apply elem_of_cons in Hin as [->|Hin].
    + destruct Hor as [-> | ->]; [left|right; left].
    + by do 2 right.
  - repeat constructor; [lra|lra|done].
Qed.

Lemma is_max_of_perm (x x' : Q) (l l' : list Q) :
  l ≡ₚ l' -> is_max_of x l -> is_max_of x' l' -> (x == x')%Q.
Proof.
  intros Hp [Hin Hall] [Hin' Hall'].
  rewrite Forall_forall in Hall, Hall'.
  apply Qle_antisym.
  - apply Hall'. by rewrite <- Hp.
  - apply Hall. by rewrite Hp.
Qed.

Lemma is_min_of_perm (x x' : Q) (l l' : list Q) :
  l ≡ₚ l' -> is_min_of x l -> is_min_of x' l' -> (x == x')%Q.
Proof.
  intros Hp [Hin Hall] [Hin' Hall'].
  rewrite Forall_forall in Hall, Hall'.
  apply Qle_antisym.
  - apply Hall. by rewrite Hp.
  - apply Hall'. by rewrite <- Hp.
Qed.

Lemma concat_plus_step (x y : string) (l : list string) :
  String.concat "+" ((x +:+ "+" +:+ y) :: l) = String.concat "+" (x :: y :: l).
Proof.
  destruct l as [|z l]; [reflexivity|].
  cbn [String.concat]. by rewrite !string_app_assoc.
Qed.

(** The fold over bounds that all carry the ticker [t]. *)
Lemma merge_from_spec (t : string) (a : Constraint.ProbabilityBound)
    (l : list Constraint.ProbabilityBound) :
  Forall (fun b => Constraint.ticker b = t) (a :: l) ->
  exists m,
    Constraint.merge_from a l = Py.Ok m /\
    Constraint.ticker m = t /\
    is_max_of (Constraint.lower m) (Constraint.lower <$> a :: l) /\
    is_min_of (Constraint.upper m) (Constraint.upper <$> a :: l) /\
    is_min_of (Constraint.confidence m) (Constraint.confidence <$> a :: l) /\
    Constraint.source_constraint_id m =
    String.concat "+" (Constraint.source_constraint_id <$> a :: l).
Proof.
  revert a. induction l as [|b l IH]; intros a Hall.
  - exists a. apply Forall_cons in Hall as [Ha _].
    repeat split; try done; try (by left); repeat constructor; lra.
  - apply Forall_cons in Hall as [Ha Hl]. apply Forall_cons in Hl as [Hb Hl'].
    cbn [Constraint.merge_from].
    rewrite merge_same_ticker by congruence. cbn [Py.bind].
    match goal with |- context [Constraint.merge_from ?x l] => set (ab := x) end.
    destruct (IH ab) as (m & Hm & Ht & Hlo & Hup & Hco & Hid).
    { apply Forall_cons. split; [exact Ha|exact Hl']. }
    subst ab.
    exists m. split; [exact Hm|]. split; [exact Ht|].
    rewrite !fmap_cons in *.
    cbn [Constraint.lower Constraint.upper Constraint.confidence
         Constraint.source_constraint_id] in *.
    split; [by apply is_max_of_step|].
    split; [by apply is_min_of_step|].
    split; [by apply is_min_of_step|].
    by rewrite Hid, concat_plus_step.
Qed.

(** C6, as the code has it.  Folding [merge] over a non-empty list of
    bounds for one ticker succeeds; the merged lower is the maximum of
    the lowers, the merged upper the minimum of the uppers, the merged
    confidence the minimum of the confidences.  These three values and
    the ticker do not depend on the order of the list, and the whole
    merged bound does not depend on the grouping.  The merged
    [source_constraint_id] is the inputs' ids joined by "+" in list
    order, so it does depend on the order. *)
Theorem merge_all_intersection (t : string)
    (bs : list Constraint.ProbabilityBound) :
  bs <> [] ->
  Forall (fun b => Constraint.ticker b = t) bs ->
  exists m,
    Constraint.merge_all bs = Some (Py.Ok m) /\
    Constraint.ticker m = t /\
    is_max_of (Constraint.lower m) (Constraint.lower <$> bs) /\
    is_min_of (Constraint.upper m) (Constraint.upper <$> bs) /\
    is_min_of (Constraint.confidence m) (Constraint.confidence <$> bs) /\
    Constraint.source_constraint_id m =
      String.concat "+" (Constraint.source_constraint_id <$> bs) /\
    (forall bs', bs' ≡ₚ bs ->
       exists m', Constraint.merge_all bs' = Some (Py.Ok m') /\
                  Constraint.ticker m' = t /\
                  (Constraint.lower m' == Constraint.lower m)%Q /\
                  (Constraint.upper m' == Constraint.upper m)%Q /\
                  (Constraint.confidence m' == Constraint.confidence m)%Q) /\
    (forall l1 l2 m1 m2,
       bs = l1 ++ l2 ->
       Constraint.merge_all l1 = Some (Py.Ok m1) ->
       Constraint.merge_all l2 = Some (Py.Ok m2) ->
       Constraint.merge m1 m2 = Py.Ok m).
Proof.
  intros Hne Hall. destruct bs as [|a l]; [done|].
  destruct (merge_from_spec t a l Hall) as (m & Hm & Ht & Hlo & Hup & Hco & Hid).
  exists m. cbn [Constraint.merge_all]. rewrite Hm.
  do 6 (split; [done|]). split.
  - intros bs' Hp.
    destruct bs' as [|a' l']; [by apply Permutation_nil_cons in Hp|].
    assert (Forall (fun b => Constraint.ticker b = t) (a' :: l')) as Hall'
      by (by rewrite Hp).
    destruct (merge_from_spec t a' l' Hall')
      as (m' & Hm' & Ht' & Hlo' & Hup' & Hco' & _).
    exists m'. cbn [Constraint.merge_all]. rewrite Hm'.
    split; [done|]. split; [done|].
    split; [|split].
    + eapply is_max_of_perm; [|exact Hlo'|exact Hlo]. by apply fmap_Permutation.
    + eapply is_min_of_perm; [|exact Hup'|exact Hup]. by apply fmap_Permutation.
    + eapply is_min_of_perm; [|exact Hco'|exact Hco]. by apply fmap_Permutation.
  - intros l1 l2 m1 m2 Happ H1 H2.
    destruct l1 as [|a1 l1]; [discriminate|]. destruct l2 as [|b l2]; [discriminate|].
    cbn [Constraint.merge_all] in H1, H2.
    injection H1 as H1. injection H2 as H2.
    cbn [app] in Happ. injection Happ as -> ->.
    rewrite merge_from_app, H1 in Hm. cbn [Py.bind Constraint.merge_from] in Hm.
    rewrite <- merge_from_assoc, H2 in Hm. exact Hm.
Qed.

(** C6 at two bounds [0.2, 0.9] and [0.4, 0.7] for the ticker T. *)
Lemma merge_all_intersection_witness :
  let b1 := {| Constraint.ticker := "T"; Constraint.lower := 0.2;
               Constraint.upper := 0.9; Constraint.source_constraint_id := "c1";
               Constraint.confidence := 1 |} in
  let b2 := {| Constraint.ticker := "T"; Constraint.lower := 0.4;
               Constraint.upper := 0.7; Constraint.source_constraint_id := "c2";
               Constraint.confidence := 0.8 |} in
  exists m,
    Constraint.merge_all [b1; b2] = Some (Py.Ok m) /\
    Constraint.ticker m = "T" /\
    Constraint.lower m = 0.4%Q /\ Constraint.upper m = 0.7%Q /\
    Constraint.confidence m = 0.8%Q /\
    Constraint.source_constraint_id m = "c1+c2".
Proof.
  intros b1 b2.
  destruct (merge_all_intersection "T" [b1; b2]) as (m & Hm & Ht & _ & _ & _ & Hid & _).
  - discriminate.
  - repeat constructor.
  - exists m. injection Hm as <-. repeat split; reflexivity.
Defined.

(** C6 as stated fails: the merged bound depends on the order, through
    its [source_constraint_id]. *)
Lemma merge_order_counterexample :
  let b1 := {| Constraint.ticker := "T"; Constraint.lower := 0.2;
               Constraint.upper := 0.9; Constraint.source_constraint_id := "c1";
               Constraint.confidence := 1 |} in
  let b2 := {| Constraint.ticker := "T"; Constraint.lower := 0.4;
               Constraint.upper := 0.7; Constraint.source_constraint_id := "c2";
               Constraint.confidence := 0.8 |} in
  Constraint.merge_all [b1; b2] <> Constraint.merge_all [b2; b1].
Proof. intros b1 b2. vm_compute. intros H. discriminate H. Qed.

(** ** C7: the minimum-hold gate of the profit-taker *)

(** C7. For a tracked position whose hold time is below
    [min_hold_seconds], [_evaluate_position] returns no action, whatever
    the current price, and leaves the profit-taker untouched: no
    stop-loss, no trailing stop, no take-profit, no tier close, and no
    update of the tracker. *)
Theorem evaluate_position_min_hold_gate (self : ProfitTaker.t) (now : Q)
    (position : PositionModel.Position) (current_price : Q)
    (tracker : ProfitTaker.PositionTracker.t) :
  ProfitTaker._tracked_positions self !! PositionModel.ticker position
    = Some tracker ->
  (now - ProfitTaker.PositionTracker.entry_time tracker
   < inject_Z (ProfitTaker.min_hold_seconds (ProfitTaker.config self)))%Q ->
  ProfitTaker._evaluate_position self now position current_price
    = (Py.Ok None, self).
Proof.
  intros Htr Hhold. unfold ProfitTaker._evaluate_position. rewrite Htr.
  by destruct (ltb_spec
                 (now - ProfitTaker.PositionTracker.entry_time tracker)
                 (inject_Z (ProfitTaker.min_hold_seconds (ProfitTaker.config self)))).
Qed.

(** C7 thirty seconds after entry, at a price 80% below entry. *)
Lemma evaluate_position_min_hold_gate_witness :
  ProfitTaker._evaluate_position held_taker 30 held_position 0.10
    = (Py.Ok None, held_taker).
Proof.
  refine (evaluate_position_min_hold_gate held_taker 30 held_position 0.10
            _ _ _).
  - vm_compute. reflexivity.
  - vm_compute. reflexivity.
Defined.

(** Past the gate the same price closes the position by stop-loss. *)
Example evaluate_position_after_hold :
  exists a taker,
    ProfitTaker._evaluate_position held_taker 120 held_position 0.10
      = (Py.Ok (Some a), taker) /\
    ProfitTaker.ProfitTakeAction.action a = "stop_loss" /\
    ProfitTaker.ProfitTakeAction.quantity a = 10%Z.
Proof. eexists _, _. split; [vm_compute; reflexivity|]. split; reflexivity. Qed.

(** ** C8: the limit price *)

Lemma calculate_limit_price_range signal aggressive :
  (1 <= ExecutionEngine.calculate_limit_price signal aggressive <= 99)%Z.
Proof. unfold ExecutionEngine.calculate_limit_price. lia. Qed.

(** C8, as the code has it.  The limit price lies in [1, 99] cents.
    [execute_signal] asks for the aggressive price exactly when
    [net_edge > 2 * spread]; that price is, clamped to [1, 99], the floor
    of [(current_price + spread) * 100] for buy-yes and the truncation
    toward zero of [(current_price - spread) * 100] for buy-no, which is
    the floor (not the ceiling) as soon as [spread <= current_price], and
    the ceiling only when [current_price <= spread]. *)
Theorem limit_price_cents (signal : Signal.DirectionalSignal) :
  Signal.validated signal ->
  let cur := Signal.current_price signal in
  let spread := Signal.estimated_spread signal in
  let price := ExecutionEngine.execute_signal_price_cents signal in
  (1 <= price <= 99)%Z /\
  (forall aggressive,
     1 <= ExecutionEngine.calculate_limit_price signal aggressive <= 99)%Z /\
  (ExecutionEngine.aggressive signal = true
   <-> (2 * spread < Signal.net_edge signal)%Q) /\
  ((2 * spread < Signal.net_edge signal)%Q ->
   (Signal.direction signal = Signal.BUY_YES ->
    price = clamp_cents (Qfloor ((cur + spread) * 100))) /\
   (Signal.direction signal = Signal.BUY_NO ->
    price = clamp_cents (Py.int ((cur - spread) * 100)) /\
    ((spread <= cur)%Q -> price = clamp_cents (Qfloor ((cur - spread) * 100))) /\
    ((cur <= spread)%Q -> price = clamp_cents (Qceiling ((cur - spread) * 100))))).
Proof.
  intros (Hcur & _ & _ & Hsp & _) cur spread price.
  fold cur spread in Hcur, Hsp.
  split; [apply calculate_limit_price_range|].
  split; [intros; apply calculate_limit_price_range|].
  assert (ExecutionEngine.aggressive signal = true
          <-> (2 * spread < Signal.net_edge signal)%Q) as Hagg.
  { unfold ExecutionEngine.aggressive. fold spread.
    destruct (ltb_spec (2 * spread) (Signal.net_edge signal)); split; try done. }
  split; [exact Hagg|].
  intros Hedge. apply Hagg in Hedge.
  subst price. unfold ExecutionEngine.execute_signal_price_cents.
  rewrite Hedge. unfold ExecutionEngine.calculate_limit_price, clamp_cents.
  fold cur spread.
  split; intros ->.
  - rewrite int_nonneg_floor; [reflexivity|]. nra.
  - split; [reflexivity|]. split; intros Hle.
    + rewrite int_nonneg_floor; [reflexivity|]. nra.
    + rewrite int_nonpos_ceiling; [reflexivity|]. nra.
Qed.

Lemma half_cent_signal_validated : Signal.validated half_cent_signal.
Proof. unfold Signal.validated, half_cent_signal, Qle; simpl. lia. Defined.

(** C8 at that signal: the aggressive buy-no price is 49 cents. *)
Lemma limit_price_cents_witness :
  ExecutionEngine.execute_signal_price_cents half_cent_signal = 49%Z /\
  ExecutionEngine.aggressive half_cent_signal = true.
Proof.
  destruct (limit_price_cents half_cent_signal half_cent_signal_validated)
    as (_ & _ & Hagg & Hprice).
  assert (2 * Signal.estimated_spread half_cent_signal
          < Signal.net_edge half_cent_signal)%Q as Hedge by reflexivity.
  split.
  - destruct (Hprice Hedge) as [_ Hno].
    destruct (Hno eq_refl) as [-> _]. reflexivity.
  - by apply Hagg.
Defined.

(** C8 as stated fails for buy-no: the price is 49 cents where the
    ceiling of 49.5 is 50. *)
Lemma limit_price_ceiling_counterexample :
  ExecutionEngine.aggressive half_cent_signal = true /\
  Signal.direction half_cent_signal = Signal.BUY_NO /\
  ExecutionEngine.execute_signal_price_cents half_cent_signal = 49%Z /\
  Qceiling ((Signal.current_price half_cent_signal
             - Signal.estimated_spread half_cent_signal) * 100) = 50%Z /\
  ExecutionEngine.execute_signal_price_cents half_cent_signal
  <> clamp_cents
       (Qceiling ((Signal.current_price half_cent_signal
                   - Signal.estimated_spread half_cent_signal) * 100)).
Proof. repeat split. by vm_compute. Qed.

(** ** C9: monotonicity of the position size *)

Lemma clamp_unit_mono (x y : Q) :
  (x <= y)%Q -> (Py.max 0 (Py.min 1 x) <= Py.max 0 (Py.min 1 y))%Q.
Proof. intros H. unfold Py.max, Py.min. qcmp; lra. Qed.

Lemma max_mono_r (c x y : Q) : (x <= y)%Q -> (Py.max c x <= Py.max c y)%Q.
Proof. intros H. unfold Py.max. qcmp; lra. Qed.

Lemma min_mono (x y x' y' : Q) :
  (x <= x')%Q -> (y <= y')%Q -> (Py.min x y <= Py.min x' y')%Q.
Proof. intros H H'. unfold Py.min. qcmp; lra. Qed.

Section SizerFacts.
Variable config : PositionSizer.SizingConfig.
Hypothesis Hconfig : PositionSizer.validated config.

Lemma calculate_kelly_nonneg (w o : Q) : (0 <= PositionSizer.calculate_kelly w o)%Q.
Proof.
  unfold PositionSizer.calculate_kelly.
  destruct (Py.leb w 0 || Py.leb 1 w); [lra|].
  destruct (Py.leb o 0); [lra|]. apply max_spec.
Qed.

Lemma calculate_kelly_mono (w1 w2 o : Q) :
  (w1 <= w2)%Q -> (w2 < 1)%Q ->
  (PositionSizer.calculate_kelly w1 o <= PositionSizer.calculate_kelly w2 o)%Q.
Proof.
  intros Hw Hlt. pose proof (calculate_kelly_nonneg w2 o) as Hnn.
  unfold PositionSizer.calculate_kelly in *.
  destruct (leb_spec w1 0) as [H1|H1]; cbn [orb]; [exact Hnn|].
  destruct (leb_spec 1 w1) as [H1'|H1']; [lra|].
  destruct (leb_spec w2 0) as [H2|H2]; [lra|].
  destruct (leb_spec 1 w2) as [H2'|H2']; [lra|]. cbn [orb].
  destruct (leb_spec o 0) as [Ho|Ho]; [lra|].
  apply clamp_unit_mono. unfold Qdiv.
  apply Qmult_le_compat_r; [nra|]. apply Qinv_le_0_compat. lra.
Qed.

Lemma calculate_kelly_from_edge_nonneg (e p : Q) :
  (0 <= PositionSizer.calculate_kelly_from_edge e p)%Q.
Proof.
  unfold PositionSizer.calculate_kelly_from_edge.
  destruct (_ || _); [lra|apply calculate_kelly_nonneg].
Qed.

Lemma calculate_kelly_from_edge_mono (e1 e2 p : Q) :
  (e1 <= e2)%Q ->
  (PositionSizer.calculate_kelly_from_edge e1 p
   <= PositionSizer.calculate_kelly_from_edge e2 p)%Q.
Proof.
  intros He. pose proof (calculate_kelly_from_edge_nonneg e2 p) as Hnn.
  unfold PositionSizer.calculate_kelly_from_edge in *.
  destruct (leb_spec e1 0) as [H1|H1]; cbn [orb]; [exact Hnn|].
  destruct (leb_spec e2 0) as [H2|H2]; [lra|]. cbn [orb].
  destruct (Py.leb p 0 || Py.leb 1 p); [lra|].
  apply calculate_kelly_mono.
  - apply min_mono; lra.
  - destruct (min_spec 0.99 (p + e2)) as (? & _). lra.
Qed.

Lemma adjust_for_correlation_factor (size : Q) (k : Z) :
  (PositionSizer.adjust_for_correlation config size k
   == size * correlation_factor config k)%Q.
Proof.
  unfold PositionSizer.adjust_for_correlation, correlation_factor.
  destruct (k <=? 0)%Z; [lra|reflexivity].
Qed.

Lemma correlation_factor_pos (k : Z) : (0 < correlation_factor config k)%Q.
Proof.
  unfold correlation_factor. destruct (k <=? 0)%Z; [lra|].
  destruct (max_spec 0.1
              (1 - PositionSizer.correlation_adjustment_per_position config
                   * inject_Z k)) as (? & _). lra.
Qed.

Lemma correlation_factor_anti (k1 k2 : Z) :
  (k1 <= k2)%Z -> (correlation_factor config k2 <= correlation_factor config k1)%Q.
Proof.
  intros Hk. destruct Hconfig as (_ & _ & _ & _ & Hadj & _).
  set (adj := PositionSizer.correlation_adjustment_per_position config) in *.
  unfold correlation_factor. fold adj.
  destruct (Z.leb_spec k1 0) as [H1|H1]; destruct (Z.leb_spec k2 0) as [H2|H2];
    try lia; try lra.
  - assert (0 <= inject_Z k2)%Q as Hk2.
    { change 0%Q with (inject_Z 0). rewrite <- Zle_Qle. lia. }
    unfold Py.max. qcmp; nra.
  - assert (inject_Z k1 <= inject_Z k2)%Q as Hk12 by (by rewrite <- Zle_Qle).
    apply max_mono_r. nra.
Qed.

Lemma cost_factor_pos (spread fee : Q) : (0 < cost_factor spread fee)%Q.
Proof.
  unfold cost_factor.
  destruct (max_spec 0.5 (1 - 2 * spread - fee)) as (? & _). lra.
Qed.

Lemma cost_factor_anti (s1 s2 f1 f2 : Q) :
  (s1 <= s2)%Q -> (f1 <= f2)%Q -> (cost_factor s2 f2 <= cost_factor s1 f1)%Q.
Proof. intros Hs Hf. apply max_mono_r. lra. Qed.

Lemma capped_size_mono (a1 a2 balance : Q) :
  (0 <= a1)%Q -> (a1 <= a2)%Q ->
  (capped_size config a1 balance <= capped_size config a2 balance)%Q.
Proof.
  intros H0 H12. destruct Hconfig as (_ & Hmp & _ & Hmin & _).
  unfold capped_size.
  set (mp := PositionSizer.max_position_per_market config) in *.
  set (ms := PositionSizer.min_position_size config) in *.
  destruct (Qlt_le_dec balance 0) as [Hb|Hb].
  - assert (a1 * balance <= 0)%Q by nra. assert (a2 * balance <= 0)%Q by nra.
    assert (balance * mp <= 0)%Q by nra.
    unfold Py.min. qcmp; lra.
  - assert (a1 * balance <= a2 * balance)%Q by nra.
    unfold Py.min. qcmp; lra.
Qed.

Lemma calculate_position_size_unfold (signal : Signal.DirectionalSignal)
    (balance : Q) (k : Z) :
  PositionSizer.calculate_position_size config signal balance k =
  capped_size config
    (PositionSizer.adjust_for_costs
       (PositionSizer.adjust_for_correlation config
          (PositionSizer.apply_fractional_kelly config
             (PositionSizer.calculate_kelly_from_edge
                (Signal.net_edge signal) (Signal.current_price signal))) k)
       (Signal.estimated_spread signal) (Signal.estimated_fee signal))
    balance.
Proof. reflexivity. Qed.

(** The size before the cap, as a product of non-negative factors. *)
Lemma adjusted_product (e p : Q) (k : Z) (spread fee : Q) :
  (PositionSizer.adjust_for_costs
     (PositionSizer.adjust_for_correlation config
        (PositionSizer.apply_fractional_kelly config
           (PositionSizer.calculate_kelly_from_edge e p)) k) spread fee
   == PositionSizer.calculate_kelly_from_edge e p
      * PositionSizer.kelly_fraction config
      * correlation_factor config k * cost_factor spread fee)%Q.
Proof.
  unfold PositionSizer.adjust_for_costs. fold (cost_factor spread fee).
  rewrite adjust_for_correlation_factor.
  unfold PositionSizer.apply_fractional_kelly. reflexivity.
Qed.

Lemma capped_size_proper (a a' balance : Q) :
  (a == a')%Q -> (capped_size config a balance == capped_size config a' balance)%Q.
Proof.
  intros H. unfold capped_size.
  assert (a * balance == a' * balance)%Q as Hp by (by rewrite H).
  unfold Py.min. qcmp; lra.
Qed.

Lemma product_size_mono (k1 k2 f1 f2 c1 c2 balance : Q) :
  (0 <= k1 <= k2)%Q -> (0 <= PositionSizer.kelly_fraction config)%Q ->
  (0 < f1 <= f2)%Q -> (0 < c1 <= c2)%Q ->
  (capped_size config (k1 * PositionSizer.kelly_fraction config * f1 * c1) balance
   <= capped_size config (k2 * PositionSizer.kelly_fraction config * f2 * c2) balance)%Q.
Proof.
  intros Hk Hkf Hf Hc.
  set (kf := PositionSizer.kelly_fraction config) in *.
  assert (0 <= k1 * kf <= k2 * kf)%Q as H1 by nra.
  assert (0 <= k1 * kf * f1 <= k2 * kf * f2)%Q as H2 by nra.
  apply capped_size_mono; nra.
Qed.

End SizerFacts.

(** C9. Under a validated sizing configuration and with every other
    input fixed, the dollar size of [calculate_position_size] does not
    decrease when [net_edge] grows, and does not increase when
    [correlated_positions], [estimated_spread] or [estimated_fee] grows. *)
Theorem position_size_monotone (config : PositionSizer.SizingConfig)
    (signal : Signal.DirectionalSignal) (balance : Q) (k : Z) :
  PositionSizer.validated config ->
  (forall e1 e2, (e1 <= e2)%Q ->
     (PositionSizer.calculate_position_size config (with_net_edge signal e1) balance k
      <= PositionSizer.calculate_position_size config (with_net_edge signal e2) balance k)%Q) /\
  (forall k1 k2, (k1 <= k2)%Z ->
     (PositionSizer.calculate_position_size config signal balance k2
      <= PositionSizer.calculate_position_size config signal balance k1)%Q) /\
  (forall s1 s2, (s1 <= s2)%Q ->
     (PositionSizer.calculate_position_size config (with_estimated_spread signal s2) balance k
      <= PositionSizer.calculate_position_size config (with_estimated_spread signal s1) balance k)%Q) /\
  (forall f1 f2, (f1 <= f2)%Q ->
     (PositionSizer.calculate_position_size config (with_estimated_fee signal f2) balance k
      <= PositionSizer.calculate_position_size config (with_estimated_fee signal f1) balance k)%Q).
Proof.
  intros Hconfig.
  assert (0 <= PositionSizer.kelly_fraction config)%Q as Hkf
    by (destruct Hconfig as ((? & _) & _); assumption).
  pose proof calculate_kelly_from_edge_nonneg as Hnn.
  pose proof (correlation_factor_pos config) as Hcp.
  pose proof cost_factor_pos as Hfp.
  repeat split.
  - intros e1 e2 He. rewrite !calculate_position_size_unfold.
    cbn [with_net_edge Signal.net_edge Signal.current_price
         Signal.estimated_spread Signal.estimated_fee].
    rewrite !(capped_size_proper config _ _ _ (adjusted_product config _ _ _ _ _)).
    apply product_size_mono; try done.
    + split; [apply Hnn|]. by apply calculate_kelly_from_edge_mono.
    + split; [apply Hcp|lra].
    + split; [apply Hfp|lra].
  - intros k1 k2 Hk. rewrite !calculate_position_size_unfold.
    rewrite !(capped_size_proper config _ _ _ (adjusted_product config _ _ _ _ _)).
    apply product_size_mono; try done.
    + split; [apply Hnn|lra].
    + split; [apply Hcp|]. by apply correlation_factor_anti.
    + split; [apply Hfp|lra].
  - intros s1 s2 Hs. rewrite !calculate_position_size_unfold.
    cbn [with_estimated_spread Signal.net_edge Signal.current_price
         Signal.estimated_spread Signal.estimated_fee].
    rewrite !(capped_size_proper config _ _ _ (adjusted_product config _ _ _ _ _)).
    apply product_size_mono; try done.
    + split; [apply Hnn|lra].
    + split; [apply Hcp|lra].
    + split; [apply Hfp|]. apply cost_factor_anti; lra.
  - intros f1 f2 Hf. rewrite !calculate_position_size_unfold.
    cbn [with_estimated_fee Signal.net_edge Signal.current_price
         Signal.estimated_spread Signal.estimated_fee].
    rewrite !(capped_size_proper config _ _ _ (adjusted_product config _ _ _ _ _)).
    apply product_size_mono; try done.
    + split; [apply Hnn|lra].
    + split; [apply Hcp|lra].
    + split; [apply Hfp|]. apply cost_factor_anti; lra.
Qed.

Lemma default_config_validated : PositionSizer.validated PositionSizer.default_config.
Proof.
  unfold PositionSizer.validated, PositionSizer.default_config, Qle; simpl. lia.
Defined.

Example sized_signal_dollars :
  (PositionSizer.calculate_position_size PositionSizer.default_config
     sized_signal 10000 0 == 200)%Q /\
  (PositionSizer.calculate_position_size PositionSizer.default_config
     sized_signal 10000 2 == 120)%Q /\
  (PositionSizer.calculate_position_size PositionSizer.default_config
     (with_net_edge sized_signal 0.001) 10000 0 == 0)%Q.
Proof. repeat split; reflexivity. Qed.

(** C9 at the default configuration with 10 000 of equity: a net edge of
    0.05 sizes at least as large as a net edge of 0.02, and two
    correlated positions size no larger than none. *)
Lemma position_size_monotone_witness :
  (PositionSizer.calculate_position_size PositionSizer.default_config
     (with_net_edge sized_signal 0.02) 10000 0
   <= PositionSizer.calculate_position_size PositionSizer.default_config
        (with_net_edge sized_signal 0.05) 10000 0)%Q /\
  (PositionSizer.calculate_position_size PositionSizer.default_config
     sized_signal 10000 2
   <= PositionSizer.calculate_position_size PositionSizer.default_config
        sized_signal 10000 0)%Q.
Proof.
  destruct (position_size_monotone PositionSizer.default_config sized_signal
              10000 0 default_config_validated) as (Hedge & Hcorr & _).
  split.
  - apply Hedge. unfold Qle; simpl; lia.
  - apply Hcorr. lia.
Defined.

(** ** C1: the drawdown action *)

Lemma determine_drawdown_action_stop (self : RiskManager.t) (drawdown : Q) :
  RiskManager._determine_drawdown_action self drawdown = RiskManager.STOP
  <-> (RiskManager.max_drawdown_stop (RiskManager.config self) <= drawdown)%Q.
Proof.
  unfold RiskManager._determine_drawdown_action.
  destruct (leb_spec (RiskManager.max_drawdown_stop (RiskManager.config self)) drawdown).
  - tauto.
  - destruct (Py.leb _ _); [|destruct (Py.leb _ _)]; split; (discriminate || tauto).
Qed.

(** C1, as the code has it.  The action returned by a call of
    [update_account_value] is a function of the drawdown of the value
    just fed from the running peak, and nothing latches it: the action is
    STOP exactly when that drawdown is at least [max_drawdown_stop], and a
    value at or above the running peak returns NONE whatever was returned
    before.  After the updates 10000, 9500, 8000, 6500 the action is
    STOP, and after a further update to 9000 it is WARNING. *)
Theorem drawdown_action_follows_drawdown :
  (forall (self : RiskManager.t) (now value : Q),
     let metrics := fst (RiskManager.update_account_value self now value) in
     let self' := snd (RiskManager.update_account_value self now value) in
     RiskManager._peak_value self'
       = (if Py.ltb (RiskManager._peak_value self) value then value
          else RiskManager._peak_value self) /\
     RiskManager.current_drawdown metrics
       = (if Py.ltb 0 (RiskManager._peak_value self')
          then ((RiskManager._peak_value self' - value)
                / RiskManager._peak_value self')%Q
          else 0%Q) /\
     RiskManager.drawdown_action metrics
       = RiskManager._determine_drawdown_action self
           (RiskManager.current_drawdown metrics) /\
     (RiskManager.drawdown_action metrics = RiskManager.STOP
      <-> (RiskManager.max_drawdown_stop (RiskManager.config self)
           <= RiskManager.current_drawdown metrics)%Q) /\
     ((RiskManager._peak_value self <= value)%Q ->
      (0 < RiskManager.max_drawdown_warning (RiskManager.config self))%Q ->
      (0 < RiskManager.max_drawdown_reduce (RiskManager.config self))%Q ->
      (0 < RiskManager.max_drawdown_stop (RiskManager.config self))%Q ->
      RiskManager.drawdown_action metrics = RiskManager.NONE)) /\
  RiskManager.session (RiskManager.init RiskManager.default_config)
    (take 4 scenario_updates)
  = [RiskManager.NONE; RiskManager.NONE; RiskManager.REDUCE; RiskManager.STOP] /\
  RiskManager.session (RiskManager.init RiskManager.default_config)
    scenario_updates
  = [RiskManager.NONE; RiskManager.NONE; RiskManager.REDUCE; RiskManager.STOP;
     RiskManager.WARNING].
Proof.
  split; [|split; reflexivity].
  intros self now value metrics self'.
  subst metrics self'. unfold RiskManager.update_account_value.
  cbn [fst snd RiskManager._peak_value RiskManager.current_drawdown
       RiskManager.drawdown_action].
  split; [reflexivity|]. split; [reflexivity|].
  assert (forall s d, RiskManager.config s = RiskManager.config self ->
            RiskManager._determine_drawdown_action s d
            = RiskManager._determine_drawdown_action self d) as Hcfg.
  { intros s d Hs. unfold RiskManager._determine_drawdown_action. by rewrite Hs. }
  rewrite Hcfg by reflexivity.
  split; [reflexivity|]. split; [apply determine_drawdown_action_stop|].
  intros Hpeak Hw Hr Hs.
  set (peak := if Py.ltb (RiskManager._peak_value self) value then value
               else RiskManager._peak_value self).
  assert (peak == value)%Q as Hpv.
  { subst peak. destruct (ltb_spec (RiskManager._peak_value self) value); lra. }
  assert ((if Py.ltb 0 peak then ((peak - value) / peak)%Q else 0%Q) == 0)%Q as Hdd.
  { destruct (Py.ltb 0 peak); [|reflexivity].
    assert (peak - value == 0)%Q as H0 by lra.
    unfold Qdiv. rewrite H0. ring. }
  set (dd := if Py.ltb 0 peak then ((peak - value) / peak)%Q else 0%Q) in *.
  unfold RiskManager._determine_drawdown_action.
  destruct (leb_spec (RiskManager.max_drawdown_stop (RiskManager.config self)) dd);
    [lra|].
  destruct (leb_spec (RiskManager.max_drawdown_reduce (RiskManager.config self)) dd);
    [lra|].
  destruct (leb_spec (RiskManager.max_drawdown_warning (RiskManager.config self)) dd);
    [lra|reflexivity].
Qed.

(** C1 as stated fails: in the scenario the fourth call returns STOP and
    the fifth, at equity 9000, returns the less restrictive WARNING. *)
Lemma stop_not_sticky_counterexample :
  exists a4 a5,
    RiskManager.session (RiskManager.init RiskManager.default_config)
      scenario_updates !! 3%nat = Some a4 /\
    RiskManager.session (RiskManager.init RiskManager.default_config)
      scenario_updates !! 4%nat = Some a5 /\
    a4 = RiskManager.STOP /\
    (RiskManager.level a5 < RiskManager.level a4)%nat.
Proof.
  exists RiskManager.STOP, RiskManager.WARNING.
  split; [reflexivity|]. split; [reflexivity|]. split; [reflexivity|].
  vm_compute. lia.
Qed.

(** ** C10: re-registering an id leaves the old tickers indexed *)

Lemma elem_of_all_tickers (c : Constraint.Constraint) (t : string) :
  t ∈ Constraint.all_tickers c
  <-> t ∈ Constraint.lhs_tickers c ++ Constraint.rhs_tickers c.
Proof.
  unfold Constraint.all_tickers. by rewrite elem_of_elements, elem_of_list_to_set.
Qed.

Lemma index_add_ids cid index x t c' :
  c' ∈ indexed_ids (ConstraintEngine.index_add cid index x) t
  <-> c' ∈ indexed_ids index t \/ (c' = cid /\ t = x).
Proof.
  unfold indexed_ids, ConstraintEngine.index_add.
  destruct (decide (x = t)) as [->|Hne].
  - rewrite lookup_insert_eq. simpl.
    rewrite elem_of_union, elem_of_singleton. tauto.
  - rewrite lookup_insert_ne by done. split; [tauto|]. intros [?|[_ ?]]; [done|].
    congruence.
Qed.

Lemma foldl_index_add_ids cid (l : list string) index t c' :
  c' ∈ indexed_ids (foldl (ConstraintEngine.index_add cid) index l) t
  <-> c' ∈ indexed_ids index t \/ (c' = cid /\ t ∈ l).
Proof.
  revert index. induction l as [|x l IH]; intros index; cbn [foldl].
  - split; [tauto|]. intros [?|[_ H]]; [done|]. by apply not_elem_of_nil in H.
  - rewrite IH, index_add_ids, elem_of_cons. tauto.
Qed.

Lemma index_discard_ids cid index x t c' :
  c' ∈ indexed_ids (ConstraintEngine.index_discard cid index x) t
  <-> c' ∈ indexed_ids index t /\ ~ (c' = cid /\ t = x).
Proof.
  unfold indexed_ids, ConstraintEngine.index_discard.
  destruct (index !! x) as [ids|] eqn:Hx.
  - destruct (decide (x = t)) as [->|Hne].
    + rewrite lookup_insert_eq, Hx. simpl.
      rewrite elem_of_difference, elem_of_singleton. tauto.
    + rewrite lookup_insert_ne by done. split; [|tauto].
      intros H. split; [done|]. intros [_ ?]. congruence.
  - split; [|tauto]. intros H. split; [done|]. intros [_ ->].
    rewrite Hx in H. simpl in H. by apply not_elem_of_empty in H.
Qed.

Lemma foldl_index_discard_ids cid (l : list string) index t c' :
  c' ∈ indexed_ids (foldl (ConstraintEngine.index_discard cid) index l) t
  <-> c' ∈ indexed_ids index t /\ ~ (c' = cid /\ t ∈ l).
Proof.
  revert index. induction l as [|x l IH]; intros index; cbn [foldl].
  - split; [|tauto]. intros H. split; [done|]. intros [_ H'].
    by apply not_elem_of_nil in H'.
  - rewrite IH, index_discard_ids, elem_of_cons. tauto.
Qed.

Lemma index_covers_init : index_covers ConstraintEngine.init.
Proof.
  intros cid c t H.
  change ((∅ : gmap string Constraint.Constraint) !! cid = Some c) in H.
  by apply lookup_empty_Some in H.
Qed.

Lemma index_covers_step (e : ConstraintEngine.t) (o : ConstraintEngine.op) :
  index_covers e -> index_covers (ConstraintEngine.step e o).
Proof.
  intros Hcov cid c t Hc Ht. destruct o as [now_ms ct lhs rhs d ocid|rid];
    cbn [ConstraintEngine.step] in *.
  - unfold ConstraintEngine.register_constraint in *.
    cbn [snd ConstraintEngine._constraints ConstraintEngine._ticker_index] in *.
    rewrite foldl_index_add_ids.
    set (new_id := match ocid with Some x => x | None => _ end) in *.
    destruct (decide (new_id = cid)) as [->|Hne].
    + rewrite lookup_insert_eq in Hc. injection Hc as <-. right. done.
    + rewrite lookup_insert_ne in Hc by done. left. by eapply Hcov.
  - unfold ConstraintEngine.remove_constraint in *.
    destruct (ConstraintEngine._constraints e !! rid) as [old|] eqn:Hold;
      cbn [snd ConstraintEngine._constraints ConstraintEngine._ticker_index] in *.
    + destruct (decide (rid = cid)) as [->|Hne].
      * by rewrite lookup_delete_eq in Hc.
      * rewrite lookup_delete_ne in Hc by done.
        rewrite foldl_index_discard_ids. split; [by eapply Hcov|].
        intros [? _]. congruence.
    + by eapply Hcov.
Qed.

Lemma index_covers_run (ops : list ConstraintEngine.op) :
  index_covers (ConstraintEngine.run ops).
Proof.
  unfold ConstraintEngine.run.
  induction ops as [|o ops IH] using rev_ind.
  - apply index_covers_init.
  - rewrite foldl_app. cbn [foldl]. by apply index_covers_step.
Qed.

(** C10. In an engine reached by registrations and removals, registering
    under an id that is already taken, with tickers that no longer
    include a ticker [t] of the replaced constraint, leaves the id in the
    index entry of [t]: [get_constraints_for_ticker t] then returns the
    new constraint, of which [t] is not a ticker. *)
Theorem register_overwrite_keeps_stale_index (ops : list ConstraintEngine.op)
    (now_ms : Z) (ct : Constraint.ConstraintType) (lhs rhs : list string)
    (description cid : string) (old : Constraint.Constraint) (t : string) :
  let e := ConstraintEngine.run ops in
  ConstraintEngine._constraints e !! cid = Some old ->
  t ∈ Constraint.all_tickers old ->
  t ∉ lhs ++ rhs ->
  let c := fst (ConstraintEngine.register_constraint e now_ms ct lhs rhs
                  description (Some cid)) in
  let e' := snd (ConstraintEngine.register_constraint e now_ms ct lhs rhs
                   description (Some cid)) in
  Constraint.id c = cid /\
  Constraint.lhs_tickers c = lhs /\ Constraint.rhs_tickers c = rhs /\
  ConstraintEngine.get_constraint e' cid = Some c /\
  (t ∉ Constraint.all_tickers c) /\
  cid ∈ indexed_ids (ConstraintEngine._ticker_index e') t /\
  c ∈ ConstraintEngine.get_constraints_for_ticker e' t.
Proof.
  intros e Hold Ht Hnew c e'.
  pose proof (index_covers_run ops cid old t Hold Ht) as Hidx.
  subst c e'. unfold ConstraintEngine.register_constraint.
  cbn [fst snd Constraint.id Constraint.lhs_tickers Constraint.rhs_tickers].
  set (c := {| Constraint.id := cid; Constraint.constraint_type := ct;
               Constraint.lhs_tickers := lhs; Constraint.rhs_tickers := rhs;
               Constraint.description := description |}).
  assert (cid ∈ indexed_ids
            (foldl (ConstraintEngine.index_add cid)
               (ConstraintEngine._ticker_index e) (Constraint.all_tickers c)) t)
    as Hstale.
  { rewrite foldl_index_add_ids. by left. }
  split; [done|]. split; [done|]. split; [done|].
  split; [apply lookup_insert_eq|].
  split; [by rewrite elem_of_all_tickers|].
  split; [exact Hstale|].
  unfold ConstraintEngine.get_constraints_for_ticker.
  cbn [ConstraintEngine._constraints ConstraintEngine._ticker_index].
  apply list_elem_of_omap. exists cid. split.
  - apply elem_of_elements. exact Hstale.
  - apply lookup_insert_eq.
Qed.

(** C10 when "c1" is then re-registered for C ⊂ D: looking up A returns
    the constraint on C and D. *)
Lemma register_overwrite_keeps_stale_index_witness :
  let e' := snd (ConstraintEngine.register_constraint
                   (ConstraintEngine.run stale_ops) 1 Constraint.SUBSET
                   ["C"] ["D"] "C in D" (Some "c1")) in
  {| Constraint.id := "c1"; Constraint.constraint_type := Constraint.SUBSET;
     Constraint.lhs_tickers := ["C"]; Constraint.rhs_tickers := ["D"];
     Constraint.description := "C in D" |}
  ∈ ConstraintEngine.get_constraints_for_ticker e' "A".
Proof.
  refine (proj2 (proj2 (proj2 (proj2 (proj2 (proj2
    (register_overwrite_keeps_stale_index stale_ops 1 Constraint.SUBSET
       ["C"] ["D"] "C in D" "c1"
       {| Constraint.id := "c1"; Constraint.constraint_type := Constraint.SUBSET;
          Constraint.lhs_tickers := ["A"]; Constraint.rhs_tickers := ["B"];
          Constraint.description := "A in B" |} "A" _ _ _))))))).
  - vm_compute. reflexivity.
  - apply elem_of_all_tickers. cbn. apply list_elem_of_here.
  - cbn. intros H. apply elem_of_cons in H as [H|H]; [discriminate H|].
    apply elem_of_cons in H as [H|H]; [discriminate H|].
    by apply not_elem_of_nil in H.
Defined.

(** Before the re-registration, C and D are indexed under no constraint
    and A under the old one only. *)
Example stale_index_lookup :
  let e := ConstraintEngine.run stale_ops in
  let e' := snd (ConstraintEngine.register_constraint e 1 Constraint.SUBSET
                   ["C"] ["D"] "C in D" (Some "c1")) in
  Constraint.lhs_tickers <$> ConstraintEngine.get_constraints_for_ticker e "A"
    = [["A"]] /\
  Constraint.lhs_tickers <$> ConstraintEngine.get_constraints_for_ticker e "C"
    = [] /\
  Constraint.lhs_tickers <$> ConstraintEngine.get_constraints_for_ticker e' "A"
    = [["C"]] /\
  Constraint.lhs_tickers <$> ConstraintEngine.get_constraints_for_ticker e' "C"
    = [["C"]].
Proof. repeat split; vm_compute; reflexivity. Qed.

(** ** C5: determinism of the event-driven backtester *)

Lemma erase_settle_timestamp_pnl tr :
  EventSimulator.Trade.pnl (EventSimulator.erase_settle_timestamp tr)
  = EventSimulator.Trade.pnl tr.
Proof.
  unfold EventSimulator.erase_settle_timestamp.
  by destruct (String.eqb _ _).
Qed.

Lemma erase_settle_timestamp_quantity tr :
  EventSimulator.Trade.quantity (EventSimulator.erase_settle_timestamp tr)
  = EventSimulator.Trade.quantity tr.
Proof.
  unfold EventSimulator.erase_settle_timestamp.
  by destruct (String.eqb _ _).
Qed.

Lemma erased_trades_map {B} (f : EventSimulator.Trade.t -> B)
    (tr1 tr2 : list EventSimulator.Trade.t) :
  (forall tr, f (EventSimulator.erase_settle_timestamp tr) = f tr) ->
  EventSimulator.erase_settle_timestamp <$> tr1
    = EventSimulator.erase_settle_timestamp <$> tr2 ->
  map f tr1 = map f tr2.
Proof.
  intros Hf. revert tr2.
  induction tr1 as [|x tr1 IH]; intros [|y tr2] H; try discriminate H.
  - reflexivity.
  - rewrite !fmap_cons in H. injection H as Hxy Hrest.
    cbn [map]. f_equal; [|by apply IH].
    by rewrite <- (Hf x), Hxy, Hf.
Qed.

Lemma erased_trades_pnl (tr1 tr2 : list EventSimulator.Trade.t) :
  EventSimulator.erase_settle_timestamp <$> tr1
    = EventSimulator.erase_settle_timestamp <$> tr2 ->
  map EventSimulator.Trade.pnl tr1 = map EventSimulator.Trade.pnl tr2.
Proof. apply erased_trades_map, erase_settle_timestamp_pnl. Qed.

Lemma erased_trades_quantity (tr1 tr2 : list EventSimulator.Trade.t) :
  EventSimulator.erase_settle_timestamp <$> tr1
    = EventSimulator.erase_settle_timestamp <$> tr2 ->
  map EventSimulator.Trade.quantity tr1 = map EventSimulator.Trade.quantity tr2.
Proof. apply erased_trades_map, erase_settle_timestamp_quantity. Qed.

Lemma erased_trades_length (tr1 tr2 : list EventSimulator.Trade.t) :
  EventSimulator.erase_settle_timestamp <$> tr1
    = EventSimulator.erase_settle_timestamp <$> tr2 ->
  length tr1 = length tr2.
Proof. intros H. apply (f_equal length) in H. by rewrite !length_fmap in H. Qed.

(** The clock reaches the settlement only through the record stamps: the
    capital paid out is the same, and so are the records once the stamps
    of the settlement records are erased. *)
Lemma settle_loop_clock (clock1 clock2 : nat -> Q) (resolutions : gmap string bool)
    (items : list (string * EventSimulator.Position.t)) :
  forall (k1 k2 : nat) (capital : Q) (tr1 tr2 : list EventSimulator.Trade.t),
    EventSimulator.erase_settle_timestamp <$> tr1
      = EventSimulator.erase_settle_timestamp <$> tr2 ->
    fst (EventSimulator.settle_loop clock1 k1 resolutions items capital tr1)
      = fst (EventSimulator.settle_loop clock2 k2 resolutions items capital tr2) /\
    EventSimulator.erase_settle_timestamp
      <$> snd (EventSimulator.settle_loop clock1 k1 resolutions items capital tr1)
    = EventSimulator.erase_settle_timestamp
      <$> snd (EventSimulator.settle_loop clock2 k2 resolutions items capital tr2).
Proof.
  induction items as [|[ticker pos] rest IH]; intros k1 k2 capital tr1 tr2 Htr.
  - by split.
  - cbn [EventSimulator.settle_loop].
    destruct (EventSimulator.Position.side pos),
      (default false (resolutions !! ticker));
      apply IH; rewrite !fmap_app; by rewrite Htr.
Qed.

(** With the same clock readings the settlement is the same. *)
Lemma settle_loop_ext (clock1 clock2 : nat -> Q) (resolutions : gmap string bool)
    (items : list (string * EventSimulator.Position.t)) :
  (forall k, clock1 k = clock2 k) ->
  forall (k : nat) (capital : Q) (trades : list EventSimulator.Trade.t),
    EventSimulator.settle_loop clock1 k resolutions items capital trades
    = EventSimulator.settle_loop clock2 k resolutions items capital trades.
Proof.
  intros Hclock.
  induction items as [|[ticker pos] rest IH]; intros k capital trades.
  - reflexivity.
  - cbn [EventSimulator.settle_loop]. rewrite Hclock.
    destruct (EventSimulator.Position.side pos),
      (default false (resolutions !! ticker)); apply IH.
Qed.

Section BacktestFacts.
Variable pct_change_dropna : list Q -> list Q.
Variable series_mean series_std : list Q -> Q.
Variable np_sqrt : Q -> Q.
Variable float_pow : Q -> Q -> Q.

Abbreviation metrics_of :=
  (EventSimulator._calculate_metrics pct_change_dropna series_mean series_std
     np_sqrt float_pow).
Abbreviation run_of :=
  (EventSimulator.run pct_change_dropna series_mean series_std np_sqrt float_pow).

(** The metrics read the trade records through their pnl, their
    quantity and their number only. *)
Lemma calculate_metrics_trades (self : EventSimulator.t) (capital : Q)
    (tr1 tr2 : list EventSimulator.Trade.t) :
  EventSimulator.erase_settle_timestamp <$> tr1
    = EventSimulator.erase_settle_timestamp <$> tr2 ->
  metrics_of (EventSimulator.with_ledger self capital [] tr1)
  = metrics_of (EventSimulator.with_ledger self capital [] tr2).
Proof.
  intros H. unfold EventSimulator._calculate_metrics, EventSimulator.with_ledger.
  cbn [EventSimulator.equity_curve EventSimulator.capital
       EventSimulator.initial_capital EventSimulator.trades
       EventSimulator._max_drawdown EventSimulator._peak_equity].
  by rewrite (erased_trades_pnl _ _ H), (erased_trades_quantity _ _ H),
    (erased_trades_length _ _ H).
Qed.

(** C5, as the code has it.  Two runs from fresh backtesters with the
    same capital, fee rate and slippage, over the same market data, with
    the same signal function and resolutions, return the same
    [BacktestMetrics] and end in the same state, trade records included,
    except for the timestamp of the SETTLE records, which is the wall
    clock read at settlement.  The trade records are identical when no
    position is left open at the end of the data, or when the clock reads
    the same in both runs. *)
Theorem run_deterministic_up_to_settle_clock
    (initial_capital fee_rate slippage_bps : Q) (clock1 clock2 : nat -> Q)
    (market_data : list EventSimulator.MarketState.t)
    (signal_func : EventSimulator.MarketState.t -> EventSimulator.Context
                   -> EventSimulator.Signal.t)
    (resolutions : gmap string bool) :
  let self := EventSimulator.init initial_capital fee_rate slippage_bps in
  let r1 := run_of self clock1 market_data signal_func resolutions in
  let r2 := run_of self clock2 market_data signal_func resolutions in
  fst r1 = fst r2 /\
  erase_settle_clock (snd r1) = erase_settle_clock (snd r2) /\
  (EventSimulator.positions (EventSimulator.replay signal_func self market_data) = []
   -> snd r1 = snd r2) /\
  ((forall k, clock1 k = clock2 k) -> snd r1 = snd r2).
Proof.
  intros self r1 r2. subst r1 r2. unfold EventSimulator.run.
  cbn [fst snd].
  set (s := EventSimulator.replay signal_func self market_data).
  unfold EventSimulator._settle_positions.
  destruct (settle_loop_clock clock1 clock2 resolutions
              (EventSimulator.positions s) 0 0 (EventSimulator.capital s)
              (EventSimulator.trades s) (EventSimulator.trades s) eq_refl)
    as [Hcap Htr].
  destruct (EventSimulator.settle_loop clock1 0 resolutions
              (EventSimulator.positions s) (EventSimulator.capital s)
              (EventSimulator.trades s)) as [cap1 tr1] eqn:E1.
  destruct (EventSimulator.settle_loop clock2 0 resolutions
              (EventSimulator.positions s) (EventSimulator.capital s)
              (EventSimulator.trades s)) as [cap2 tr2] eqn:E2.
  cbn [fst snd] in Hcap, Htr. subst cap2.
  split; [by apply calculate_metrics_trades|].
  split.
  { unfold erase_settle_clock, EventSimulator.with_ledger.
    cbn [EventSimulator.trades]. by rewrite Htr. }
  split.
  - intros Hnone. rewrite Hnone in E1, E2. cbn in E1, E2. congruence.
  - intros Hclock.
    rewrite (settle_loop_ext clock1 clock2 resolutions _ Hclock) in E1. congruence.
Qed.

End BacktestFacts.

Example one_tick_run_trades :
  (fun tr => (EventSimulator.Trade.action tr, EventSimulator.Trade.timestamp tr,
              EventSimulator.Trade.quantity tr))
    <$> EventSimulator.trades (snd (one_tick_run 7))
  = [("BUY", 100%Q, 10%Z); ("SETTLE", 7%Q, 10%Z)].
Proof. vm_compute. reflexivity. Qed.

Example one_tick_run_capital :
  (EventSimulator.capital (snd (one_tick_run 7)) == 10000 - 4.4021)%Q.
Proof. vm_compute. reflexivity. Qed.

(** C5 as stated fails: the same run, settled at wall-clock readings 0
    and 1, leaves different trade records. *)
Lemma run_trades_clock_counterexample :
  EventSimulator.trades (snd (one_tick_run 0))
  <> EventSimulator.trades (snd (one_tick_run 1)).
Proof. vm_compute. intros H. discriminate H. Qed.

(** * Further properties of the code *)

(** ** utils/fees.py *)

Lemma calculate_fee_scales (p : Q) (n : Z) :
  (Fees.calculate_fee p n == inject_Z n * Fees.calculate_fee p 1)%Q.
Proof.
  unfold Fees.calculate_fee.
  destruct (negb (Py.ltb 0 p && Py.ltb p 1)); [ring|].
  cbv zeta. change (inject_Z 1) with 1%Q. ring.
Qed.

Lemma ceil_le (x : Q) (n : Z) : (x <= inject_Z n)%Q -> (Py.ceil x <= n)%Z.
Proof.
  intros H. unfold Py.ceil. rewrite <- (Qceiling_Z n).
  by apply Qceiling_resp_le.
Qed.

(** X1. The fee does not change when a price [p] is replaced by [1 - p],
    for any number of contracts. *)
Theorem calculate_fee_symmetric (p : Q) (n : Z) :
  (Fees.calculate_fee (1 - p) n == Fees.calculate_fee p n)%Q.
Proof.
  unfold Fees.calculate_fee.
  destruct (ltb_spec 0 p), (ltb_spec p 1), (ltb_spec 0 (1 - p)),
    (ltb_spec (1 - p) 1); cbn [andb negb]; try lra; try reflexivity.
  assert (0.07 * (1 - p) * (1 - (1 - p)) * 100 == 0.07 * p * (1 - p) * 100)%Q
    as Heq by ring.
  unfold Py.ceil. by rewrite Heq.
Qed.

Lemma fee_rounding (p : Q) :
  (0 < p)%Q -> (p < 1)%Q ->
  (0.07 * p * (1 - p) <= Fees.calculate_fee p 1)%Q /\
  (Fees.calculate_fee p 1 < 0.07 * p * (1 - p) + 0.01)%Q /\
  ((Fees.calculate_fee p 1 == 0.01)%Q \/ (Fees.calculate_fee p 1 == 0.02)%Q).
Proof.
  intros H0 H1. rewrite fee_inside by assumption.
  set (x := (0.07 * p * (1 - p) * 100)%Q).
  assert (0 < x)%Q as Hpos by (subst x; nra).
  assert (x <= 1.75)%Q as Hmax.
  { assert (0 <= (p - (1#2)) * (p - (1#2)))%Q as Hs.
    { destruct (Qlt_le_dec p (1#2)).
      - assert ((p - (1#2)) * (p - (1#2)) == ((1#2) - p) * ((1#2) - p))%Q
          as Hflip by ring.
        rewrite Hflip. apply Qmult_le_0_compat; lra.
      - apply Qmult_le_0_compat; lra. }
    assert ((p - (1#2)) * (p - (1#2)) == p * p - p + (1#4))%Q as He by ring.
    assert (x == 7 * (p - p * p))%Q as Hx by (subst x; ring).
    rewrite Hx. rewrite He in Hs. lra. }
  pose proof (ceil_pos x Hpos) as Hc1.
  assert (Py.ceil x <= 2)%Z as Hc2.
  { apply ceil_le. change (inject_Z 2) with 2%Q. lra. }
  pose proof (Qle_ceiling x) as Hle. pose proof (Qceiling_lt x) as Hlt.
  unfold Py.ceil in *.
  set (c := Qceiling x) in *.
  assert (inject_Z c / 100 == inject_Z c * (1 # 100))%Q as Hd by field.
  assert (inject_Z (c - 1) == inject_Z c - 1)%Q as Hm.
  { rewrite <- (Z.add_opp_r c 1), inject_Z_plus. reflexivity. }
  assert (0.07 * p * (1 - p) == x * (1 # 100))%Q as Hx by (subst x; ring).
  rewrite Hd, Hx. split; [lra|]. split; [lra|].
  assert (c = 1 \/ c = 2)%Z as [-> | ->] by lia; [left|right]; reflexivity.
Qed.

(** X2. For a price strictly between 0 and 1 the fee per contract is
    the exact fee [0.07 * p * (1 - p)] rounded up to the next cent: it is
    never below the exact fee, less than one cent above it, and it is
    either one or two cents. *)
Theorem calculate_fee_rounds_up (p : Q) :
  (0 < p)%Q -> (p < 1)%Q ->
  (0.07 * p * (1 - p) <= Fees.calculate_fee p 1)%Q /\
  (Fees.calculate_fee p 1 < 0.07 * p * (1 - p) + 0.01)%Q /\
  ((Fees.calculate_fee p 1 == 0.01)%Q \/ (Fees.calculate_fee p 1 == 0.02)%Q).
Proof. exact (fee_rounding p). Qed.

Lemma calculate_fee_rounds_up_witness :
  ((Fees.calculate_fee 0.30 1 == 0.01)%Q \/ (Fees.calculate_fee 0.30 1 == 0.02)%Q).
Proof.
  refine (proj2 (proj2 (calculate_fee_rounds_up 0.30 _ _))); reflexivity.
Defined.

Lemma total_fees_cons (p : Q) (ps : list Q) (n : Z) :
  (Fees.calculate_total_fees (p :: ps) n
   == Fees.calculate_fee p n + Fees.calculate_total_fees ps n)%Q.
Proof. unfold Fees.calculate_total_fees. cbn [map]. apply sum_cons. Qed.

(** X3. The total fee of a basket is additive over its legs and linear
    in the number of contracts: it is 0 for no leg, the sum of the two
    totals for two baskets put together, and [n] times the one-contract
    total for [n] contracts per leg. *)
Theorem calculate_total_fees_linear (xs ys : list Q) (n : Z) :
  (Fees.calculate_total_fees [] n == 0)%Q /\
  (Fees.calculate_total_fees (xs ++ ys) n
   == Fees.calculate_total_fees xs n + Fees.calculate_total_fees ys n)%Q /\
  (Fees.calculate_total_fees xs n
   == inject_Z n * Fees.calculate_total_fees xs 1)%Q.
Proof.
  split; [reflexivity|]. split.
  - induction xs as [|x xs IH]; cbn [app].
    + assert (Fees.calculate_total_fees [] n == 0)%Q as H0 by reflexivity.
      rewrite H0. ring.
    + rewrite !total_fees_cons, IH. ring.
  - induction xs as [|x xs IH].
    + assert (forall m, Fees.calculate_total_fees [] m == 0)%Q as H0
        by (intros; reflexivity).
      rewrite !H0. ring.
    + rewrite !total_fees_cons, IH, (calculate_fee_scales x n). ring.
Qed.

(** X4. [fee_as_percentage] is 0 for a price outside (0,1); inside, it
    is the one-contract fee divided by the price, and never less than
    the nominal rate [0.07 * (1 - p)]. *)
Theorem fee_as_percentage_floor (p : Q) :
  (~ (0 < p /\ p < 1)%Q -> Fees.fee_as_percentage p = 0%Q) /\
  ((0 < p)%Q -> (p < 1)%Q ->
   (Fees.fee_as_percentage p * p == Fees.calculate_fee p 1)%Q /\
   (0.07 * (1 - p) <= Fees.fee_as_percentage p)%Q).
Proof.
  unfold Fees.fee_as_percentage. split.
  - intros H. destruct (ltb_spec 0 p), (ltb_spec p 1); cbn [andb negb];
      try reflexivity. tauto.
  - intros H0 H1.
    destruct (ltb_spec 0 p); [|lra]. destruct (ltb_spec p 1); [|lra].
    cbn [andb negb].
    destruct (fee_rounding p H0 H1) as (Hlo & _ & _).
    set (f := Fees.calculate_fee p 1) in *. clearbody f.
    assert (f / p * p == f)%Q as Hmul by (field; lra).
    split; [exact Hmul|].
    apply Qmult_le_r with (z := p); [lra|]. rewrite Hmul. lra.
Qed.

(** ** models/constraint.py: bounds as intervals *)

(** X5. [violation] is never negative, and it is 0 exactly for the
    prices the bound contains. *)
Theorem violation_zero_iff_contains (b : Constraint.ProbabilityBound) (p : Q) :
  (0 <= Constraint.violation b p)%Q /\
  ((Constraint.violation b p == 0)%Q <-> Constraint.contains b p = true) /\
  ((0 < Constraint.violation b p)%Q <-> Constraint.contains b p = false).
Proof.
  unfold Constraint.violation, Constraint.contains.
  destruct (ltb_spec p (Constraint.lower b)),
    (ltb_spec (Constraint.upper b) p),
    (leb_spec (Constraint.lower b) p),
    (leb_spec p (Constraint.upper b)); cbn [andb]; try lra;
    (split; [lra|]); split; split; intros; try done; lra.
Qed.

(** X6. Merging two bounds for one ticker intersects them: the merged
    bound contains a price exactly when both bounds do. *)
Theorem merge_contains_both (a b m : Constraint.ProbabilityBound) (p : Q) :
  Constraint.merge a b = Py.Ok m ->
  Constraint.contains m p
  = Constraint.contains a p && Constraint.contains b p.
Proof.
  unfold Constraint.merge.
  destruct (negb _); [discriminate|]. intros [= <-].
  unfold Constraint.contains, Py.max, Py.min.
  cbn [Constraint.lower Constraint.upper].
  qcmp; cbn [andb]; try reflexivity; lra.
Qed.

Lemma merge_contains_both_witness :
  Constraint.contains
    {| Constraint.ticker := "T"; Constraint.lower := 0.4;
       Constraint.upper := 0.7; Constraint.source_constraint_id := "c1+c2";
       Constraint.confidence := 1 |} 0.5
  = Constraint.contains wide_bound 0.5 && Constraint.contains narrow_bound 0.5.
Proof.
  exact (merge_contains_both wide_bound narrow_bound _ 0.5 eq_refl).
Defined.

(** ** risk/position_sizer.py *)

Lemma adjusted_nonneg (config : PositionSizer.SizingConfig) (e p : Q) (k : Z)
    (spread fee : Q) :
  PositionSizer.validated config ->
  (0 <= PositionSizer.calculate_kelly_from_edge e p
        * PositionSizer.kelly_fraction config
        * correlation_factor config k * cost_factor spread fee)%Q.
Proof.
  intros ((Hkf & _) & _).
  pose proof (calculate_kelly_from_edge_nonneg e p).
  pose proof (correlation_factor_pos config k).
  pose proof (cost_factor_pos spread fee).
  repeat apply Qmult_le_0_compat; lra.
Qed.

Lemma capped_size_range (config : PositionSizer.SizingConfig) (a balance : Q) :
  PositionSizer.validated config -> (0 <= a)%Q ->
  (0 <= capped_size config a balance)%Q /\
  ((capped_size config a balance == 0)%Q \/
   (0 < balance /\ PositionSizer.min_position_size config
                   <= capped_size config a balance
    /\ capped_size config a balance
       <= balance * PositionSizer.max_position_per_market config)%Q).
Proof.
  intros (_ & Hmp & _ & Hmin & _) Ha. unfold capped_size.
  set (mp := PositionSizer.max_position_per_market config) in *.
  set (ms := PositionSizer.min_position_size config) in *.
  destruct (Qlt_le_dec 0 balance) as [Hb|Hb].
  - assert (0 <= a * balance)%Q by nra. assert (0 <= balance * mp)%Q by nra.
    unfold Py.min. qcmp; (split; [lra|]); try (left; lra); right; lra.
  - assert (a * balance <= 0)%Q by nra. assert (balance * mp <= 0)%Q by nra.
    unfold Py.min. qcmp; (split; [lra|]); left; lra.
Qed.

Lemma position_size_bounds (config : PositionSizer.SizingConfig)
    (signal : Signal.DirectionalSignal) (balance : Q) (k : Z) :
  PositionSizer.validated config ->
  let size := PositionSizer.calculate_position_size config signal balance k in
  (0 <= size)%Q /\
  ((size == 0)%Q \/
   (0 < balance /\ PositionSizer.min_position_size config <= size
    /\ size <= balance * PositionSizer.max_position_per_market config)%Q).
Proof.
  intros Hc size. subst size. rewrite calculate_position_size_unfold.
  apply capped_size_range; [exact Hc|].
  rewrite adjusted_product. by apply adjusted_nonneg.
Qed.

(** X7. Under a validated configuration the dollar size is never
    negative, and it is either 0 or at least [min_position_size] and at
    most [max_position_per_market] of a positive balance. *)
Theorem position_size_range (config : PositionSizer.SizingConfig)
    (signal : Signal.DirectionalSignal) (balance : Q) (k : Z) :
  PositionSizer.validated config ->
  let size := PositionSizer.calculate_position_size config signal balance k in
  (0 <= size)%Q /\
  ((size == 0)%Q \/
   (0 < balance /\ PositionSizer.min_position_size config <= size
    /\ size <= balance * PositionSizer.max_position_per_market config)%Q).
Proof. exact (position_size_bounds config signal balance k). Qed.

Lemma position_size_range_witness :
  (0 <= PositionSizer.calculate_position_size PositionSizer.default_config
          sized_signal 10000 0)%Q.
Proof.
  exact (proj1 (position_size_range PositionSizer.default_config sized_signal
                  10000 0 default_config_validated)).
Defined.

Lemma capped_size_zero (config : PositionSizer.SizingConfig) (a balance : Q) :
  PositionSizer.validated config ->
  (a * balance <= 0)%Q -> (0 <= a)%Q ->
  (capped_size config a balance == 0)%Q.
Proof.
  intros (_ & Hmp & _ & Hmin & _) Hab Ha. unfold capped_size.
  set (mp := PositionSizer.max_position_per_market config) in *.
  set (ms := PositionSizer.min_position_size config) in *.
  assert (0 <= balance -> 0 <= balance * mp)%Q as Hpos by (intros; nra).
  assert (balance <= 0 -> balance * mp <= 0)%Q as Hneg by (intros; nra).
  destruct (Qlt_le_dec balance 0); unfold Py.min; qcmp; lra.
Qed.

(** X8. Under a validated configuration the dollar size is 0 when the
    net edge is not positive, when the current price is not strictly
    between 0 and 1, or when the account balance is not positive. *)
Theorem position_size_zero (config : PositionSizer.SizingConfig)
    (signal : Signal.DirectionalSignal) (balance : Q) (k : Z) :
  PositionSizer.validated config ->
  (Signal.net_edge signal <= 0 \/ Signal.current_price signal <= 0
   \/ 1 <= Signal.current_price signal \/ balance <= 0)%Q ->
  (PositionSizer.calculate_position_size config signal balance k == 0)%Q.
Proof.
  intros Hc Hcase. rewrite calculate_position_size_unfold.
  rewrite (capped_size_proper config _ _ _ (adjusted_product config _ _ _ _ _)).
  pose proof (adjusted_nonneg config (Signal.net_edge signal)
                (Signal.current_price signal) k
                (Signal.estimated_spread signal) (Signal.estimated_fee signal) Hc)
    as Hnn.
  apply capped_size_zero; [exact Hc| |exact Hnn].
  assert (PositionSizer.calculate_kelly_from_edge (Signal.net_edge signal)
            (Signal.current_price signal) = 0%Q
          \/ balance <= 0)%Q as [Hk|Hb].
  { unfold PositionSizer.calculate_kelly_from_edge.
    destruct (leb_spec (Signal.net_edge signal) 0),
      (leb_spec (Signal.current_price signal) 0),
      (leb_spec 1 (Signal.current_price signal)); cbn [orb]; auto.
    right. lra. }
  - rewrite Hk. lra.
  - set (a := (_ * _ * _ * _)%Q) in *. nra.
Qed.

Lemma position_size_zero_witness :
  (PositionSizer.calculate_position_size PositionSizer.default_config
     (with_net_edge sized_signal 0) 10000 0 == 0)%Q.
Proof.
  refine (position_size_zero PositionSizer.default_config
            (with_net_edge sized_signal 0) 10000 0 default_config_validated _).
  left. unfold Qle; simpl; lia.
Defined.

Lemma contracts_affordable (position_size price : Q) :
  let n := PositionSizer.calculate_contracts position_size price in
  ((price <= 0 \/ position_size <= 0)%Q -> n = 0%Z) /\
  ((0 < price)%Q -> (0 < position_size)%Q ->
   (0 <= n)%Z /\
   (inject_Z n * price <= position_size)%Q /\
   (position_size < (inject_Z n + 1) * price)%Q).
Proof.
  intros n. subst n. unfold PositionSizer.calculate_contracts. split.
  - intros [H|H]; destruct (leb_spec price 0), (leb_spec position_size 0);
      cbn [orb]; try reflexivity; lra.
  - intros Hp Hs.
    destruct (leb_spec price 0); [lra|].
    destruct (leb_spec position_size 0); [lra|]. cbn [orb].
    set (x := (position_size / price)%Q).
    assert (x * price == position_size)%Q as Hx by (subst x; field; lra).
    assert (0 < x)%Q as Hx0.
    { subst x. unfold Qdiv. apply Qmult_lt_0_compat; [lra|].
      by apply Qinv_lt_0_compat. }
    rewrite int_nonneg_floor by lra. clearbody x.
    pose proof (Qfloor_le x) as Hfl. pose proof (Qlt_floor x) as Hlt.
    assert (inject_Z (Qfloor x + 1) == inject_Z (Qfloor x) + 1)%Q as Hplus
      by (rewrite inject_Z_plus; reflexivity).
    rewrite Hplus in Hlt.
    split; [|split].
    + assert (0 <= Qfloor x)%Z; [|lia].
      rewrite <- (Qfloor_Z 0). apply Qfloor_resp_le.
      change (inject_Z 0) with 0%Q. lra.
    + rewrite <- Hx. apply Qmult_le_compat_r; lra.
    + rewrite <- Hx. apply Qmult_lt_compat_r; lra.
Qed.

(** X9. [calculate_contracts] returns 0 for a non-positive price or
    size; otherwise it returns the largest whole number of contracts the
    size pays for: [n * price <= size < (n + 1) * price]. *)
Theorem calculate_contracts_floor (position_size price : Q) :
  let n := PositionSizer.calculate_contracts position_size price in
  ((price <= 0 \/ position_size <= 0)%Q -> n = 0%Z) /\
  ((0 < price)%Q -> (0 < position_size)%Q ->
   (0 <= n)%Z /\
   (inject_Z n * price <= position_size)%Q /\
   (position_size < (inject_Z n + 1) * price)%Q).
Proof. exact (contracts_affordable position_size price). Qed.

(** X10. Under a validated configuration, [size_signal] returns a
    non-negative contract count whose cost at the execution price (the
    current price for buy-yes, one minus it for buy-no) does not exceed
    the dollar size it returns. *)
Theorem size_signal_within_dollars (config : PositionSizer.SizingConfig)
    (signal : Signal.DirectionalSignal) (balance : Q) (k : Z) :
  PositionSizer.validated config ->
  let dollar_size := fst (PositionSizer.size_signal config signal balance k) in
  let num_contracts := snd (PositionSizer.size_signal config signal balance k) in
  let price := match Signal.direction signal with
               | Signal.BUY_NO => (1 - Signal.current_price signal)%Q
               | Signal.BUY_YES => Signal.current_price signal
               end in
  dollar_size = PositionSizer.calculate_position_size config signal balance k /\
  (0 <= num_contracts)%Z /\
  (inject_Z num_contracts * price <= dollar_size)%Q.
Proof.
  intros Hc dollar_size num_contracts price.
  subst dollar_size num_contracts. unfold PositionSizer.size_signal.
  cbn [fst snd]. fold price.
  set (d := PositionSizer.calculate_position_size config signal balance k).
  pose proof (proj1 (position_size_bounds config signal balance k Hc)) as Hd.
  fold d in Hd. cbv zeta in Hd.
  destruct (contracts_affordable d price) as [Hzero Hfloor].
  split; [reflexivity|].
  destruct (Qlt_le_dec 0 price) as [Hp|Hp]; [destruct (Qlt_le_dec 0 d) as [Hd'|Hd']|].
  - destruct (Hfloor Hp Hd') as (? & ? & _). by split.
  - rewrite Hzero by (right; lra). split; [lia|].
    change (inject_Z 0) with 0%Q. clearbody d price. lra.
  - rewrite Hzero by (left; lra). split; [lia|].
    change (inject_Z 0) with 0%Q. clearbody d price. lra.
Qed.

Lemma size_signal_within_dollars_witness :
  (inject_Z (snd (PositionSizer.size_signal PositionSizer.default_config
                    sized_signal 10000 0))
   * Signal.current_price sized_signal
   <= fst (PositionSizer.size_signal PositionSizer.default_config
             sized_signal 10000 0))%Q.
Proof.
  exact (proj2 (proj2 (size_signal_within_dollars PositionSizer.default_config
                         sized_signal 10000 0 default_config_validated))).
Defined.

Example sized_signal_contracts :
  snd (PositionSizer.size_signal PositionSizer.default_config sized_signal
         10000 0) = 500%Z.
Proof. vm_compute. reflexivity. Qed.

(** X11. [validate_cluster_limits] never lets a non-negative size push
    the cluster over its allocation: the result is 0 or fits under the
    cap, it lies between 0 and the proposed size, and it is the proposed
    size itself when that fits under the cap. *)
Theorem validate_cluster_limits_cap (config : PositionSizer.SizingConfig)
    (new_size cluster_exposure balance : Q) :
  let cap := (balance * PositionSizer.max_cluster_allocation config)%Q in
  let size := PositionSizer.validate_cluster_limits config new_size
                cluster_exposure balance in
  (size = 0%Q \/ cluster_exposure + size <= cap)%Q /\
  ((cap <= cluster_exposure)%Q -> size = 0%Q) /\
  ((0 <= new_size)%Q -> (0 <= size <= new_size)%Q) /\
  ((0 <= new_size)%Q -> (cluster_exposure + new_size <= cap)%Q ->
   (size == new_size)%Q).
Proof.
  intros cap size. subst size. unfold PositionSizer.validate_cluster_limits.
  fold cap. clearbody cap.
  destruct (leb_spec (cap - cluster_exposure) 0) as [Ha|Ha].
  - split; [by left|]. split; [done|]. split; intros; lra.
  - unfold Py.min. split; [right; qcmp; lra|].
    split; [intros; lra|]. split; intros; qcmp; lra.
Qed.

(** ** risk/risk_manager.py: the running peak and drawdown *)

(** X12. Whatever the manager's state, one call of
    [update_account_value] leaves a peak that is at least the old peak
    and at least the value fed, reports a drawdown that is never
    negative (and at most 1 for a non-negative value), keeps a maximum
    drawdown that is at least the old maximum and the reported drawdown,
    and appends exactly the fed value to the history. *)
Theorem update_account_value_invariants (self : RiskManager.t) (now value : Q) :
  let metrics := fst (RiskManager.update_account_value self now value) in
  let self' := snd (RiskManager.update_account_value self now value) in
  (RiskManager._peak_value self <= RiskManager._peak_value self')%Q /\
  (value <= RiskManager._peak_value self')%Q /\
  RiskManager.peak_value metrics = RiskManager._peak_value self' /\
  (0 <= RiskManager.current_drawdown metrics)%Q /\
  ((0 <= value)%Q -> (RiskManager.current_drawdown metrics <= 1)%Q) /\
  (RiskManager._max_drawdown self <= RiskManager._max_drawdown self')%Q /\
  (RiskManager.current_drawdown metrics <= RiskManager._max_drawdown self')%Q /\
  RiskManager.max_drawdown metrics = RiskManager._max_drawdown self' /\
  RiskManager._value_history self'
    = RiskManager._value_history self ++ [(now, value)] /\
  RiskManager.config self' = RiskManager.config self.
Proof.
  intros metrics self'. subst metrics self'.
  unfold RiskManager.update_account_value.
  cbn [fst snd RiskManager._peak_value RiskManager.current_drawdown
       RiskManager.peak_value RiskManager._max_drawdown
       RiskManager.max_drawdown RiskManager._value_history RiskManager.config].
  set (peak := if Py.ltb (RiskManager._peak_value self) value then value
               else RiskManager._peak_value self).
  assert (RiskManager._peak_value self <= peak /\ value <= peak)%Q as [Hp1 Hp2].
  { subst peak. destruct (ltb_spec (RiskManager._peak_value self) value); lra. }
  set (dd := if Py.ltb 0 peak then ((peak - value) / peak)%Q else 0%Q).
  assert (0 <= dd /\ (0 <= value -> dd <= 1))%Q as [Hd0 Hd1].
  { subst dd. destruct (ltb_spec 0 peak) as [Hpos|Hpos]; [|split; intros; lra].
    split.
    - apply Qle_shift_div_l; [exact Hpos|]. lra.
    - intros Hv. apply Qle_shift_div_r; [exact Hpos|]. lra. }
  clearbody dd peak.
  repeat split; try done;
    destruct (ltb_spec (RiskManager._max_drawdown self) dd); lra.
Qed.

(** ** engine/constraint_engine.py: registering, looking up, removing *)

Lemma elem_of_get_constraints_for_ticker (e : ConstraintEngine.t) (t : string)
    (c : Constraint.Constraint) :
  c ∈ ConstraintEngine.get_constraints_for_ticker e t
  <-> exists cid, cid ∈ indexed_ids (ConstraintEngine._ticker_index e) t
                  /\ ConstraintEngine._constraints e !! cid = Some c.
Proof.
  unfold ConstraintEngine.get_constraints_for_ticker. rewrite list_elem_of_omap.
  split; intros (cid & H1 & H2); exists cid; split; try done;
    by apply elem_of_elements.
Qed.

(** X13. After [register_constraint], on any engine and with a given or
    a generated id, the constraint is found under its id and is returned
    by the lookup of each of its tickers; the constraints stored under
    other ids are as before. *)
Theorem register_then_lookup (e : ConstraintEngine.t) (now_ms : Z)
    (ct : Constraint.ConstraintType) (lhs rhs : list string)
    (description : string) (constraint_id : option string) :
  let c := fst (ConstraintEngine.register_constraint e now_ms ct lhs rhs
                  description constraint_id) in
  let e' := snd (ConstraintEngine.register_constraint e now_ms ct lhs rhs
                   description constraint_id) in
  Constraint.lhs_tickers c = lhs /\ Constraint.rhs_tickers c = rhs /\
  Constraint.constraint_type c = ct /\
  (forall cid, constraint_id = Some cid -> Constraint.id c = cid) /\
  ConstraintEngine.get_constraint e' (Constraint.id c) = Some c /\
  (forall t, t ∈ lhs ++ rhs ->
     c ∈ ConstraintEngine.get_constraints_for_ticker e' t) /\
  (forall cid, cid <> Constraint.id c ->
     ConstraintEngine.get_constraint e' cid = ConstraintEngine.get_constraint e cid).
Proof.
  intros c e'. subst c e'. unfold ConstraintEngine.register_constraint.
  set (cid := match constraint_id with Some x => x | None => _ end).
  cbn [fst snd Constraint.id Constraint.lhs_tickers Constraint.rhs_tickers
       Constraint.constraint_type].
  set (c := {| Constraint.id := cid; Constraint.constraint_type := ct;
               Constraint.lhs_tickers := lhs; Constraint.rhs_tickers := rhs;
               Constraint.description := description |}).
  split; [done|]. split; [done|]. split; [done|].
  split; [by intros ? ->|].
  unfold ConstraintEngine.get_constraint. cbn [ConstraintEngine._constraints].
  split; [apply lookup_insert_eq|]. split.
  - intros t Ht. apply elem_of_get_constraints_for_ticker. exists cid.
    cbn [ConstraintEngine._constraints ConstraintEngine._ticker_index].
    split; [|apply lookup_insert_eq].
    apply foldl_index_add_ids. right. split; [done|].
    by apply elem_of_all_tickers.
  - intros cid' Hne. by apply lookup_insert_ne.
Qed.

Lemma ids_match_step (e : ConstraintEngine.t) (o : ConstraintEngine.op) :
  ids_match e -> ids_match (ConstraintEngine.step e o).
Proof.
  intros Hm cid c Hc. destruct o as [now_ms ct lhs rhs d ocid|rid];
    cbn [ConstraintEngine.step] in Hc.
  - unfold ConstraintEngine.register_constraint in Hc.
    cbn [snd ConstraintEngine._constraints] in Hc.
    set (new_id := match ocid with Some x => x | None => _ end) in *.
    destruct (decide (new_id = cid)) as [->|Hne].
    + rewrite lookup_insert_eq in Hc. by injection Hc as <-.
    + rewrite lookup_insert_ne in Hc by done. by apply Hm.
  - unfold ConstraintEngine.remove_constraint in Hc.
    destruct (ConstraintEngine._constraints e !! rid) eqn:Hr;
      cbn [snd ConstraintEngine._constraints] in Hc; [|by apply Hm].
    destruct (decide (rid = cid)) as [->|Hne].
    + by rewrite lookup_delete_eq in Hc.
    + rewrite lookup_delete_ne in Hc by done. by apply Hm.
Qed.

Lemma ids_match_run (ops : list ConstraintEngine.op) :
  ids_match (ConstraintEngine.run ops).
Proof.
  unfold ConstraintEngine.run.
  induction ops as [|o ops IH] using rev_ind.
  - intros cid c H.
    change ((∅ : gmap string Constraint.Constraint) !! cid = Some c) in H.
    by apply lookup_empty_Some in H.
  - rewrite foldl_app. cbn [foldl]. by apply ids_match_step.
Qed.

(** X14. In an engine reached by registrations and removals, the lookup
    of a ticker returns only constraints that are registered under their
    own id, and it returns every registered constraint that has the
    ticker on its left or right side. *)
Theorem lookup_sound_and_complete (ops : list ConstraintEngine.op) (t : string)
    (c : Constraint.Constraint) :
  let e := ConstraintEngine.run ops in
  (c ∈ ConstraintEngine.get_constraints_for_ticker e t ->
   ConstraintEngine.get_constraint e (Constraint.id c) = Some c) /\
  (ConstraintEngine.get_constraint e (Constraint.id c) = Some c ->
   t ∈ Constraint.lhs_tickers c ++ Constraint.rhs_tickers c ->
   c ∈ ConstraintEngine.get_constraints_for_ticker e t).
Proof.
  intros e. split.
  - intros Hin. apply elem_of_get_constraints_for_ticker in Hin as (cid & _ & Hc).
    unfold ConstraintEngine.get_constraint.
    by rewrite (ids_match_run ops cid c Hc).
  - intros Hc Ht. apply elem_of_get_constraints_for_ticker.
    exists (Constraint.id c). split; [|exact Hc].
    apply (index_covers_run ops _ c t Hc). by apply elem_of_all_tickers.
Qed.

(** X15. [remove_constraint] with an unknown id returns false and
    leaves the engine as it is.  With a registered id, in an engine
    reached by registrations and removals, it returns true, the id is no
    longer found, no ticker lookup returns a constraint with that id, and
    the lookups return the constraints with other ids exactly as
    before. *)
Theorem remove_constraint_scrubs (ops : list ConstraintEngine.op) (cid : string) :
  let e := ConstraintEngine.run ops in
  let e' := snd (ConstraintEngine.remove_constraint e cid) in
  (ConstraintEngine.get_constraint e cid = None ->
   ConstraintEngine.remove_constraint e cid = (false, e)) /\
  (is_Some (ConstraintEngine.get_constraint e cid) ->
   fst (ConstraintEngine.remove_constraint e cid) = true /\
   ConstraintEngine.get_constraint e' cid = None /\
   (forall t c, c ∈ ConstraintEngine.get_constraints_for_ticker e' t <->
                c ∈ ConstraintEngine.get_constraints_for_ticker e t
                /\ Constraint.id c <> cid)).
Proof.
  intros e e'. subst e'. unfold ConstraintEngine.get_constraint,
    ConstraintEngine.remove_constraint.
  split.
  - by intros ->.
  - intros [old Hold]. rewrite Hold. cbn [fst snd]. split; [done|].
    cbn [ConstraintEngine._constraints]. split; [apply lookup_delete_eq|].
    intros t c. rewrite !elem_of_get_constraints_for_ticker.
    cbn [ConstraintEngine._constraints ConstraintEngine._ticker_index].
    split.
    + intros (k & Hk & Hc). destruct (decide (cid = k)) as [->|Hne].
      { by rewrite lookup_delete_eq in Hc. }
      rewrite lookup_delete_ne in Hc by done.
      apply foldl_index_discard_ids in Hk as [Hk _].
      split; [by exists k|].
      rewrite (ids_match_run ops k c Hc). congruence.
    + intros [(k & Hk & Hc) Hid].
      pose proof (ids_match_run ops k c Hc) as Hkc.
      exists k. split.
      * apply foldl_index_discard_ids. split; [done|]. intros [-> _]. congruence.
      * rewrite lookup_delete_ne; [done|]. congruence.
Qed.

(** X16. Two registrations that leave the id to be generated, with the
    same constraint type and the same millisecond reading of the clock,
    get the same id: the second replaces the first, which is no longer
    registered, and the registry holds as many constraints as after the
    first registration. *)
Theorem generated_id_collision (ops : list ConstraintEngine.op) (now_ms : Z)
    (ct : Constraint.ConstraintType) (lhs1 rhs1 lhs2 rhs2 : list string)
    (d1 d2 : string) :
  let e := ConstraintEngine.run ops in
  let c1 := fst (ConstraintEngine.register_constraint e now_ms ct lhs1 rhs1 d1 None) in
  let e1 := snd (ConstraintEngine.register_constraint e now_ms ct lhs1 rhs1 d1 None) in
  let c2 := fst (ConstraintEngine.register_constraint e1 now_ms ct lhs2 rhs2 d2 None) in
  let e2 := snd (ConstraintEngine.register_constraint e1 now_ms ct lhs2 rhs2 d2 None) in
  Constraint.id c2 = Constraint.id c1 /\
  ConstraintEngine.get_constraint e2 (Constraint.id c1) = Some c2 /\
  size (ConstraintEngine._constraints e2) = size (ConstraintEngine._constraints e1) /\
  (c1 <> c2 -> forall cid, ConstraintEngine.get_constraint e2 cid <> Some c1).
Proof.
  intros e c1 e1 c2 e2. subst c1 e1 c2 e2.
  unfold ConstraintEngine.register_constraint, ConstraintEngine.get_constraint.
  cbn [fst snd Constraint.id ConstraintEngine._constraints].
  set (cid := Constraint.value ct +:+ "_" +:+ pretty now_ms).
  split; [done|]. split; [apply lookup_insert_eq|]. split.
  - rewrite insert_insert_eq.
    destruct (ConstraintEngine._constraints e !! cid) eqn:Hc.
    + by rewrite !map_size_insert_Some.
    + by rewrite !map_size_insert_None.
  - intros Hne k Hk. rewrite insert_insert_eq in Hk.
    destruct (decide (cid = k)) as [<-|Hk'].
    + rewrite lookup_insert_eq in Hk. congruence.
    + rewrite lookup_insert_ne in Hk by done.
      apply (ids_match_run ops) in Hk. cbn [Constraint.id] in Hk. congruence.
Qed.

(** ** profit_taker.py: what an evaluation does to a tracker *)

Lemma tracker_advances_refl tr : tracker_advances tr tr.
Proof. repeat split; try done. lra. Qed.

Lemma tracker_advances_trans a b c :
  tracker_advances a b -> tracker_advances b c -> tracker_advances a c.
Proof.
  intros (? & ? & ? & ? & ? & ? & ? & ?) (? & ? & ? & ? & ? & ? & ? & ?).
  repeat split; try congruence; [auto|lra|by etrans].
Qed.

Lemma update_peak_advances tr price tr' :
  ProfitTaker.PositionTracker.update_peak tr price = Py.Ok tr' ->
  tracker_advances tr tr'.
Proof.
  unfold ProfitTaker.PositionTracker.update_peak.
  destruct (ProfitTaker.PositionTracker.calculate_profit_pct tr price) as [pct|];
    [|discriminate].
  cbn [Py.bind]. intros [= <-].
  destruct (ltb_spec (ProfitTaker.PositionTracker.peak_profit_pct tr) pct).
  - repeat split; try done. cbn. lra.
  - apply tracker_advances_refl.
Qed.

Lemma set_trailing_stop_active_advances tr :
  tracker_advances tr (ProfitTaker.PositionTracker.set_trailing_stop_active tr).
Proof. repeat split; try done. cbn. lra. Qed.

Lemma append_tier_advances tr i :
  tracker_advances tr (ProfitTaker.PositionTracker.append_tier tr i).
Proof. repeat split; try done; cbn; [lra|by apply prefix_app_r]. Qed.

(** The tier loop either fires nothing and leaves the tracker, or fires
    the first open tier whose target is reached and whose close quantity
    is positive, and records it. *)
Lemma tier_loop_fires (targets : list (Q * Q)) :
  forall (i : nat) (tr : ProfitTaker.PositionTracker.t)
         (pos : PositionModel.Position) (pct : Q),
    match ProfitTaker.tier_loop i targets tr pos pct with
    | (None, tr') => tr' = tr
    | (Some a, tr') =>
        exists j target fraction,
          targets !! j = Some (target, fraction) /\
          ((i + j)%nat ∉ ProfitTaker.PositionTracker.tiers_closed tr) /\
          tr' = ProfitTaker.PositionTracker.append_tier tr (i + j) /\
          (target <= pct)%Q /\
          (0 < ProfitTaker.ProfitTakeAction.quantity a)%Z /\
          a = {| ProfitTaker.ProfitTakeAction.ticker := PositionModel.ticker pos;
                 ProfitTaker.ProfitTakeAction.action := "close_partial";
                 ProfitTaker.ProfitTakeAction.quantity :=
                   Py.int (inject_Z (PositionModel.quantity pos) * fraction);
                 ProfitTaker.ProfitTakeAction.reason :=
                   ProfitTaker.TierTargetHit (S (i + j)) target;
                 ProfitTaker.ProfitTakeAction.current_profit_pct := pct |}
    end.
Proof.
  induction targets as [|[target fraction] rest IH]; intros i tr pos pct;
    cbn [ProfitTaker.tier_loop]; [reflexivity|].
  assert (match ProfitTaker.tier_loop (S i) rest tr pos pct with
          | (None, tr') => tr' = tr
          | (Some a, tr') =>
              exists j target0 fraction0,
                ((target, fraction) :: rest) !! j = Some (target0, fraction0) /\
                ((i + j)%nat ∉ ProfitTaker.PositionTracker.tiers_closed tr) /\
                tr' = ProfitTaker.PositionTracker.append_tier tr (i + j) /\
                (target0 <= pct)%Q /\
                (0 < ProfitTaker.ProfitTakeAction.quantity a)%Z /\
                a = {| ProfitTaker.ProfitTakeAction.ticker := PositionModel.ticker pos;
                       ProfitTaker.ProfitTakeAction.action := "close_partial";
                       ProfitTaker.ProfitTakeAction.quantity :=
                         Py.int (inject_Z (PositionModel.quantity pos) * fraction0);
                       ProfitTaker.ProfitTakeAction.reason :=
                         ProfitTaker.TierTargetHit (S (i + j)) target0;
                       ProfitTaker.ProfitTakeAction.current_profit_pct := pct |}
          end) as Hrest.
  { specialize (IH (S i) tr pos pct).
    destruct (ProfitTaker.tier_loop (S i) rest tr pos pct) as [[a|] tr'];
      [|exact IH].
    destruct IH as (j & t0 & f0 & Hj & Hnin & Htr & Hle & Hq & Ha).
    exists (S j), t0, f0. replace (i + S j)%nat with (S i + j)%nat by lia.
    by repeat split. }
  destruct (bool_decide (i ∈ ProfitTaker.PositionTracker.tiers_closed tr)) eqn:Hin;
    [exact Hrest|].
  apply bool_decide_eq_false in Hin.
  destruct (leb_spec target pct) as [Hle|Hle]; [|exact Hrest].
  destruct (Z.ltb_spec 0 (Py.int (inject_Z (PositionModel.quantity pos) * fraction)))
    as [Hq|Hq]; [|exact Hrest].
  exists 0%nat, target, fraction. rewrite Nat.add_0_r. by repeat split.
Qed.

(** X17. Whatever an evaluation returns or raises, the tracker of the
    evaluated position is still there afterwards with the same entry
    data; a trailing stop that was armed is still armed, the peak profit
    has not dropped, the closed tiers have only been extended, and the
    trackers of other tickers and the configuration are untouched.  An
    untracked position is not evaluated at all. *)
Theorem evaluate_position_tracker_advances (self : ProfitTaker.t) (now : Q)
    (position : PositionModel.Position) (current_price : Q) :
  let key := PositionModel.ticker position in
  let self' := snd (ProfitTaker._evaluate_position self now position current_price) in
  ProfitTaker.config self' = ProfitTaker.config self /\
  (forall k, k <> key ->
     ProfitTaker._tracked_positions self' !! k
     = ProfitTaker._tracked_positions self !! k) /\
  (ProfitTaker._tracked_positions self !! key = None ->
   ProfitTaker._evaluate_position self now position current_price
   = (Py.Ok None, self)) /\
  (forall tr, ProfitTaker._tracked_positions self !! key = Some tr ->
     exists tr', ProfitTaker._tracked_positions self' !! key = Some tr'
                 /\ tracker_advances tr tr').
Proof.
  intros key self'. subst self'. unfold ProfitTaker._evaluate_position.
  fold key.
  assert (forall tr0 tr1 r,
            ProfitTaker._tracked_positions self !! key = Some tr0 ->
            tracker_advances tr0 tr1 ->
            let s' := snd (r : Py.result (option ProfitTaker.ProfitTakeAction.t),
                           ProfitTaker.store self key tr1) in
            ProfitTaker.config s' = ProfitTaker.config self /\
            (forall k, k <> key ->
               ProfitTaker._tracked_positions s' !! k
               = ProfitTaker._tracked_positions self !! k) /\
            (Some tr0 = None -> (r, ProfitTaker.store self key tr1) = (Py.Ok None, self)) /\
            (forall tr, Some tr0 = Some tr ->
               exists tr', ProfitTaker._tracked_positions s' !! key = Some tr'
                           /\ tracker_advances tr tr')) as Hstore.
  { intros tr0 tr1 r Htr Hadv. cbn [snd ProfitTaker.store ProfitTaker.config
      ProfitTaker._tracked_positions].
    split; [done|]. split; [by intros; rewrite lookup_insert_ne|].
    split; [done|]. intros tr [= <-]. exists tr1. by rewrite lookup_insert_eq. }
  assert (forall tr0 r,
            ProfitTaker._tracked_positions self !! key = Some tr0 ->
            let s' := snd (r : Py.result (option ProfitTaker.ProfitTakeAction.t), self) in
            ProfitTaker.config s' = ProfitTaker.config self /\
            (forall k, k <> key ->
               ProfitTaker._tracked_positions s' !! k
               = ProfitTaker._tracked_positions self !! k) /\
            (Some tr0 = None -> (r, self) = (Py.Ok None, self)) /\
            (forall tr, Some tr0 = Some tr ->
               exists tr', ProfitTaker._tracked_positions s' !! key = Some tr'
                           /\ tracker_advances tr tr')) as Hsame.
  { intros tr0 r Htr. cbn [snd]. repeat split; try done.
    intros tr [= <-]. exists tr0. split; [done|apply tracker_advances_refl]. }
  destruct (ProfitTaker._tracked_positions self !! key) as [tr0|] eqn:Htr.
  2: { cbn [snd]. repeat split; try done. }
  destruct (Py.ltb _ _); [by apply Hsame|].
  destruct (ProfitTaker.PositionTracker.update_peak tr0 current_price)
    as [tr1|e] eqn:Hpeak; [|by apply Hsame].
  apply update_peak_advances in Hpeak.
  destruct (ProfitTaker.PositionTracker.calculate_profit_pct tr1 current_price)
    as [pct|e]; [|by apply Hstore].
  destruct (Py.leb pct _); [by apply Hstore|].
  destruct (_ && _); [by apply Hstore|].
  destruct (Py.leb _ pct).
  - destruct (_ && _); [|by apply Hstore].
    apply Hstore; [done|]. eapply tracker_advances_trans; [exact Hpeak|].
    apply set_trailing_stop_active_advances.
  - pose proof (tier_loop_fires
                  (ProfitTaker.tiered_targets (ProfitTaker.config self))
                  0 tr1 position pct) as Hloop.
    destruct (ProfitTaker.tier_loop 0 _ tr1 position pct) as [[a|] tr2].
    + destruct Hloop as (j & ? & ? & _ & _ & -> & _).
      apply Hstore; [done|]. eapply tracker_advances_trans; [exact Hpeak|].
      apply append_tier_advances.
    + subst tr2. by apply Hstore.
Qed.

Lemma update_peak_keeps tr price tr' :
  ProfitTaker.PositionTracker.update_peak tr price = Py.Ok tr' ->
  ProfitTaker.PositionTracker.tiers_closed tr'
    = ProfitTaker.PositionTracker.tiers_closed tr /\
  ProfitTaker.PositionTracker.calculate_profit_pct tr' price
    = ProfitTaker.PositionTracker.calculate_profit_pct tr price /\
  exists pct, ProfitTaker.PositionTracker.calculate_profit_pct tr price = Py.Ok pct.
Proof.
  unfold ProfitTaker.PositionTracker.update_peak.
  destruct (ProfitTaker.PositionTracker.calculate_profit_pct tr price) as [pct|] eqn:E;
    [|discriminate].
  cbn [Py.bind]. intros [= <-].
  destruct (Py.ltb _ _); [|by eauto].
  split; [done|]. split; [|by eauto].
  rewrite <- E. reflexivity.
Qed.

(** X18. An action returned for a tracked position is of one of two
    kinds.  A stop-loss or a full close carries the whole quantity of the
    position and closes no tier.  A partial close fires one tier of the
    configured table that was not closed before, records it as the last
    closed tier, carries [int(quantity * close_fraction)] contracts, a
    positive number, and comes with a profit at or above the tier's
    target.  As closed tiers are never removed, a tier fires at most
    once. *)
Theorem evaluate_position_action (self self' : ProfitTaker.t) (now : Q)
    (position : PositionModel.Position) (current_price : Q)
    (tr : ProfitTaker.PositionTracker.t) (a : ProfitTaker.ProfitTakeAction.t) :
  ProfitTaker._tracked_positions self !! PositionModel.ticker position = Some tr ->
  ProfitTaker._evaluate_position self now position current_price
    = (Py.Ok (Some a), self') ->
  exists tr',
    ProfitTaker._tracked_positions self' !! PositionModel.ticker position
      = Some tr' /\
    ProfitTaker.ProfitTakeAction.ticker a = PositionModel.ticker position /\
    (((ProfitTaker.ProfitTakeAction.action a = "stop_loss"
       \/ ProfitTaker.ProfitTakeAction.action a = "close_full") /\
      ProfitTaker.ProfitTakeAction.quantity a = PositionModel.quantity position /\
      ProfitTaker.PositionTracker.tiers_closed tr'
        = ProfitTaker.PositionTracker.tiers_closed tr)
     \/
     (ProfitTaker.ProfitTakeAction.action a = "close_partial" /\
      exists i target fraction,
        ProfitTaker.tiered_targets (ProfitTaker.config self) !! i
          = Some (target, fraction) /\
        (i ∉ ProfitTaker.PositionTracker.tiers_closed tr) /\
        ProfitTaker.PositionTracker.tiers_closed tr'
          = ProfitTaker.PositionTracker.tiers_closed tr ++ [i] /\
        ProfitTaker.ProfitTakeAction.reason a
          = ProfitTaker.TierTargetHit (S i) target /\
        ProfitTaker.ProfitTakeAction.quantity a
          = Py.int (inject_Z (PositionModel.quantity position) * fraction) /\
        (0 < ProfitTaker.ProfitTakeAction.quantity a)%Z /\
        (target <= ProfitTaker.ProfitTakeAction.current_profit_pct a)%Q)).
Proof.
  intros Htr. unfold ProfitTaker._evaluate_position. rewrite Htr.
  destruct (Py.ltb _ _); [discriminate|].
  destruct (ProfitTaker.PositionTracker.update_peak tr current_price)
    as [tr1|e] eqn:Hpeak; [|discriminate].
  apply update_peak_keeps in Hpeak as (Htiers & _ & _).
  destruct (ProfitTaker.PositionTracker.calculate_profit_pct tr1 current_price)
    as [pct|e]; [|discriminate].
  match goal with
  | |- _ -> ?C =>
      assert (forall act reason,
                (act = "stop_loss" \/ act = "close_full") ->
                (Py.Ok (Some (ProfitTaker.full_close position act reason pct)),
                 ProfitTaker.store self (PositionModel.ticker position) tr1)
                = (Py.Ok (Some a), self') -> C) as Hfull
  end.
  { intros act reason Hact [= <- <-]. exists tr1.
    cbn [ProfitTaker.store ProfitTaker._tracked_positions].
    rewrite lookup_insert_eq. split; [done|]. split; [done|]. left.
    by repeat split. }
  destruct (Py.leb pct _); [by apply Hfull; left|].
  destruct (_ && _); [by apply Hfull; right|].
  destruct (Py.leb _ pct).
  - destruct (_ && _); [discriminate|]. by apply Hfull; right.
  - pose proof (tier_loop_fires
                  (ProfitTaker.tiered_targets (ProfitTaker.config self))
                  0 tr1 position pct) as Hloop.
    destruct (ProfitTaker.tier_loop 0 _ tr1 position pct) as [[a'|] tr2];
      [|discriminate].
    destruct Hloop as (j & target & fraction & Hj & Hnin & -> & Hle & Hq & ->).
    intros [= <- <-]. eexists.
    cbn [ProfitTaker.store ProfitTaker._tracked_positions].
    rewrite lookup_insert_eq. split; [done|]. split; [done|]. right.
    split; [done|]. exists j, target, fraction.
    cbn [plus] in *. rewrite Htiers in Hnin.
    repeat split; try done. cbn. by rewrite Htiers.
Qed.

(** X18 two minutes after entry at a price 80% below entry: the whole
    position is closed. *)
Lemma evaluate_position_action_witness :
  exists a self',
    ProfitTaker._evaluate_position held_taker 120 held_position 0.10
      = (Py.Ok (Some a), self') /\
    ProfitTaker.ProfitTakeAction.ticker a = PositionModel.ticker held_position.
Proof.
  destruct (ProfitTaker._evaluate_position held_taker 120 held_position 0.10)
    as [r self'] eqn:E.
  pose proof E as E0. vm_compute in E0. injection E0 as <- <-.
  destruct (ProfitTaker._tracked_positions held_taker
              !! PositionModel.ticker held_position) as [tr|] eqn:Htr;
    [|vm_compute in Htr; discriminate Htr].
  destruct (evaluate_position_action held_taker _ 120 held_position 0.10 tr _
              Htr E) as (tr' & _ & Hticker & _).
  eexists _, _. split; [reflexivity|exact Hticker].
Defined.

Lemma update_peak_ok tr price pct :
  ProfitTaker.PositionTracker.calculate_profit_pct tr price = Py.Ok pct ->
  exists tr',
    ProfitTaker.PositionTracker.update_peak tr price = Py.Ok tr' /\
    ProfitTaker.PositionTracker.calculate_profit_pct tr' price = Py.Ok pct /\
    ProfitTaker.PositionTracker.trailing_stop_active tr'
      = ProfitTaker.PositionTracker.trailing_stop_active tr /\
    ProfitTaker.PositionTracker.entry_time tr'
      = ProfitTaker.PositionTracker.entry_time tr.
Proof.
  intros Hpct. unfold ProfitTaker.PositionTracker.update_peak.
  rewrite Hpct. cbn [Py.bind]. eexists. split; [reflexivity|].
  destruct (Py.ltb _ _); [|done]. split; [|done]. rewrite <- Hpct. reflexivity.
Qed.

(** X19. For a tracked position whose profit can be computed, the action
    returned is a stop-loss exactly when the position has been held for
    the minimum time and the profit is at or below minus the stop-loss
    percentage; the stop-loss then carries the whole quantity and that
    profit, whatever the trailing stop and the tiers say. *)
Theorem evaluate_position_stop_loss (self : ProfitTaker.t) (now : Q)
    (position : PositionModel.Position) (current_price : Q)
    (tr : ProfitTaker.PositionTracker.t) (pct : Q) :
  ProfitTaker._tracked_positions self !! PositionModel.ticker position = Some tr ->
  ProfitTaker.PositionTracker.calculate_profit_pct tr current_price = Py.Ok pct ->
  let r := fst (ProfitTaker._evaluate_position self now position current_price) in
  let due :=
    (inject_Z (ProfitTaker.min_hold_seconds (ProfitTaker.config self))
       <= now - ProfitTaker.PositionTracker.entry_time tr /\
     pct <= - ProfitTaker.stop_loss_pct (ProfitTaker.config self))%Q in
  ((exists a, r = Py.Ok (Some a)
              /\ ProfitTaker.ProfitTakeAction.action a = "stop_loss") <-> due) /\
  (due ->
   r = Py.Ok (Some {| ProfitTaker.ProfitTakeAction.ticker := PositionModel.ticker position;
                      ProfitTaker.ProfitTakeAction.action := "stop_loss";
                      ProfitTaker.ProfitTakeAction.quantity :=
                        PositionModel.quantity position;
                      ProfitTaker.ProfitTakeAction.reason :=
                        ProfitTaker.StopLossTriggered pct;
                      ProfitTaker.ProfitTakeAction.current_profit_pct := pct |})).
Proof.
  intros Htr Hpct r due. subst r due.
  unfold ProfitTaker._evaluate_position. rewrite Htr.
  destruct (update_peak_ok _ _ _ Hpct) as (tr1 & -> & -> & _ & _).
  destruct (ltb_spec (now - ProfitTaker.PositionTracker.entry_time tr)
              (inject_Z (ProfitTaker.min_hold_seconds (ProfitTaker.config self))))
    as [Hhold|Hhold].
  { cbn [fst]. split; [|intros [? _]; lra].
    split; [intros (a & [=] & _)|intros [? _]; lra]. }
  apply Qnot_lt_le in Hhold.
  destruct (leb_spec pct (- ProfitTaker.stop_loss_pct (ProfitTaker.config self)))
    as [Hstop|Hstop].
  { cbn [fst]. split; [|done]. split; [done|]. intros _. eexists. by split. }
  assert (forall (x : option ProfitTaker.ProfitTakeAction.t * ProfitTaker.PositionTracker.t),
            (forall a, fst x = Some a ->
                       ProfitTaker.ProfitTakeAction.action a <> "stop_loss") ->
            forall s,
            ((exists a, fst (let '(act, _) := x in
                             (Py.Ok act : Py.result _, s : ProfitTaker.t))
                        = Py.Ok (Some a)
                        /\ ProfitTaker.ProfitTakeAction.action a = "stop_loss") <->
             (inject_Z (ProfitTaker.min_hold_seconds (ProfitTaker.config self))
                <= now - ProfitTaker.PositionTracker.entry_time tr /\
              pct <= - ProfitTaker.stop_loss_pct (ProfitTaker.config self))%Q)) as Hno.
  { intros [act t'] Hact s. cbn [fst] in *. split; [|intros [_ ?]; done].
    intros (a & [= ->] & Ha). by destruct (Hact a eq_refl). }
  split; [|intros [_ ?]; done].
  destruct (_ && _).
  { apply (Hno (Some _, tr1)). by intros a [= <-]. }
  destruct (Py.leb _ pct).
  - destruct (_ && _).
    + apply (Hno (None, tr1)). by intros a [=].
    + apply (Hno (Some _, tr1)). by intros a [= <-].
  - pose proof (tier_loop_fires
                  (ProfitTaker.tiered_targets (ProfitTaker.config self))
                  0 tr1 position pct) as Hloop.
    destruct (ProfitTaker.tier_loop 0 _ tr1 position pct) as [[a'|] tr2].
    + destruct Hloop as (j & target & fraction & _ & _ & _ & _ & _ & ->).
      apply (Hno (Some _, tr1)). by intros a [= <-].
    + apply (Hno (None, tr1)). by intros a [=].
Qed.

(** X19 two minutes after entry at a price 80% below entry. *)
Lemma evaluate_position_stop_loss_witness :
  exists a,
    fst (ProfitTaker._evaluate_position held_taker 120 held_position 0.10)
      = Py.Ok (Some a)
    /\ ProfitTaker.ProfitTakeAction.action a = "stop_loss".
Proof.
  destruct (ProfitTaker._tracked_positions held_taker
              !! PositionModel.ticker held_position) as [tr|] eqn:Htr;
    [|vm_compute in Htr; discriminate Htr].
  destruct (ProfitTaker.PositionTracker.calculate_profit_pct tr 0.10)
    as [pct|e] eqn:Hpct.
  2: { vm_compute in Htr. injection Htr as <-. vm_compute in Hpct.
       discriminate Hpct. }
  apply (proj2 (proj1 (evaluate_position_stop_loss held_taker 120 held_position
                         0.10 tr pct Htr Hpct))).
  vm_compute in Htr. injection Htr as <-.
  vm_compute in Hpct. injection Hpct as <-.
  split; vm_compute; discriminate.
Defined.

(** X20. With the trailing stop enabled and not yet armed, the first
    evaluation that finds the profit at or above the take-profit
    percentage closes nothing: it arms the trailing stop.  The next
    evaluation at the same price closes the whole position, as a
    trailing stop or as a take-profit, so the trailing stop delays a
    take-profit by one evaluation only. *)
Theorem trailing_stop_delays_take_profit (self : ProfitTaker.t) (now now' : Q)
    (position : PositionModel.Position) (current_price : Q)
    (tr : ProfitTaker.PositionTracker.t) (pct : Q) :
  ProfitTaker._tracked_positions self !! PositionModel.ticker position = Some tr ->
  ProfitTaker.PositionTracker.calculate_profit_pct tr current_price = Py.Ok pct ->
  ProfitTaker.use_trailing_stop (ProfitTaker.config self) = true ->
  ProfitTaker.PositionTracker.trailing_stop_active tr = false ->
  (inject_Z (ProfitTaker.min_hold_seconds (ProfitTaker.config self))
     <= now - ProfitTaker.PositionTracker.entry_time tr)%Q ->
  (now <= now')%Q ->
  (- ProfitTaker.stop_loss_pct (ProfitTaker.config self) < pct)%Q ->
  (ProfitTaker.take_profit_pct (ProfitTaker.config self) <= pct)%Q ->
  exists self1 self2 tr1 reason,
    ProfitTaker._evaluate_position self now position current_price
      = (Py.Ok None, self1) /\
    ProfitTaker._tracked_positions self1 !! PositionModel.ticker position
      = Some tr1 /\
    ProfitTaker.PositionTracker.trailing_stop_active tr1 = true /\
    ProfitTaker._evaluate_position self1 now' position current_price
      = (Py.Ok (Some (ProfitTaker.full_close position "close_full" reason pct)),
         self2).
Proof.
  intros Htr Hpct Huse Hoff Hhold Hnow Hstop Htake.
  unfold ProfitTaker._evaluate_position at 1. rewrite Htr.
  destruct (update_peak_ok _ _ _ Hpct) as (tr1 & -> & Hpct1 & Hact1 & Htime1).
  rewrite Hpct1, Hact1, Hoff, Huse.
  destruct (ltb_spec (now - ProfitTaker.PositionTracker.entry_time tr)
              (inject_Z (ProfitTaker.min_hold_seconds (ProfitTaker.config self))));
    [lra|].
  destruct (leb_spec pct (- ProfitTaker.stop_loss_pct (ProfitTaker.config self)));
    [lra|].
  destruct (leb_spec (ProfitTaker.take_profit_pct (ProfitTaker.config self)) pct);
    [|lra].
  cbn [andb negb].
  set (armed := ProfitTaker.PositionTracker.set_trailing_stop_active tr1).
  assert (ProfitTaker.PositionTracker.calculate_profit_pct armed current_price
          = Py.Ok pct) as Hpct2 by exact Hpct1.
  destruct (update_peak_ok _ _ _ Hpct2) as (tr2 & Hpeak2 & Hpct3 & Hact2 & Htime2).
  exists (ProfitTaker.store self (PositionModel.ticker position) armed).
  cut (exists self2 reason,
         ProfitTaker._evaluate_position
           (ProfitTaker.store self (PositionModel.ticker position) armed)
           now' position current_price
         = (Py.Ok (Some (ProfitTaker.full_close position "close_full" reason pct)),
            self2)).
  { intros (self2 & reason & Hsecond). exists self2, armed, reason.
    split; [done|]. split; [|done].
    cbn [ProfitTaker.store ProfitTaker._tracked_positions].
    by rewrite lookup_insert_eq. }
  unfold ProfitTaker._evaluate_position.
  cbn [ProfitTaker.store ProfitTaker._tracked_positions ProfitTaker.config].
  rewrite lookup_insert_eq, Hpeak2, Hpct3, Hact2.
  change (ProfitTaker.PositionTracker.entry_time armed)
    with (ProfitTaker.PositionTracker.entry_time tr1).
  rewrite Htime1, Huse.
  change (ProfitTaker.PositionTracker.trailing_stop_active armed) with true.
  destruct (ltb_spec (now' - ProfitTaker.PositionTracker.entry_time tr)
              (inject_Z (ProfitTaker.min_hold_seconds (ProfitTaker.config self))));
    [lra|].
  destruct (leb_spec pct (- ProfitTaker.stop_loss_pct (ProfitTaker.config self)));
    [lra|].
  destruct (leb_spec (ProfitTaker.take_profit_pct (ProfitTaker.config self)) pct);
    [|lra].
  cbn [andb negb].
  destruct (Py.leb _ _); by eexists _, _.
Qed.

(** X20 on a position bought at 0.50 and evaluated at 0.60 two minutes
    after entry and again five seconds later. *)
Lemma trailing_stop_delays_take_profit_witness :
  exists self1 self2 a,
    ProfitTaker._evaluate_position held_taker 120 held_position 0.60
      = (Py.Ok None, self1) /\
    ProfitTaker._evaluate_position self1 125 held_position 0.60
      = (Py.Ok (Some a), self2) /\
    ProfitTaker.ProfitTakeAction.action a = "close_full".
Proof.
  destruct (ProfitTaker._tracked_positions held_taker
              !! PositionModel.ticker held_position) as [tr|] eqn:Htr;
    [|vm_compute in Htr; discriminate Htr].
  destruct (ProfitTaker.PositionTracker.calculate_profit_pct tr 0.60)
    as [pct|e] eqn:Hpct.
  2: { vm_compute in Htr. injection Htr as <-. vm_compute in Hpct.
       discriminate Hpct. }
  destruct (trailing_stop_delays_take_profit held_taker 120 125 held_position
              0.60 tr pct Htr Hpct)
    as (self1 & self2 & tr1 & reason & H1 & _ & _ & H2).
  - reflexivity.
  - vm_compute in Htr. injection Htr as <-. reflexivity.
  - vm_compute in Htr. injection Htr as <-. vm_compute. discriminate.
  - vm_compute. discriminate.
  - vm_compute in Htr. injection Htr as <-.
    vm_compute in Hpct. injection Hpct as <-. reflexivity.
  - vm_compute in Htr. injection Htr as <-.
    vm_compute in Hpct. injection Hpct as <-. vm_compute. discriminate.
  - eexists self1, self2, _. split; [exact H1|]. split; [exact H2|reflexivity].
Defined.

(** Inside (0,1) the backtester charges a whole number of cents per
    contract, at least one. *)
Lemma backtest_fee_per_contract (self : EventSimulator.t) (price : Q) (quantity : Z) :
  (0 < price)%Q -> (price < 1)%Q ->
  exists per : Q,
    (0.01 <= per)%Q /\
    (inject_Z (Py.ceil (EventSimulator.fee_rate self * price * (1 - price) * 100))
       * (1 # 100) <= per)%Q /\
    (per == 0.01 \/
     per == inject_Z (Py.ceil (EventSimulator.fee_rate self * price * (1 - price) * 100))
            * (1 # 100))%Q /\
    EventSimulator.calculate_fee self price quantity = (per * inject_Z quantity)%Q.
Proof.
  intros H0 H1. unfold EventSimulator.calculate_fee.
  destruct (leb_spec price 0); [lra|]. destruct (leb_spec 1 price); [lra|].
  cbn [orb]. cbv zeta.
  set (c := Py.ceil (EventSimulator.fee_rate self * price * (1 - price) * 100)).
  assert (inject_Z c / 100 == inject_Z c * (1 # 100))%Q as Hd by field.
  eexists. split; [|split; [|split; [|reflexivity]]].
  - apply max_spec.
  - rewrite <- Hd. apply max_spec.
  - destruct (max_spec 0.01 (inject_Z c / 100)) as (_ & _ & [->| ->]);
      [left; reflexivity|right; exact Hd].
Qed.

Lemma backtest_fee_eq (self : EventSimulator.t) (price : Q) (quantity : Z) :
  (EventSimulator.fee_rate self == 0.07)%Q ->
  (EventSimulator.calculate_fee self price quantity
   == Fees.calculate_fee price quantity)%Q.
Proof.
  intros Hrate.
  destruct (Qlt_le_dec 0 price) as [H0|H0]; [destruct (Qlt_le_dec price 1) as [H1|H1]|].
  - destruct (backtest_fee_per_contract self price quantity H0 H1)
      as (per & Hmin & Hceil & Hper & ->).
    rewrite calculate_fee_scales, (fee_inside price H0 H1).
    assert (Py.ceil (EventSimulator.fee_rate self * price * (1 - price) * 100)
            = Py.ceil (0.07 * price * (1 - price) * 100)) as Hc.
    { unfold Py.ceil. apply Qceiling_comp. rewrite Hrate. reflexivity. }
    rewrite Hc in Hceil, Hper.
    assert (0 < 0.07 * price * (1 - price) * 100)%Q as Hpos by nra.
    apply ceil_pos in Hpos.
    set (c := Py.ceil (0.07 * price * (1 - price) * 100)) in *.
    assert (1 <= inject_Z c)%Q as Hc1.
    { change 1%Q with (inject_Z 1). by rewrite <- Zle_Qle. }
    assert (inject_Z c / 100 == inject_Z c * (1 # 100))%Q as Hd by field.
    assert (per == inject_Z c * (1 # 100))%Q as ->
      by (destruct Hper as [Hper|Hper]; lra).
    rewrite Hd. ring.
  - unfold EventSimulator.calculate_fee.
    destruct (leb_spec 1 price); [|lra]. rewrite orb_true_r.
    rewrite fee_outside; [reflexivity|]. intros [_ ?]. lra.
  - unfold EventSimulator.calculate_fee.
    destruct (leb_spec price 0); [|lra]. cbn [orb].
    rewrite fee_outside; [reflexivity|]. intros [? _]. lra.
Qed.

(** X21. A backtester run at the fee rate 0.07 charges, for every price
    and quantity, the fee of the live fee schedule. *)
Theorem backtest_fee_agrees (self : EventSimulator.t) (price : Q) (quantity : Z) :
  (EventSimulator.fee_rate self == 0.07)%Q ->
  (EventSimulator.calculate_fee self price quantity
   == Fees.calculate_fee price quantity)%Q.
Proof. exact (backtest_fee_eq self price quantity). Qed.

(** X21 on the default backtester at 0.50 for ten contracts. *)
Lemma backtest_fee_agrees_witness :
  (EventSimulator.calculate_fee (EventSimulator.init 10000 0.07 5) 0.50 10
   == Fees.calculate_fee 0.50 10)%Q.
Proof. apply backtest_fee_agrees. reflexivity. Defined.

Lemma clamp_price_range (x : Q) :
  (0.01 <= Py.min 0.99 (Py.max 0.01 x) <= 0.99)%Q.
Proof.
  pose proof (max_spec 0.01 x) as (Ha & _ & _).
  pose proof (min_spec 0.99 (Py.max 0.01 x)) as (Hb & _ & [Hc|Hc]);
    rewrite Hc in *; lra.
Qed.

Lemma inject_Z_pos (z : Z) : (1 <= z)%Z -> (1 <= inject_Z z)%Q.
Proof. intros H. change 1%Q with (inject_Z 1). by rewrite <- Zle_Qle. Qed.

Lemma execute_buy_books (self : EventSimulator.t)
    (state : EventSimulator.MarketState.t) (signal : EventSimulator.Signal.t)
    (side : EventSimulator.Side) :
  let self' := EventSimulator._execute_buy self state signal side in
  self' = self \/
  exists tr,
    EventSimulator.trades self' = EventSimulator.trades self ++ [tr] /\
    EventSimulator.Trade.action tr = "BUY" /\
    EventSimulator.Trade.side tr = side /\
    (1 <= EventSimulator.Trade.quantity tr
       <= EventSimulator.Signal.quantity signal)%Z /\
    (0.01 <= EventSimulator.Trade.price tr <= 0.99)%Q /\
    EventSimulator.Trade.fees tr
      = EventSimulator.calculate_fee self (EventSimulator.Trade.price tr)
          (EventSimulator.Signal.quantity signal) /\
    EventSimulator.Trade.cost tr
      = (EventSimulator.Trade.price tr * inject_Z (EventSimulator.Trade.quantity tr)
         + EventSimulator.Trade.fees tr)%Q /\
    EventSimulator.capital self'
      = (EventSimulator.capital self - EventSimulator.Trade.cost tr)%Q /\
    (0 <= EventSimulator.capital self' < EventSimulator.capital self)%Q.
Proof.
  intros self'. subst self'. unfold EventSimulator._execute_buy.
  destruct (Z.leb_spec (EventSimulator.Signal.quantity signal) 0) as [Hq|Hq];
    [by left|].
  set (raw := match side with
              | EventSimulator.YES => _
              | EventSimulator.NO => _
              end).
  pose proof (clamp_price_range raw) as Hprice.
  set (price := Py.min 0.99 (Py.max 0.01 raw)) in *. clearbody price.
  cbv zeta.
  destruct (backtest_fee_per_contract self price
              (EventSimulator.Signal.quantity signal)) as (per & Hper & _ & _ & Hfee);
    [lra|lra|].
  remember (EventSimulator.calculate_fee self price
              (EventSimulator.Signal.quantity signal)) as fees eqn:Hfeq.
  assert (1 <= inject_Z (EventSimulator.Signal.quantity signal))%Q as Hq1
    by (apply inject_Z_pos; lia).
  assert (0 < fees)%Q as Hfees by (rewrite Hfee; nra).
  clear Hfee.
  destruct (ltb_spec (EventSimulator.capital self)
              (price * inject_Z (EventSimulator.Signal.quantity signal) + fees))
    as [Hshort|Hfits].
  - set (x := ((EventSimulator.capital self - fees) / price)%Q).
    destruct (Z.leb_spec (Py.int x) 0) as [Hcut|Hcut]; [by left|].
    right. eexists. split; [reflexivity|]. cbn.
    assert (x * price == EventSimulator.capital self - fees)%Q as Hx
      by (unfold x; field; lra).
    clearbody x.
    assert (0 <= x)%Q as Hx0.
    { destruct (Qlt_le_dec x 0) as [Hneg|]; [|done].
      rewrite int_nonpos_ceiling in Hcut by lra.
      assert (Qceiling x <= 0)%Z; [|lia].
      rewrite <- (Qceiling_Z 0). apply Qceiling_resp_le.
      change (inject_Z 0) with 0%Q. lra. }
    rewrite int_nonneg_floor in * by done.
    pose proof (Qfloor_le x) as Hfl.
    assert (1 <= inject_Z (Qfloor x))%Q as Hfl1 by (apply inject_Z_pos; lia).
    assert (x < inject_Z (EventSimulator.Signal.quantity signal))%Q as Hlt by nra.
    assert (Qfloor x < EventSimulator.Signal.quantity signal)%Z as Hz.
    { rewrite Zlt_Qlt. lra. }
    assert (price * inject_Z (Qfloor x) <= x * price)%Q as Hcost by nra.
    assert (0 < price * inject_Z (Qfloor x))%Q as Hpos by nra.
    repeat split; try done; try lia; lra.
  - right. eexists. split; [reflexivity|]. cbn.
    repeat split; try done; try lia; try lra; nra.
Qed.

(** X22. A buy either leaves the backtester as it is, or books exactly
    one BUY record: for at least one contract and at most the quantity
    asked, at a price between 0.01 and 0.99, at a cost of price times
    quantity plus fees that is taken from the capital.  The capital after
    a buy is never negative, whatever it was before.  The fees are those
    of the quantity asked, also when the order was cut down to what the
    capital affords. *)
Theorem execute_buy_never_overdraws (self : EventSimulator.t)
    (state : EventSimulator.MarketState.t) (signal : EventSimulator.Signal.t)
    (side : EventSimulator.Side) :
  let self' := EventSimulator._execute_buy self state signal side in
  self' = self \/
  exists tr,
    EventSimulator.trades self' = EventSimulator.trades self ++ [tr] /\
    EventSimulator.Trade.action tr = "BUY" /\
    EventSimulator.Trade.side tr = side /\
    (1 <= EventSimulator.Trade.quantity tr
       <= EventSimulator.Signal.quantity signal)%Z /\
    (0.01 <= EventSimulator.Trade.price tr <= 0.99)%Q /\
    EventSimulator.Trade.fees tr
      = EventSimulator.calculate_fee self (EventSimulator.Trade.price tr)
          (EventSimulator.Signal.quantity signal) /\
    EventSimulator.Trade.cost tr
      = (EventSimulator.Trade.price tr * inject_Z (EventSimulator.Trade.quantity tr)
         + EventSimulator.Trade.fees tr)%Q /\
    EventSimulator.capital self'
      = (EventSimulator.capital self - EventSimulator.Trade.cost tr)%Q /\
    (0 <= EventSimulator.capital self' < EventSimulator.capital self)%Q.
Proof. exact (execute_buy_books self state signal side). Qed.

Lemma dict_get_set_eq {A} (d : list (string * A)) (k : string) (v : A) :
  EventSimulator.Dict.get (EventSimulator.Dict.set d k v) k = Some v.
Proof.
  induction d as [|[k' v'] d IH]; cbn.
  - by rewrite String.eqb_refl.
  - destruct (String.eqb k' k) eqn:E; cbn; by rewrite E.
Qed.

Lemma dict_get_set_ne {A} (d : list (string * A)) (k k' : string) (v : A) :
  k <> k' ->
  EventSimulator.Dict.get (EventSimulator.Dict.set d k v) k'
  = EventSimulator.Dict.get d k'.
Proof.
  intros Hne. induction d as [|[k0 v0] d IH]; cbn.
  - by apply String.eqb_neq in Hne as ->.
  - destruct (String.eqb k0 k) eqn:E; cbn; [|by rewrite IH].
    apply String.eqb_eq in E as ->. by apply String.eqb_neq in Hne as ->.
Qed.

(** X23. A buy that fills on a ticker already held adds the filled
    quantity to the held position and keeps that position's side, whatever
    side the signal names: buying no contracts of a ticker held on the yes
    side enlarges the yes position.  The entry price becomes the average of
    the old and the fill price weighted by quantity, and the positions of
    other tickers are untouched. *)
Theorem execute_buy_adds_to_held_side (self : EventSimulator.t)
    (state : EventSimulator.MarketState.t) (signal : EventSimulator.Signal.t)
    (side : EventSimulator.Side) (pos : EventSimulator.Position.t)
    (tr : EventSimulator.Trade.t) :
  EventSimulator.Dict.get (EventSimulator.positions self)
    (EventSimulator.MarketState.ticker state) = Some pos ->
  EventSimulator.trades (EventSimulator._execute_buy self state signal side)
    = EventSimulator.trades self ++ [tr] ->
  let self' := EventSimulator._execute_buy self state signal side in
  (exists pos',
     EventSimulator.Dict.get (EventSimulator.positions self')
       (EventSimulator.MarketState.ticker state) = Some pos' /\
     EventSimulator.Position.side pos' = EventSimulator.Position.side pos /\
     EventSimulator.Position.quantity pos'
       = (EventSimulator.Position.quantity pos + EventSimulator.Trade.quantity tr)%Z /\
     ((0 < EventSimulator.Position.quantity pos)%Z ->
      (EventSimulator.Position.entry_price pos'
         * inject_Z (EventSimulator.Position.quantity pos')
       == EventSimulator.Position.entry_price pos
            * inject_Z (EventSimulator.Position.quantity pos)
          + EventSimulator.Trade.price tr
            * inject_Z (EventSimulator.Trade.quantity tr))%Q)) /\
  (forall k, k <> EventSimulator.MarketState.ticker state ->
     EventSimulator.Dict.get (EventSimulator.positions self') k
     = EventSimulator.Dict.get (EventSimulator.positions self) k).
Proof.
  intros Hheld Htrade self'. subst self'.
  pose proof (execute_buy_books self state signal side) as Hbuy.
  cbv zeta in Hbuy. destruct Hbuy as [Hsame|(tr0 & Htr0 & _ & _ & Hqty & _)].
  { rewrite Hsame in Htrade. apply (f_equal length) in Htrade.
    rewrite length_app in Htrade. cbn in Htrade. lia. }
  rewrite Htr0 in Htrade. apply app_inj_tail in Htrade as [_ ->].
  revert Htr0 Hqty. unfold EventSimulator._execute_buy.
  destruct (EventSimulator.Signal.quantity signal <=? 0)%Z;
    [intros Habs; apply (f_equal length) in Habs;
     rewrite length_app in Habs; cbn in Habs; lia|].
  cbv zeta. rewrite Hheld.
  match goal with
  | |- context [if Py.ltb ?a ?b then ?x else ?y] =>
      destruct (if Py.ltb a b then x else y) as [[quantity cost]|]
  end.
  2: { intros Habs. apply (f_equal length) in Habs.
       rewrite length_app in Habs. cbn in Habs. lia. }
  cbn [EventSimulator.with_ledger EventSimulator.trades EventSimulator.positions].
  intros Htr0 Hqty. apply app_inj_tail in Htr0 as [_ <-].
  cbn [EventSimulator.Trade.quantity EventSimulator.Trade.price] in *.
  split; [|by intros k Hk; rewrite dict_get_set_ne].
  eexists. split; [apply dict_get_set_eq|]. cbn. repeat split.
  intros Hpos.
  assert (0 < inject_Z (EventSimulator.Position.quantity pos + quantity))%Q as Htot.
  { change 0%Q with (inject_Z 0). rewrite <- Zlt_Qlt. lia. }
  field. lra.
Qed.

(** X23 on a backtester holding ten yes contracts of T that is told to
    buy ten no contracts: it then holds twenty yes contracts. *)
Lemma execute_buy_adds_to_held_side_witness :
  exists pos',
    EventSimulator.Dict.get
      (EventSimulator.positions
         (EventSimulator._execute_buy holding_yes tick buy_no EventSimulator.NO))
      "T" = Some pos' /\
    EventSimulator.Position.side pos' = EventSimulator.YES /\
    EventSimulator.Position.quantity pos' = 20%Z.
Proof.
  destruct (EventSimulator.Dict.get (EventSimulator.positions holding_yes)
              (EventSimulator.MarketState.ticker tick)) as [pos|] eqn:Hheld;
    [|vm_compute in Hheld; discriminate Hheld].
  destruct (EventSimulator.trades
              (EventSimulator._execute_buy holding_yes tick buy_no EventSimulator.NO))
    as [|t1 [|t2 [|t3 rest]]] eqn:Htrades;
    try (vm_compute in Htrades; discriminate Htrades).
  assert (t1 :: [t2] = EventSimulator.trades holding_yes ++ [t2]) as Hsplit.
  { vm_compute in Htrades. injection Htrades as <- <-. reflexivity. }
  rewrite Hsplit in Htrades.
  destruct (execute_buy_adds_to_held_side holding_yes tick buy_no
              EventSimulator.NO pos t2 Hheld Htrades)
    as [(pos' & Hget & Hside & Hqty & _) _].
  exists pos'. split; [exact Hget|].
  vm_compute in Hheld. injection Hheld as <-.
  split; [exact Hside|]. rewrite Hqty.
  vm_compute in Htrades. injection Htrades as <-. reflexivity.
Defined.

(** Orders and marking to market leave the equity bookkeeping alone. *)
Lemma with_ledger_frame (self : EventSimulator.t) capital positions trades :
  let self' := EventSimulator.with_ledger self capital positions trades in
  EventSimulator.initial_capital self' = EventSimulator.initial_capital self /\
  EventSimulator.equity_curve self' = EventSimulator.equity_curve self /\
  EventSimulator._peak_equity self' = EventSimulator._peak_equity self /\
  EventSimulator._max_drawdown self' = EventSimulator._max_drawdown self.
Proof. done. Qed.

Lemma trade_frame (signal_func : EventSimulator.MarketState.t ->
                                 EventSimulator.Context -> EventSimulator.Signal.t)
    (self : EventSimulator.t) (state : EventSimulator.MarketState.t) :
  exists mid,
    EventSimulator.step signal_func self state
      = EventSimulator._record_equity mid (EventSimulator.MarketState.timestamp state) /\
    EventSimulator.initial_capital mid = EventSimulator.initial_capital self /\
    EventSimulator.equity_curve mid = EventSimulator.equity_curve self /\
    EventSimulator._peak_equity mid = EventSimulator._peak_equity self /\
    EventSimulator._max_drawdown mid = EventSimulator._max_drawdown self.
Proof.
  unfold EventSimulator.step. eexists. split; [reflexivity|].
  set (signal := signal_func state _).
  assert (forall s0 : EventSimulator.t,
            EventSimulator.initial_capital s0 = EventSimulator.initial_capital self /\
            EventSimulator.equity_curve s0 = EventSimulator.equity_curve self /\
            EventSimulator._peak_equity s0 = EventSimulator._peak_equity self /\
            EventSimulator._max_drawdown s0 = EventSimulator._max_drawdown self ->
            let s1 := EventSimulator._mark_to_market s0 state in
            EventSimulator.initial_capital s1 = EventSimulator.initial_capital self /\
            EventSimulator.equity_curve s1 = EventSimulator.equity_curve self /\
            EventSimulator._peak_equity s1 = EventSimulator._peak_equity self /\
            EventSimulator._max_drawdown s1 = EventSimulator._max_drawdown self)
    as Hmark.
  { intros s0 H. unfold EventSimulator._mark_to_market.
    destruct (EventSimulator.Dict.get _ _); exact H. }
  apply Hmark.
  assert (forall side,
            let s1 := EventSimulator._execute_buy self state signal side in
            EventSimulator.initial_capital s1 = EventSimulator.initial_capital self /\
            EventSimulator.equity_curve s1 = EventSimulator.equity_curve self /\
            EventSimulator._peak_equity s1 = EventSimulator._peak_equity self /\
            EventSimulator._max_drawdown s1 = EventSimulator._max_drawdown self)
    as Hbuy.
  { intros side. unfold EventSimulator._execute_buy.
    destruct (_ <=? _)%Z; [done|]. cbv zeta.
    match goal with
    | |- context [if Py.ltb ?a ?b then ?x else ?y] =>
        destruct (if Py.ltb a b then x else y) as [[quantity cost]|]
    end; done. }
  assert (let s1 := EventSimulator._execute_sell self state signal in
          EventSimulator.initial_capital s1 = EventSimulator.initial_capital self /\
          EventSimulator.equity_curve s1 = EventSimulator.equity_curve self /\
          EventSimulator._peak_equity s1 = EventSimulator._peak_equity self /\
          EventSimulator._max_drawdown s1 = EventSimulator._max_drawdown self)
    as Hsell.
  { unfold EventSimulator._execute_sell.
    destruct (EventSimulator.Dict.get _ _); done. }
  destruct (String.eqb (EventSimulator.Signal.action signal) "buy"),
    (EventSimulator.Signal.side signal),
    (String.eqb (EventSimulator.Signal.action signal) "sell");
    first [apply Hbuy|exact Hsell|done].
Qed.

Lemma record_equity_peak (self : EventSimulator.t) (timestamp : Q) :
  is_max_of (EventSimulator._peak_equity self)
    (EventSimulator.initial_capital self
     :: map snd (EventSimulator.equity_curve self)) ->
  (0 <= EventSimulator._max_drawdown self)%Q ->
  let self' := EventSimulator._record_equity self timestamp in
  is_max_of (EventSimulator._peak_equity self')
    (EventSimulator.initial_capital self'
     :: map snd (EventSimulator.equity_curve self')) /\
  (EventSimulator._max_drawdown self <= EventSimulator._max_drawdown self')%Q /\
  map fst (EventSimulator.equity_curve self')
    = map fst (EventSimulator.equity_curve self) ++ [timestamp].
Proof.
  intros [Hin Hall] Hdd. unfold EventSimulator._record_equity. cbv zeta.
  cbn [EventSimulator._peak_equity EventSimulator.initial_capital
       EventSimulator.equity_curve EventSimulator._max_drawdown].
  set (total := (EventSimulator.capital self + _)%Q). clearbody total.
  rewrite !map_app. cbn [map fst snd].
  split; [|split; [|reflexivity]].
  - rewrite app_comm_cons. split.
    + destruct (ltb_spec (EventSimulator._peak_equity self) total).
      * apply elem_of_app. right. apply elem_of_cons. by left.
      * apply elem_of_app. by left.
    + apply Forall_app. split.
      * eapply Forall_impl; [exact Hall|]. intros y Hy. cbn in Hy.
        destruct (ltb_spec (EventSimulator._peak_equity self) total); lra.
      * apply Forall_singleton.
        destruct (ltb_spec (EventSimulator._peak_equity self) total); lra.
  - destruct (Py.ltb 0 _); [apply max_spec|lra].
Qed.

Lemma replay_equity_invariants
    (signal_func : EventSimulator.MarketState.t ->
                   EventSimulator.Context -> EventSimulator.Signal.t)
    (market_data : list EventSimulator.MarketState.t) :
  forall self : EventSimulator.t,
    is_max_of (EventSimulator._peak_equity self)
      (EventSimulator.initial_capital self
       :: map snd (EventSimulator.equity_curve self)) ->
    (0 <= EventSimulator._max_drawdown self)%Q ->
    let self' := EventSimulator.replay signal_func self market_data in
    EventSimulator.initial_capital self' = EventSimulator.initial_capital self /\
    is_max_of (EventSimulator._peak_equity self')
      (EventSimulator.initial_capital self'
       :: map snd (EventSimulator.equity_curve self')) /\
    (EventSimulator._max_drawdown self <= EventSimulator._max_drawdown self')%Q /\
    map fst (EventSimulator.equity_curve self')
      = map fst (EventSimulator.equity_curve self)
        ++ map EventSimulator.MarketState.timestamp market_data.
Proof.
  induction market_data as [|state rest IH]; intros self Hmax Hdd.
  - cbn. rewrite app_nil_r. repeat split; try apply Hmax. lra.
  - cbn [EventSimulator.replay foldl].
    destruct (trade_frame signal_func self state)
      as (mid & -> & Hinit & Hcurve & Hpeak & Hmdd).
    rewrite <- Hinit, <- Hcurve, <- Hpeak in Hmax. rewrite <- Hmdd in Hdd.
    destruct (record_equity_peak mid (EventSimulator.MarketState.timestamp state)
                Hmax Hdd) as (Hmax' & Hdd' & Hts).
    destruct (IH (EventSimulator._record_equity mid
                    (EventSimulator.MarketState.timestamp state)) Hmax')
      as (Hinit' & Hmax'' & Hdd'' & Hts'); [lra|].
    fold (EventSimulator.replay signal_func
            (EventSimulator._record_equity mid
               (EventSimulator.MarketState.timestamp state)) rest).
    split; [by rewrite Hinit'|]. split; [exact Hmax''|].
    split; [rewrite <- Hmdd; lra|].
    rewrite Hts', Hts, Hcurve, <- app_assoc. reflexivity.
Qed.

Section RunFacts.
Variable pct_change_dropna : list Q -> list Q.
Variable series_mean series_std : list Q -> Q.
Variable np_sqrt : Q -> Q.
Variable float_pow : Q -> Q -> Q.

(** X24. A run of a fresh backtester records one equity point per market
    snapshot, stamped with the snapshot's time and in the order of the
    data; afterwards no position is left open, the peak equity is the
    greatest of the initial capital and the recorded equities and the
    maximum drawdown is not negative.  On non-empty data the run raises
    [ZeroDivisionError] exactly when the initial capital is 0, and
    otherwise reports that peak and that drawdown; on empty data it
    reports a peak equity of 0 whatever the initial capital. *)
Theorem run_equity_curve (initial_capital fee_rate slippage_bps : Q)
    (clock : nat -> Q) (market_data : list EventSimulator.MarketState.t)
    (signal_func : EventSimulator.MarketState.t ->
                   EventSimulator.Context -> EventSimulator.Signal.t)
    (resolutions : gmap string bool) :
  let out :=
    EventSimulator.run pct_change_dropna series_mean series_std np_sqrt float_pow
      (EventSimulator.init initial_capital fee_rate slippage_bps)
      clock market_data signal_func resolutions in
  let self' := snd out in
  map fst (EventSimulator.equity_curve self')
    = map EventSimulator.MarketState.timestamp market_data /\
  EventSimulator.positions self' = [] /\
  is_max_of (EventSimulator._peak_equity self')
    (initial_capital :: map snd (EventSimulator.equity_curve self')) /\
  (0 <= EventSimulator._max_drawdown self')%Q /\
  (market_data = [] ->
   fst out = Py.Ok (EventSimulator.BacktestMetrics.only_final_equity initial_capital)) /\
  (market_data <> [] ->
   (fst out = Py.Raise Py.ZeroDivisionError <-> (initial_capital == 0)%Q) /\
   forall m, fst out = Py.Ok m ->
     EventSimulator.BacktestMetrics.peak_equity m = EventSimulator._peak_equity self' /\
     EventSimulator.BacktestMetrics.max_drawdown m = EventSimulator._max_drawdown self' /\
     EventSimulator.BacktestMetrics.final_equity m = EventSimulator.capital self').
Proof.
  intros out self'.
  assert (market_data = [] ->
          fst out = Py.Ok (EventSimulator.BacktestMetrics.only_final_equity
                             initial_capital)) as Hempty
    by (intros ->; reflexivity).
  revert Hempty. subst out self'. unfold EventSimulator.run. cbn [fst snd].
  intros Hempty.
  set (start := EventSimulator.init initial_capital fee_rate slippage_bps) in *.
  destruct (replay_equity_invariants signal_func market_data start)
    as (Hinit & Hmax & Hdd & Hts).
  { split; [apply elem_of_cons; by left|]. apply Forall_singleton. cbn. lra. }
  { cbn. lra. }
  set (played := EventSimulator.replay signal_func start market_data) in *.
  unfold EventSimulator._settle_positions in *.
  destruct (EventSimulator.settle_loop clock 0 resolutions _ _ _) as [capital trades].
  set (settled := EventSimulator.with_ledger played capital [] trades) in *.
  change (EventSimulator.equity_curve settled)
    with (EventSimulator.equity_curve played).
  change (EventSimulator._peak_equity settled)
    with (EventSimulator._peak_equity played).
  change (EventSimulator._max_drawdown settled)
    with (EventSimulator._max_drawdown played).
  change (EventSimulator.initial_capital played) with
    (EventSimulator.initial_capital played) in Hmax.
  rewrite Hinit in Hmax. change (EventSimulator.initial_capital start)
    with initial_capital in *.
  change (EventSimulator._max_drawdown start) with 0%Q in Hdd.
  change (map fst (EventSimulator.equity_curve start)) with (@nil Q) in Hts.
  cbn [app] in Hts.
  split; [exact Hts|]. split; [reflexivity|]. split; [exact Hmax|].
  split; [exact Hdd|]. split; [exact Hempty|]. clear Hempty.
  unfold EventSimulator._calculate_metrics.
  change (EventSimulator.equity_curve settled)
    with (EventSimulator.equity_curve played).
  change (EventSimulator.initial_capital settled) with
    (EventSimulator.initial_capital played).
  rewrite Hinit. change (EventSimulator.initial_capital start) with initial_capital.
  intros Hne.
  destruct (EventSimulator.equity_curve played) as [|first curve] eqn:Hcurve.
  { destruct market_data; [done|discriminate Hts]. }
  unfold Py.div. destruct (Qeq_bool initial_capital 0) eqn:Hzero; cbn [Py.bind].
  - apply Qeq_bool_iff in Hzero. split; [done|]. intros m [=].
  - apply Qeq_bool_neq in Hzero. split; [split; [intros [=]|done]|].
    intros m [= <-]. done.
Qed.

End RunFacts.

Lemma settle_loop_pays (clock : nat -> Q) (resolutions : gmap string bool)
    (items : list (string * EventSimulator.Position.t)) :
  forall (k : nat) (capital : Q) (trades : list EventSimulator.Trade.t),
    let out := EventSimulator.settle_loop clock k resolutions items capital trades in
    (fst out == capital + Py.sum (map (settlement_payout resolutions) items))%Q /\
    exists settled,
      snd out = trades ++ settled /\ Forall2 (settles resolutions) items settled.
Proof.
  induction items as [|[ticker pos] rest IH]; intros k capital trades.
  - cbn. split; [unfold Py.sum; cbn; lra|]. exists []. by rewrite app_nil_r.
  - cbn [EventSimulator.settle_loop]. cbv zeta.
    rewrite map_cons, sum_cons.
    assert (forall payout pnl price,
              (payout == settlement_payout resolutions (ticker, pos))%Q ->
              (pnl == settlement_payout resolutions (ticker, pos)
                      - EventSimulator.Position.entry_price pos
                        * inject_Z (EventSimulator.Position.quantity pos))%Q ->
              let out :=
                EventSimulator.settle_loop clock (S k) resolutions rest
                  (capital + payout)
                  (trades ++
                   [{| EventSimulator.Trade.timestamp := clock k;
                       EventSimulator.Trade.ticker := ticker;
                       EventSimulator.Trade.action := "SETTLE";
                       EventSimulator.Trade.side := EventSimulator.Position.side pos;
                       EventSimulator.Trade.quantity :=
                         EventSimulator.Position.quantity pos;
                       EventSimulator.Trade.price := price;
                       EventSimulator.Trade.cost := 0;
                       EventSimulator.Trade.fees := 0;
                       EventSimulator.Trade.pnl := pnl |}]) in
              (fst out == capital
                        + (settlement_payout resolutions (ticker, pos)
                           + Py.sum (map (settlement_payout resolutions) rest)))%Q /\
              exists settled,
                snd out = trades ++ settled /\
                Forall2 (settles resolutions) ((ticker, pos) :: rest) settled)
      as Hstep.
    { intros payout pnl price Hpay Hpnl out. subst out.
      edestruct IH as (Hcap & settled & Htrades & Hall).
      split; [rewrite Hcap, Hpay; ring|].
      eexists (_ :: settled). rewrite Htrades, <- app_assoc.
      split; [reflexivity|]. constructor; [|exact Hall].
      by repeat split. }
    destruct (EventSimulator.Position.side pos) eqn:Hside,
      (default false (resolutions !! ticker)) eqn:Hres;
      apply Hstep; unfold settlement_payout; cbn [fst snd];
      rewrite Hside, Hres; ring.
Qed.

(** X25. Settlement closes every open position: it books one SETTLE
    record per position, in the order the positions were opened, without
    fees or cost, and credits the capital with one per contract of every
    position whose side is the resolved side, a ticker without a
    resolution counting as resolved no.  The pnl of a record is that
    payout less the entry price times the quantity. *)
Theorem settle_positions_pays_winners (self : EventSimulator.t)
    (clock : nat -> Q) (resolutions : gmap string bool) :
  let self' := EventSimulator._settle_positions self clock resolutions in
  EventSimulator.positions self' = [] /\
  (EventSimulator.capital self'
   == EventSimulator.capital self
      + Py.sum (map (settlement_payout resolutions) (EventSimulator.positions self)))%Q /\
  exists settled,
    EventSimulator.trades self' = EventSimulator.trades self ++ settled /\
    Forall2 (settles resolutions) (EventSimulator.positions self) settled.
Proof.
  intros self'. subst self'. unfold EventSimulator._settle_positions.
  pose proof (settle_loop_pays clock resolutions (EventSimulator.positions self)
                0 (EventSimulator.capital self) (EventSimulator.trades self))
    as Hloop.
  cbv zeta in Hloop.
  destruct (EventSimulator.settle_loop clock 0 resolutions _ _ _) as [capital trades].
  split; [reflexivity|]. exact Hloop.
Qed.

Lemma dict_get_None {A} (d : list (string * A)) (k : string) :
  k ∉ map fst d -> EventSimulator.Dict.get d k = None.
Proof.
  induction d as [|[k' v] d IH]; cbn; [done|]. intros Hnin.
  rewrite not_elem_of_cons in Hnin. destruct Hnin as [Hne Hnin].
  destruct (String.eqb k' k) eqn:E; [|by apply IH].
  apply String.eqb_eq in E. congruence.
Qed.

Lemma dict_get_del_eq {A} (d : list (string * A)) (k : string) :
  NoDup (map fst d) ->
  EventSimulator.Dict.get (EventSimulator.Dict.del d k) k = None.
Proof.
  induction d as [|[k' v] d IH]; cbn; [done|]. intros Hnd.
  apply NoDup_cons in Hnd as [Hnin Hnd].
  destruct (String.eqb k' k) eqn:E.
  - apply String.eqb_eq in E as ->. by apply dict_get_None.
  - cbn. rewrite E. by apply IH.
Qed.

(** At the fee rate 0.07 the fee of a contract never exceeds its price,
    for a price of one cent or more. *)
Lemma fee_below_price (p : Q) :
  (0.01 <= p)%Q -> (p <= 0.99)%Q -> (Fees.calculate_fee p 1 <= p)%Q.
Proof.
  intros H0 H1. rewrite fee_inside by lra.
  set (y := (0.07 * p * (1 - p) * 100)%Q).
  assert (y <= 7 * p)%Q as Hy by (unfold y; nra).
  assert (inject_Z (Py.ceil y) / 100 == inject_Z (Py.ceil y) * (1 # 100))%Q as ->
    by field.
  destruct (Qlt_le_dec p 0.07) as [Hsmall|Hbig].
  - assert (Py.ceil y <= 1)%Z as Hc
      by (apply ceil_le; change (inject_Z 1) with 1%Q; lra).
    rewrite Zle_Qle in Hc. change (inject_Z 1) with 1%Q in Hc. lra.
  - pose proof (Qceiling_lt y) as Hc. unfold Py.ceil.
    unfold Z.sub in Hc. rewrite inject_Z_plus in Hc.
    change (inject_Z (- (1))) with (- (1))%Q in Hc. lra.
Qed.

(** X26. A sell on a held ticker, for a non-negative quantity asked,
    books one SELL record on the held side for at least one contract and
    never more than is held; a quantity of 0, or one at or above the
    holding, sells the whole holding.  The proceeds, price times quantity less
    fees, go to the capital.  A position sold in full is gone, one sold
    in part keeps its side and entry price with the rest of its
    quantity.  At the fee rate 0.07 a sell never lowers the capital. *)
Theorem execute_sell_closes_held (self : EventSimulator.t)
    (state : EventSimulator.MarketState.t) (signal : EventSimulator.Signal.t)
    (pos : EventSimulator.Position.t) :
  NoDup (map fst (EventSimulator.positions self)) ->
  EventSimulator.Dict.get (EventSimulator.positions self)
    (EventSimulator.MarketState.ticker state) = Some pos ->
  (0 < EventSimulator.Position.quantity pos)%Z ->
  (0 <= EventSimulator.Signal.quantity signal)%Z ->
  let self' := EventSimulator._execute_sell self state signal in
  let held := EventSimulator.Position.quantity pos in
  let asked := EventSimulator.Signal.quantity signal in
  exists tr,
    EventSimulator.trades self' = EventSimulator.trades self ++ [tr] /\
    EventSimulator.Trade.action tr = "SELL" /\
    EventSimulator.Trade.side tr = EventSimulator.Position.side pos /\
    (1 <= EventSimulator.Trade.quantity tr <= held)%Z /\
    (asked = 0%Z \/ (held <= asked)%Z -> EventSimulator.Trade.quantity tr = held) /\
    ((0 < asked < held)%Z -> EventSimulator.Trade.quantity tr = asked) /\
    (0.01 <= EventSimulator.Trade.price tr <= 0.99)%Q /\
    EventSimulator.capital self'
      = (EventSimulator.capital self
         + (EventSimulator.Trade.price tr * inject_Z (EventSimulator.Trade.quantity tr)
            - EventSimulator.Trade.fees tr))%Q /\
    (EventSimulator.Trade.quantity tr = held ->
     EventSimulator.Dict.get (EventSimulator.positions self')
       (EventSimulator.MarketState.ticker state) = None) /\
    ((EventSimulator.Trade.quantity tr < held)%Z ->
     exists pos',
       EventSimulator.Dict.get (EventSimulator.positions self')
         (EventSimulator.MarketState.ticker state) = Some pos' /\
       EventSimulator.Position.quantity pos'
         = (held - EventSimulator.Trade.quantity tr)%Z /\
       EventSimulator.Position.side pos' = EventSimulator.Position.side pos /\
       EventSimulator.Position.entry_price pos'
         = EventSimulator.Position.entry_price pos) /\
    ((EventSimulator.fee_rate self == 0.07)%Q ->
     (EventSimulator.capital self <= EventSimulator.capital self')%Q).
Proof.
  intros Hnd Hheld Hpos Hasked self' held asked. subst self'.
  unfold EventSimulator._execute_sell. rewrite Hheld. cbv zeta.
  fold held asked.
  set (q := Z.min (if (asked =? 0)%Z then held else asked) held).
  assert (1 <= q <= held)%Z as Hq
    by (unfold q; destruct (Z.eqb_spec asked 0); lia).
  set (raw := match EventSimulator.Position.side pos with
              | EventSimulator.YES => _
              | EventSimulator.NO => _
              end).
  pose proof (clamp_price_range raw) as Hprice.
  set (price := Py.min 0.99 (Py.max 0.01 raw)) in *. clearbody price.
  eexists. split; [reflexivity|].
  cbn [EventSimulator.Trade.action EventSimulator.Trade.side
       EventSimulator.Trade.quantity EventSimulator.Trade.price
       EventSimulator.Trade.fees EventSimulator.with_ledger
       EventSimulator.capital EventSimulator.positions].
  split; [done|]. split; [done|]. split; [done|].
  split; [unfold q; destruct (Z.eqb_spec asked 0); lia|].
  split; [unfold q; destruct (Z.eqb_spec asked 0); lia|].
  split; [done|]. split; [done|].
  split; [|split].
  - intros ->. rewrite (proj2 (Z.leb_le held held)) by lia.
    by apply dict_get_del_eq.
  - intros Hlt. rewrite (proj2 (Z.leb_gt held q)) by lia.
    eexists. split; [apply dict_get_set_eq|]. done.
  - intros Hrate.
    pose proof (backtest_fee_eq self price q Hrate) as Hfee.
    rewrite calculate_fee_scales in Hfee.
    pose proof (fee_below_price price ltac:(lra) ltac:(lra)) as Hbelow.
    assert (1 <= inject_Z q)%Q as Hq1 by (apply inject_Z_pos; lia).
    set (fees := EventSimulator.calculate_fee self price q) in *.
    clearbody fees. nra.
Qed.

(** X26 on a backtester holding ten yes contracts of T that is told to
    sell without a quantity: all ten are sold and the position is gone. *)
Lemma execute_sell_closes_held_witness :
  exists tr,
    EventSimulator.trades (EventSimulator._execute_sell holding_yes tick sell_all)
      = EventSimulator.trades holding_yes ++ [tr] /\
    EventSimulator.Trade.quantity tr = 10%Z /\
    EventSimulator.Dict.get
      (EventSimulator.positions (EventSimulator._execute_sell holding_yes tick sell_all))
      (EventSimulator.MarketState.ticker tick) = None.
Proof.
  destruct (EventSimulator.Dict.get (EventSimulator.positions holding_yes)
              (EventSimulator.MarketState.ticker tick)) as [pos|] eqn:Hheld;
    [|vm_compute in Hheld; discriminate Hheld].
  assert (EventSimulator.Position.quantity pos = 10%Z) as Hten
    by (vm_compute in Hheld; injection Hheld as <-; reflexivity).
  destruct (execute_sell_closes_held holding_yes tick sell_all pos)
    as (tr & Htrades & _ & _ & _ & Hall & _ & _ & _ & Hgone & _).
  - apply (bool_decide_unpack _). vm_compute. reflexivity.
  - exact Hheld.
  - rewrite Hten. reflexivity.
  - discriminate.
  - exists tr. split; [exact Htrades|].
    assert (EventSimulator.Trade.quantity tr = EventSimulator.Position.quantity pos)
      as Hq by (apply Hall; left; reflexivity).
    split; [by rewrite Hq|]. by apply Hgone.
Defined.

(** The exposure recorded for a series is the cost basis of the positions
    whose ticker starts that series. *)
Lemma cluster_exposures_fold (positions : list PositionModel.Position) (series : string) :
  forall acc : gmap string Q,
    (default 0 (foldl (fun exposures position =>
                         let series := RiskPortfolio.series_of
                                         (PositionModel.ticker position) in
                         <[series := (default 0%Q (exposures !! series)
                                      + PositionModel.cost_basis position)%Q]>
                           exposures) acc positions !! series)
     == default 0 (acc !! series) + series_exposure positions series)%Q.
Proof.
  induction positions as [|p rest IH]; intros acc.
  - unfold series_exposure, Py.sum. cbn. lra.
  - cbn [foldl]. rewrite IH. unfold series_exposure. cbn [List.filter].
    cbv zeta.
    destruct (String.eqb_spec (RiskPortfolio.series_of (PositionModel.ticker p)) series)
      as [->|Hne].
    + rewrite lookup_insert_eq. cbn [map default from_option id].
      rewrite sum_cons. simpl. lra.
    + rewrite lookup_insert_ne by done. reflexivity.
Qed.

Lemma cluster_exposures_spec (positions : list PositionModel.Position) (series : string) :
  (default 0 (RiskPortfolio._calculate_cluster_exposures positions !! series)
   == series_exposure positions series)%Q.
Proof.
  unfold RiskPortfolio._calculate_cluster_exposures.
  rewrite cluster_exposures_fold. rewrite lookup_empty. simpl. lra.
Qed.

Lemma div_positive (x y : Q) :
  (0 < y)%Q -> Py.div x y = Py.Ok (x / y)%Q /\ (x / y * y == x)%Q.
Proof.
  intros Hy. unfold Py.div.
  destruct (Qeq_bool y 0) eqn:E.
  - apply Qeq_bool_iff in E. lra.
  - split; [reflexivity|]. field. lra.
Qed.

(** X27. With a positive account value [approve_signal] never raises, and
    it approves exactly when the drawdown action of the update is not
    STOP, the size (halved under REDUCE, and then at least 10) is at most
    [max_single_position] of the account, and the cost basis of the open
    positions of the signal's series plus that size is at most
    [max_cluster_exposure] of the account.  The verdict is "Approved"
    exactly on approval, and the manager is left as
    [update_account_value] leaves it. *)
Theorem approve_signal_limits (self : RiskManager.t) (now : Q)
    (signal : Signal.DirectionalSignal) (proposed_size : Q)
    (current_positions : list PositionModel.Position) (account_value : Q) :
  (0 < account_value)%Q ->
  let out := RiskPortfolio.approve_signal self now signal proposed_size
               current_positions account_value in
  let action :=
    RiskManager.drawdown_action
      (fst (RiskManager.update_account_value self now account_value)) in
  let size :=
    match action with
    | RiskManager.REDUCE => (proposed_size * 0.5)%Q
    | _ => proposed_size
    end in
  let exposure :=
    series_exposure current_positions
      (RiskPortfolio.series_of (Signal.ticker signal)) in
  let limits := RiskManager.config self in
  exists approved verdict,
    fst out = Py.Ok (approved, verdict) /\
    (approved = true <->
     action <> RiskManager.STOP /\
     (action = RiskManager.REDUCE -> (10 <= size)%Q) /\
     (size <= RiskManager.max_single_position limits * account_value)%Q /\
     (exposure + size <= RiskManager.max_cluster_exposure limits * account_value)%Q) /\
    (approved = true <-> verdict = RiskPortfolio.Approved) /\
    snd out = snd (RiskManager.update_account_value self now account_value).
Proof.
  intros Hacc out action size exposure limits. subst out.
  unfold RiskPortfolio.approve_signal, RiskPortfolio.calculate_portfolio_risk.
  assert (RiskManager.config
            (snd (RiskManager.update_account_value self now account_value))
          = limits) as Hcfg by reflexivity.
  destruct (RiskManager.update_account_value self now account_value)
    as [metrics self'] eqn:Hupd.
  cbn [fst snd] in *. subst action.
  destruct (if RiskPortfolio.truthy current_positions
            then RiskPortfolio._estimate_var_cvar self' current_positions account_value
            else (0%Q, 0%Q)) as [var cvar].
  cbn [RiskPortfolio.snapshot RiskPortfolio.cluster_exposures fst snd].
  rewrite Hcfg.
  pose proof (cluster_exposures_spec current_positions
                (RiskPortfolio.series_of (Signal.ticker signal))) as Hexp.
  fold exposure in Hexp.
  set (cluster := default 0%Q (_ !! _)) in *. clearbody cluster exposure.
  assert (forall x : Q,
            exists approved verdict,
              Py.bind (Py.div x account_value) (fun share =>
                if Py.ltb (RiskManager.max_single_position limits) share
                then Py.Ok (false, RiskPortfolio.ExceedsPositionLimit
                                     (RiskManager.max_single_position limits))
                else
                  Py.bind (Py.div (cluster + x) account_value) (fun cluster_share =>
                    if Py.ltb (RiskManager.max_cluster_exposure limits) cluster_share
                    then Py.Ok (false, RiskPortfolio.ExceedsClusterLimit
                                         (RiskManager.max_cluster_exposure limits))
                    else Py.Ok (true, RiskPortfolio.Approved)))
              = Py.Ok (approved, verdict) /\
              (approved = true <->
               (x <= RiskManager.max_single_position limits * account_value)%Q /\
               (exposure + x
                <= RiskManager.max_cluster_exposure limits * account_value)%Q) /\
              (approved = true <-> verdict = RiskPortfolio.Approved)) as Hcheck.
  { intros x.
    destruct (div_positive x account_value Hacc) as [-> Hshare].
    destruct (div_positive (cluster + x) account_value Hacc) as [-> Hcshare].
    cbn [Py.bind].
    set (share := (x / account_value)%Q) in *.
    set (cshare := ((cluster + x) / account_value)%Q) in *.
    clearbody share cshare.
    set (ms := RiskManager.max_single_position limits).
    set (mc := RiskManager.max_cluster_exposure limits).
    clearbody ms mc.
    destruct (ltb_spec ms share) as [Hs|Hs].
    { eexists _, _. split; [reflexivity|].
      split; [|done]. split; [done|]. intros [Hle _]. nra. }
    destruct (ltb_spec mc cshare) as [Hc|Hc].
    { eexists _, _. split; [reflexivity|].
      split; [|done]. split; [done|]. intros [_ Hle]. nra. }
    eexists _, _. split; [reflexivity|]. split; [|done].
    split; [|done]. intros _. split; nra. }
  subst size.
  destruct (RiskManager.drawdown_action metrics).
  - destruct (Hcheck proposed_size) as (a & v & -> & Ha & Hv).
    exists a, v. split; [done|]. split; [|done].
    rewrite Ha. split; [intros [? ?]|intros (_ & _ & ? & ?)]; by repeat split.
  - destruct (Hcheck proposed_size) as (a & v & -> & Ha & Hv).
    exists a, v. split; [done|]. split; [|done].
    rewrite Ha. split; [intros [? ?]|intros (_ & _ & ? & ?)]; by repeat split.
  - destruct (ltb_spec (proposed_size * 0.5) 10) as [Hsmall|Hbig].
    + eexists _, _. split; [reflexivity|]. split; [|done]. split; [done|].
      intros (_ & Hten & _). specialize (Hten eq_refl). lra.
    + destruct (Hcheck (proposed_size * 0.5)%Q) as (a & v & -> & Ha & Hv).
      exists a, v. split; [done|]. split; [|done].
      rewrite Ha. split; [intros [? ?]|intros (_ & _ & ? & ?)]; repeat split;
        try done. intros _. lra.
  - eexists _, _. split; [reflexivity|]. split; [|done]. split; [done|].
    by intros [? _].
Qed.

(** X27 on a fresh manager with an account of 10 000 that holds 700 of
    the series KXBTC: a further 500 is approved. *)
Lemma approve_signal_limits_witness :
  fst (RiskPortfolio.approve_signal (RiskManager.init RiskManager.default_config)
         0 btc_signal 500 btc_positions 10000)
  = Py.Ok (true, RiskPortfolio.Approved).
Proof.
  destruct (approve_signal_limits (RiskManager.init RiskManager.default_config)
              0 btc_signal 500 btc_positions 10000 eq_refl)
    as (approved & verdict & Hout & Happroved & Hverdict & _).
  assert (approved = true) as ->.
  { apply Happroved. split; [vm_compute; discriminate|].
    split; [vm_compute; discriminate|].
    split; vm_compute; discriminate. }
  rewrite Hout. by rewrite (proj1 Hverdict eq_refl).
Defined.

(** X28. On a manager that has not yet seen a positive account value,
    with positive drawdown thresholds, [approve_signal] called with an
    account value of 0 raises [ZeroDivisionError], whatever the signal,
    the size and the positions: the drawdown is taken as 0, no action is
    due, and the size is divided by the account value. *)
Theorem approve_signal_zero_account (self : RiskManager.t) (now : Q)
    (signal : Signal.DirectionalSignal) (proposed_size : Q)
    (current_positions : list PositionModel.Position) (account_value : Q) :
  (account_value == 0)%Q ->
  (RiskManager._peak_value self <= 0)%Q ->
  (0 < RiskManager.max_drawdown_warning (RiskManager.config self))%Q ->
  (0 < RiskManager.max_drawdown_reduce (RiskManager.config self))%Q ->
  (0 < RiskManager.max_drawdown_stop (RiskManager.config self))%Q ->
  fst (RiskPortfolio.approve_signal self now signal proposed_size
         current_positions account_value)
  = Py.Raise Py.ZeroDivisionError.
Proof.
  intros Hzero Hpeak Hw Hr Hs.
  unfold RiskPortfolio.approve_signal, RiskPortfolio.calculate_portfolio_risk,
    RiskManager.update_account_value.
  cbv zeta.
  set (peak := if Py.ltb (RiskManager._peak_value self) account_value
               then account_value else RiskManager._peak_value self).
  assert (peak <= 0)%Q as Hpeak'
    by (unfold peak; destruct (Py.ltb _ _); lra).
  destruct (ltb_spec 0 peak) as [Habs|_]; [lra|]. clearbody peak.
  destruct (if RiskPortfolio.truthy current_positions then _ else _) as [var cvar].
  cbn [RiskPortfolio.snapshot RiskManager.drawdown_action fst].
  unfold RiskManager._determine_drawdown_action. cbn [RiskManager.config].
  destruct (leb_spec (RiskManager.max_drawdown_stop (RiskManager.config self)) 0);
    [lra|].
  destruct (leb_spec (RiskManager.max_drawdown_reduce (RiskManager.config self)) 0);
    [lra|].
  destruct (leb_spec (RiskManager.max_drawdown_warning (RiskManager.config self)) 0);
    [lra|].
  unfold Py.div at 1. apply Qeq_bool_iff in Hzero. rewrite Hzero. reflexivity.
Qed.

(** X28 on a fresh manager with the default thresholds. *)
Lemma approve_signal_zero_account_witness :
  fst (RiskPortfolio.approve_signal (RiskManager.init RiskManager.default_config)
         0 btc_signal 500 btc_positions 0)
  = Py.Raise Py.ZeroDivisionError.
Proof.
  apply approve_signal_zero_account.
  - reflexivity.
  - cbn. lra.
  - reflexivity.
  - reflexivity.
  - reflexivity.
Defined.

(** An evaluation never adds or removes a tracker. *)
Lemma evaluate_position_dom (self : ProfitTaker.t) (now : Q)
    (position : PositionModel.Position) (current_price : Q) :
  dom (ProfitTaker._tracked_positions
         (snd (ProfitTaker._evaluate_position self now position current_price)))
  = dom (ProfitTaker._tracked_positions self).
Proof.
  unfold ProfitTaker._evaluate_position.
  destruct (ProfitTaker._tracked_positions self !! PositionModel.ticker position)
    as [tr0|] eqn:Htr; [|reflexivity].
  assert (forall tr1,
            dom (ProfitTaker._tracked_positions
                   (ProfitTaker.store self (PositionModel.ticker position) tr1))
            = dom (ProfitTaker._tracked_positions self)) as Hstore.
  { intros tr1. cbn [ProfitTaker.store ProfitTaker._tracked_positions].
    rewrite dom_insert_L. apply set_eq. intros x.
    rewrite elem_of_union, elem_of_singleton. split; [|tauto].
    intros [->|H]; [|exact H]. apply elem_of_dom. by eexists. }
  destruct (Py.ltb _ _); [reflexivity|].
  destruct (ProfitTaker.PositionTracker.update_peak tr0 current_price)
    as [tr1|e]; [|reflexivity].
  destruct (ProfitTaker.PositionTracker.calculate_profit_pct tr1 current_price)
    as [pct|e]; [|apply Hstore].
  destruct (Py.leb pct _); [apply Hstore|].
  destruct (_ && _); [apply Hstore|].
  destruct (Py.leb _ pct).
  - destruct (_ && _); apply Hstore.
  - destruct (ProfitTaker.tier_loop 0 _ tr1 position pct) as [act tr2].
    apply Hstore.
Qed.

Lemma check_loop_dom (clock : nat -> Q) (current_prices : gmap string Q)
    (positions : list PositionModel.Position) :
  forall (self : ProfitTaker.t) (k : nat) (actions acts : list ProfitTaker.ProfitTakeAction.t)
         (self' : ProfitTaker.t),
    ProfitTaker.check_loop self clock k positions current_prices actions
      = (Py.Ok acts, self') ->
    dom (ProfitTaker._tracked_positions self')
      = dom (ProfitTaker._tracked_positions self)
        ∪ list_to_set (map PositionModel.ticker positions) /\
    (length acts <= length actions + length positions)%nat.
Proof.
  induction positions as [|position rest IH]; intros self k actions acts self'.
  - cbn. intros [= <- <-]. split; [|lia]. apply set_eq. intros x.
    rewrite elem_of_union, elem_of_empty. tauto.
  - cbn [ProfitTaker.check_loop map list_to_set length].
    set (ticker := PositionModel.ticker position).
    assert (exists s1 k1,
              match ProfitTaker._tracked_positions self !! ticker with
              | Some _ => (self, k)
              | None => (ProfitTaker.track_position self (clock k) position None, S k)
              end = (s1, k1) /\
              dom (ProfitTaker._tracked_positions s1)
              = {[ticker]} ∪ dom (ProfitTaker._tracked_positions self))
      as (s1 & k1 & -> & Hdom1).
    { destruct (ProfitTaker._tracked_positions self !! ticker) as [tr|] eqn:Htr.
      - eexists _, _. split; [reflexivity|]. apply set_eq. intros x.
        rewrite elem_of_union, elem_of_singleton. split; [tauto|].
        intros [->|H]; [|exact H]. apply elem_of_dom. by eexists.
      - eexists _, _. split; [reflexivity|].
        unfold ProfitTaker.track_position. fold ticker. rewrite Htr.
        cbn [ProfitTaker._tracked_positions]. by rewrite dom_insert_L. }
    assert (forall s2 k2 actions2,
              dom (ProfitTaker._tracked_positions s2)
                = dom (ProfitTaker._tracked_positions s1) ->
              (length actions2 <= S (length actions))%nat ->
              ProfitTaker.check_loop s2 clock k2 rest current_prices actions2
                = (Py.Ok acts, self') ->
              dom (ProfitTaker._tracked_positions self')
                = dom (ProfitTaker._tracked_positions self)
                  ∪ ({[ticker]} ∪ list_to_set (map PositionModel.ticker rest)) /\
              (length acts <= length actions + S (length rest))%nat) as Hrest.
    { intros s2 k2 actions2 Hdom2 Hlen Hloop.
      apply IH in Hloop as [-> Hlen']. split; [|lia].
      rewrite Hdom2, Hdom1. apply set_eq. intros x.
      rewrite !elem_of_union. tauto. }
    destruct (current_prices !! ticker) as [current_price|];
      [|apply Hrest; [reflexivity|lia]].
    pose proof (evaluate_position_dom s1 (clock k1) position current_price) as Hev.
    destruct (ProfitTaker._evaluate_position s1 (clock k1) position current_price)
      as [[action|e] s2]; [|discriminate].
    apply Hrest; [exact Hev|].
    destruct action; [rewrite length_app; cbn|]; lia.
Qed.

Lemma untrack_dom (tickers : list string) :
  forall self : ProfitTaker.t,
    dom (ProfitTaker._tracked_positions (foldl ProfitTaker.untrack_position self tickers))
    = dom (ProfitTaker._tracked_positions self) ∖ list_to_set tickers.
Proof.
  induction tickers as [|ticker rest IH]; intros self; cbn [foldl list_to_set].
  - apply set_eq. intros x. rewrite elem_of_difference, elem_of_empty. tauto.
  - rewrite IH.
    assert (dom (ProfitTaker._tracked_positions
                   (ProfitTaker.untrack_position self ticker))
            = dom (ProfitTaker._tracked_positions self) ∖ {[ticker]}) as ->.
    { unfold ProfitTaker.untrack_position.
      destruct (ProfitTaker._tracked_positions self !! ticker) as [tr|] eqn:Htr.
      - cbn [ProfitTaker._tracked_positions]. by rewrite dom_delete_L.
      - apply set_eq. intros x. rewrite elem_of_difference, elem_of_singleton.
        split; [|tauto]. intros Hx. split; [exact Hx|]. intros ->.
        apply elem_of_dom in Hx as [? Hx]. congruence. }
    apply set_eq. intros x.
    rewrite !elem_of_difference, elem_of_union, elem_of_singleton. tauto.
Qed.

(** X29. A disabled profit-taker returns no action and keeps its
    trackers as they are.  An enabled one, whenever [check_positions]
    returns, tracks exactly the tickers of the positions it was given:
    every position without a tracker has got one, with or without a
    price, and every tracker whose ticker is not among the positions is
    gone.  It returns at most one action per position. *)
Theorem check_positions_tracks_held (self : ProfitTaker.t) (clock : nat -> Q)
    (positions : list PositionModel.Position) (current_prices : gmap string Q) :
  let out := ProfitTaker.check_positions self clock positions current_prices in
  (ProfitTaker.enabled (ProfitTaker.config self) = false -> out = (Py.Ok [], self)) /\
  (ProfitTaker.enabled (ProfitTaker.config self) = true ->
   forall actions, fst out = Py.Ok actions ->
     dom (ProfitTaker._tracked_positions (snd out))
       = list_to_set (map PositionModel.ticker positions) /\
     (length actions <= length positions)%nat).
Proof.
  intros out. subst out. unfold ProfitTaker.check_positions.
  split; [by intros ->|]. intros -> actions. cbn [negb].
  destruct (ProfitTaker.check_loop self clock 0 positions current_prices [])
    as [[acts|e] self1] eqn:Hloop; [|discriminate].
  cbn [fst snd]. intros [= ->].
  apply check_loop_dom in Hloop as [Hdom Hlen]. split; [|exact Hlen].
  rewrite untrack_dom, Hdom. apply set_eq. intros x.
  rewrite elem_of_difference, elem_of_union.
  split.
  2: { intros Hx. split; [by right|].
       rewrite elem_of_list_to_set, list_elem_of_In, filter_In.
       intros [_ Hneg]. by apply negb_true_iff, bool_decide_eq_false in Hneg. }
  intros [Hin Hkeep]. destruct Hin as [Hin|Hin]; [|exact Hin].
  destruct (decide (x ∈ (list_to_set (map PositionModel.ticker positions)
                         : gset string))) as [Hheld|Hnot]; [exact Hheld|].
  exfalso. apply Hkeep.
  rewrite elem_of_list_to_set, list_elem_of_In, filter_In. split.
  - apply list_elem_of_In, list_elem_of_fmap.
    assert (x ∈ dom (ProfitTaker._tracked_positions self1)) as Hx
      by (rewrite Hdom, elem_of_union; by left).
    apply elem_of_dom in Hx as [tr Hx].
    exists (x, tr). split; [done|]. by apply elem_of_map_to_list.
  - apply negb_true_iff, bool_decide_eq_false. exact Hnot.
Qed.

(** X30. For a subset or temporal constraint A ⊂ B with both prices
    known, [calculate_bounds] fails validation when a price lies outside
    [0, 1]; otherwise it returns a lower bound for B at the price of A and
    an upper bound for A at the price of B, both from this constraint.
    Each bound contains the current price of its ticker exactly when A is
    priced at or below B, and when A is priced above B both report the
    same violation, the price difference. *)
Theorem subset_bounds_flag_inversion (constraint : Constraint.Constraint)
    (prices : gmap string Q) (a b : string) (pa pb : Q) :
  Constraint.constraint_type constraint <> Constraint.PARTITION ->
  Constraint.lhs_tickers constraint = [a] ->
  Constraint.rhs_tickers constraint = [b] ->
  prices !! a = Some pa -> prices !! b = Some pb ->
  let r := BoundCalculator.calculate_bounds constraint prices in
  (~ (0 <= pa <= 1 /\ 0 <= pb <= 1)%Q -> r = None) /\
  ((0 <= pa <= 1 /\ 0 <= pb <= 1)%Q ->
   exists for_b for_a,
     r = Some [for_b; for_a] /\
     Constraint.ticker for_b = b /\ Constraint.ticker for_a = a /\
     Constraint.source_constraint_id for_b = Constraint.id constraint /\
     Constraint.source_constraint_id for_a = Constraint.id constraint /\
     (Constraint.contains for_b pb = true <-> (pa <= pb)%Q) /\
     (Constraint.contains for_a pa = true <-> (pa <= pb)%Q) /\
     Constraint.violation for_b pb = Constraint.violation for_a pa /\
     ((pb < pa)%Q -> Constraint.violation for_b pb = (pa - pb)%Q)).
Proof.
  intros Htype Hlhs Hrhs Hpa Hpb r. subst r.
  assert (BoundCalculator.calculate_bounds constraint prices
          = BoundCalculator.calculate_subset_bounds constraint prices) as ->.
  { unfold BoundCalculator.calculate_bounds,
      BoundCalculator.calculate_temporal_bounds.
    by destruct (Constraint.constraint_type constraint). }
  unfold BoundCalculator.calculate_subset_bounds. rewrite Hlhs, Hrhs.
  cbv zeta. rewrite Hpa, Hpb.
  unfold BoundCalculator.new_bound, BoundCalculator.in_unit.
  destruct (leb_spec 0 pa), (leb_spec pa 1), (leb_spec 0 pb), (leb_spec pb 1),
    (leb_spec 0 1), (leb_spec 1 1), (leb_spec 0 0); try lra;
    cbn [andb option_map app];
    (split; [try done; intros Hout; exfalso; apply Hout; lra|]);
    try (intros Hin; exfalso; lra).
  intros _. eexists _, _. split; [reflexivity|].
  unfold Constraint.contains, Constraint.violation.
  cbn [Constraint.ticker Constraint.lower Constraint.upper
       Constraint.source_constraint_id].
  do 4 (split; [reflexivity|]).
  destruct (leb_spec pa pb), (leb_spec pb 1), (leb_spec 0 pa),
    (ltb_spec pb pa), (ltb_spec 1 pb), (ltb_spec pa 0); try lra;
    cbn [andb]; repeat split; try done; try lra.
Qed.

(** X30 on A ⊂ B with A priced at 0.6 and B at 0.5: both bounds report a
    violation of 0.1. *)
Lemma subset_bounds_flag_inversion_witness :
  exists for_b for_a,
    BoundCalculator.calculate_bounds a_in_b inverted_prices = Some [for_b; for_a] /\
    Constraint.violation for_b 0.5 = (0.6 - 0.5)%Q /\
    Constraint.violation for_a 0.6 = (0.6 - 0.5)%Q.
Proof.
  destruct (subset_bounds_flag_inversion a_in_b inverted_prices "A" "B" 0.6 0.5)
    as [_ Hin]; try reflexivity; [discriminate|].
  destruct Hin as (for_b & for_a & Hr & _ & _ & _ & _ & _ & _ & Hsame & Hdiff).
  { split; split; unfold Qle; simpl; lia. }
  exists for_b, for_a. split; [exact Hr|].
  assert (0.5 < 0.6)%Q as Hlt by reflexivity.
  split; [by apply Hdiff|]. rewrite <- Hsame. by apply Hdiff.
Defined.
